(** * historical_weather.py: a shallow embedding and its properties

    The program reads a multi-city weather CSV export into a dictionary
    from city keys to lists of per-day records ([read_file]) and answers
    two queries over one city's list ([days_of_precip], [max_temp_delta]).

    Python values are modelled as follows.
    - [str] is [string] (the text is taken to be ASCII), [int] is [Z],
      [float] is the kernel's binary64 [float] with its IEEE operations.
    - A [dict] is an association list in insertion order with unique keys.
    - A computation is a pair: what it echoed on the error channel, and
      either the exception it raised or the value it returned.
    - The builtins [int], [float] and [round], whose text-to-number
      conversions are not part of the program, are the fields of the class
      [PyBuiltins]; a statement that names no instance holds for every
      one. [datetime.date] follows CPython's constructor, and
      [python_float] is CPython's [float] on ASCII text, for the
      statements that depend on which texts are numbers. *)

From Stdlib Require Import ZArith List String Ascii Bool Lia.
From Stdlib Require Import Floats.
From Stdlib Require Import Permutation.
Import ListNotations.

Local Open Scope string_scope.
Local Open Scope Z_scope.
Local Open Scope list_scope.

(* ================================================================== *)
(** * Python runtime: exceptions, the error channel, containers        *)
(* ================================================================== *)

(** The exceptions that can arise in the program. *)
Inductive exn : Type :=
| StopIteration
| ValueError
| TypeError
| IndexError
| KeyError
| ZeroDivisionError
| OverflowError.

(** What [click.echo(..., err=True)] prints, by call site. *)
Inductive message : Type :=
| CouldNotParseFloat (s : string)                         (* line 22 *)
| ImproperlyFormatted (missing : list string)             (* line 84 *)
| CouldNotParseDate (n : nat) (ymd : list string + list Z) (* line 105 *)
| CouldNotParseWeather (n : nat)                          (* line 116 *)
| CityNotRecognized                                       (* lines 138, 192 *)
| YearOutOfRange                                          (* line 198 *)
| MonthOutOfRange                                         (* line 205 *)
| YearRequired.                                           (* line 211 *)

(** A computation: the messages echoed, then an exception or a value. *)
Definition M (A : Type) : Type := (list message * (exn + A))%type.

Definition ret {A} (a : A) : M A := ([], inr a).
Definition raise {A} (e : exn) : M A := ([], inl e).
Definition echo (m : message) : M unit := ([m], inr tt).
Definition lift {A} (r : exn + A) : M A := ([], r).

Definition bind {A B} (c : M A) (k : A -> M B) : M B :=
  match c with
  | (out, inl e) => (out, inl e)
  | (out, inr a) => let (out', r) := k a in (out ++ out', r)
  end.

Declare Scope py_scope.
Delimit Scope py_scope with py.
Notation "x <- c ;; k" := (bind c (fun x => k))
  (at level 100, c at next level, right associativity) : py_scope.
Notation "c ;;; k" := (bind c (fun _ => k))
  (at level 100, right associativity) : py_scope.
Local Open Scope py_scope.

(** ** [dict]: association list in insertion order *)
Module PyDict.
Section Dict.
Context {K V : Type} (eqb : K -> K -> bool).

Definition dict : Type := list (K * V).

Fixpoint get (d : dict) (k : K) : option V :=
  match d with
  | [] => None
  | (k', v) :: rest => if eqb k' k then Some v else get rest k
  end.

(** [k in d] *)
Definition contains (d : dict) (k : K) : bool :=
  match get d k with Some _ => true | None => false end.

(** [d[k]] as an expression *)
Definition getitem (d : dict) (k : K) : exn + V :=
  match get d k with Some v => inr v | None => inl KeyError end.

(** [d[k] = v]: replaces in place, or appends a new key *)
Fixpoint set (d : dict) (k : K) (v : V) : dict :=
  match d with
  | [] => [(k, v)]
  | (k', v') :: rest =>
      if eqb k' k then (k', v) :: rest else (k', v') :: set rest k v
  end.

Definition keys (d : dict) : list K := map fst d.
Definition values (d : dict) : list V := map snd d.
End Dict.
End PyDict.

Abbreviation sget := (PyDict.get String.eqb).
Abbreviation scontains := (PyDict.contains String.eqb).
Abbreviation sgetitem := (PyDict.getitem String.eqb).
Abbreviation sset := (PyDict.set String.eqb).

(** ** [list] indexing, [l[i]], negative indices counting from the end *)
Definition list_getitem {A} (l : list A) (i : Z) : exn + A :=
  let len := Z.of_nat (List.length l) in
  let j := if i <? 0 then i + len else i in
  if (0 <=? j) && (j <? len) then
    match nth_error l (Z.to_nat j) with
    | Some a => inr a
    | None => inl IndexError
    end
  else inl IndexError.

(** ** [str] methods *)

(** [s.split(sep)] for a one-character separator *)
Fixpoint split (sep : ascii) (s : string) : list string :=
  match s with
  | EmptyString => [EmptyString]
  | String c rest =>
      if Ascii.eqb c sep then EmptyString :: split sep rest
      else match split sep rest with
           | piece :: pieces => String c piece :: pieces
           | [] => [String c EmptyString]
           end
  end.

Definition lower_ascii (c : ascii) : ascii :=
  let n := nat_of_ascii c in
  if (65 <=? n)%nat && (n <=? 90)%nat then ascii_of_nat (n + 32) else c.

(** [s.lower()] *)
Fixpoint lower (s : string) : string :=
  match s with
  | EmptyString => EmptyString
  | String c rest => String (lower_ascii c) (lower rest)
  end.

(** [s.replace(c, empty)] for a one-character [c]: every [c] removed *)
Fixpoint remove_char (c : ascii) (s : string) : string :=
  match s with
  | EmptyString => EmptyString
  | String c' rest =>
      if Ascii.eqb c' c then remove_char c rest
      else String c' (remove_char c rest)
  end.

(** ** [datetime.date] *)
Module Datetime.
Record date : Type := mkdate { year : Z; month : Z; day : Z }.

Definition is_leap (y : Z) : bool :=
  (y mod 4 =? 0) && (negb (y mod 100 =? 0) || (y mod 400 =? 0)).

Definition days_in_month (y m : Z) : Z :=
  if m =? 2 then (if is_leap y then 29 else 28)
  else if (m =? 4) || (m =? 6) || (m =? 9) || (m =? 11) then 30
  else 31.

(** The values of a C [int]. *)
Definition fits_c_int (z : Z) : bool :=
  (-2147483648 <=? z) && (z <=? 2147483647).

(** [date] applied to the unpacked list [args], as CPython's constructor
    proceeds: more than three arguments are a [TypeError]; then every
    argument given is converted to a C [int], which raises
    [OverflowError] for a value outside its range; then a missing
    argument is a [TypeError]; then a year, month or day outside
    1..9999, 1..12, 1..days in that month is a [ValueError]. *)
Definition new (args : list Z) : exn + date :=
  if (3 <? List.length args)%nat then inl TypeError
  else if negb (forallb fits_c_int args) then inl OverflowError
  else
    match args with
    | [y; m; d] =>
        if (1 <=? y) && (y <=? 9999) && (1 <=? m) && (m <=? 12)
           && (1 <=? d) && (d <=? days_in_month y m)
        then inr (mkdate y m d)
        else inl ValueError
    | _ => inl TypeError
    end.
End Datetime.

(** ** Numbers *)

(** [float(n)] for an [int] [n]: the nearest binary64 value. *)
Definition float_of_int (n : Z) : float :=
  SF2Prim (binary_normalize prec emax n 0 false).

(** [a / b] on [int]s. For operands below 2^53, which every count of list
    elements is, the quotient of the two exactly converted operands is
    the correctly rounded result CPython returns. *)
Definition int_truediv (a b : Z) : exn + float :=
  if b =? 0 then inl ZeroDivisionError
  else inr (float_of_int a / float_of_int b)%float.

(** [x > 0] for a [float] [x] and the [int] literal 0. *)
Definition gt_zero (x : float) : bool := (float_of_int 0 <? x)%float.

(** [max(items, key=key)]: the first item is the candidate; a later item
    replaces it only when its key is strictly greater. *)
Fixpoint max_from {A} (key : A -> float) (maxitem : A) (items : list A) : A :=
  match items with
  | [] => maxitem
  | item :: rest =>
      if (key maxitem <? key item)%float then max_from key item rest
      else max_from key maxitem rest
  end.

Definition py_max {A} (key : A -> float) (items : list A) : exn + A :=
  match items with
  | [] => inl ValueError
  | item :: rest => inr (max_from key item rest)
  end.

(** [sum(l)] on [int]s *)
Definition py_sum (l : list Z) : Z := fold_left Z.add l 0.

(** ** The builtin conversions *)
Class PyBuiltins : Type := {
  (** [int(s)] on a [str]: [None] when it raises [ValueError] *)
  py_int : string -> option Z;
  (** [float(s)] on a [str]: [None] when it raises [ValueError] *)
  py_float : string -> option float;
  (** [round(x, ndigits)] *)
  py_round : float -> Z -> float
}.

(* ================================================================== *)
(** * The program                                                      *)
(* ================================================================== *)

(** ** [class Date] (lines 28-47) *)
Record Date : Type := mkDate {
  date : Datetime.date;
  precipitation : float;
  snowfall : float;
  max_temp : float;
  min_temp : float
}.

Definition temp_delta (self : Date) : float :=
  (max_temp self - min_temp self)%float.

Definition total_precipitation (self : Date) : float :=
  (precipitation self + snowfall self)%float.

(** The value of [read_file]: city key to that city's records. *)
Definition dataset : Type := list (string * list Date).

(** The rows [csv.reader] yields, the header row first. *)
Definition csv_rows : Type := list (list string).

(** What a command prints on the primary channel. *)
Inductive output : Type :=
| DaysOfPrecip (city : string) (days_of_precip : float)
| MaxTempDelta (city : string) (day : Datetime.date) (temp_change : float).

(** [data_pos] as first assigned (lines 71-78) *)
Definition initial_data_pos : list (string * Z) :=
  [("NAME", -1); ("DATE", -1); ("PRCP", -1);
   ("SNOW", -1); ("TMAX", -1); ("TMIN", -1)].

(** The loop over [enumerate(headers)] (lines 79-81), from index [n] *)
Fixpoint scan_headers (n : Z) (headers : list string)
    (data_pos : list (string * Z)) : list (string * Z) :=
  match headers with
  | [] => data_pos
  | header :: rest =>
      scan_headers (n + 1) rest
        (if scontains data_pos header then sset data_pos header n
         else data_pos)
  end.

(** Unpacking a [str] into the two targets [(header, pos)]: only a string
    of two characters unpacks, any other length raises [ValueError]. *)
Definition unpack_pair (s : string) : exn + (string * string) :=
  match s with
  | String a (String b EmptyString) =>
      inr (String a EmptyString, String b EmptyString)
  | _ => inl ValueError
  end.

(** [pos == -1] for a [str] [pos]: a [str] never equals an [int]. *)
Definition str_eq_int (pos : string) (i : Z) : bool := false.

(** The comprehension of line 85, which iterates over [data_pos] itself,
    that is over its keys:
    [[header for (header, pos) in data_pos if pos == -1]] *)
Fixpoint missing_headers (data_pos_keys : list string) : exn + list string :=
  match data_pos_keys with
  | [] => inr []
  | key :: rest =>
      match unpack_pair key with
      | inl e => inl e
      | inr (header, pos) =>
          match missing_headers rest with
          | inl e => inl e
          | inr found =>
              inr (if str_eq_int pos (-1) then header :: found else found)
          end
      end
  end.

(** The city key of line 95 from the NAME field *)
Definition city_key (field : string) : exn + string :=
  match list_getitem (split " " field) 0 with
  | inl e => inl e
  | inr first => inr (remove_char "," (lower first))
  end.

(** The [except (ValueError, TypeError)] clause of line 104 *)
Definition date_error_caught (e : exn) : bool :=
  match e with
  | ValueError | TypeError => true
  | _ => false
  end.

(** Lines 96-97: [if name not in data: data[name] = []] *)
Definition ensure_key (data : dataset) (name : string) : dataset :=
  if scontains data name then data else sset data name [].

(** [data[name].append(record)] (line 122) *)
Definition append_record (data : dataset) (name : string) (record : Date)
    : exn + dataset :=
  match sgetitem data name with
  | inl e => inl e
  | inr records => inr (sset data name (records ++ [record]))
  end.

(** The helpers of [days_of_precip] and [max_temp_delta]. *)

(** [city] to the dataset key (lines 147-152 and 220-225); [None] is the
    rejected case of lines 137 and 191. *)
Definition city_name (city : string) : option string :=
  if String.eqb city "bos" then Some "boston"
  else if String.eqb city "jnu" then Some "juneau"
  else if String.eqb city "mia" then Some "miami"
  else None.

(** [data[name]] on what [read_file] returned; subscripting [None] raises
    [TypeError]. *)
Definition city_records (name : string) (data : option dataset)
    : exn + list Date :=
  match data with
  | None => inl TypeError
  | Some d => sgetitem d name
  end.

(** Lines 158-159: [if d.year not in year_days: year_days[d.year] = 0] *)
Definition ensure_year (year_days : list (Z * Z)) (y : Z) : list (Z * Z) :=
  if PyDict.contains Z.eqb year_days y then year_days
  else PyDict.set Z.eqb year_days y 0.

(** The loop of lines 156-161 *)
Fixpoint count_years (dates_with_precip : list Datetime.date)
    (year_days : list (Z * Z)) : exn + list (Z * Z) :=
  match dates_with_precip with
  | [] => inr year_days
  | d :: rest =>
      let y := Datetime.year d in
      let year_days := ensure_year year_days y in
      match PyDict.getitem Z.eqb year_days y with
      | inl e => inl e
      | inr count => count_years rest (PyDict.set Z.eqb year_days y (count + 1))
      end
  end.

(** Lines 154-169: the value printed as [days_of_precip] *)
Definition avg_precip_days (data : list Date) : exn + float :=
  let dates_with_precip :=
    map date (filter (fun d => gt_zero (total_precipitation d)) data) in
  match count_years dates_with_precip [] with
  | inl e => inl e
  | inr year_days =>
      int_truediv (py_sum (PyDict.values year_days))
                  (Z.of_nat (List.length (PyDict.keys year_days)))
  end.

(** [d.date.year == year] for an optional [year]: [None] equals no [int] *)
Definition eq_opt (a : Z) (b : option Z) : bool :=
  match b with
  | Some b' => a =? b'
  | None => false
  end.

Definition tdelta (d : Date) : Datetime.date * float := (date d, temp_delta d).

(** Lines 227-238: the list [tdeltas] *)
Definition select_tdeltas (year month : option Z) (data : list Date)
    : list (Datetime.date * float) :=
  match month with
  | Some m =>
      map tdelta
        (filter (fun d => (Datetime.month (date d) =? m)
                          && eq_opt (Datetime.year (date d)) year) data)
  | None =>
      match year with
      | Some y =>
          map tdelta (filter (fun d => Datetime.year (date d) =? y) data)
      | None => map tdelta data
      end
  end.

(** Line 197: [year is not None and (year >= 2020 or year < 2010)] *)
Definition year_rejected (year : option Z) : bool :=
  match year with
  | Some y => (y >=? 2020) || (y <? 2010)
  | None => false
  end.

Section Program.
Context {B : PyBuiltins}.

(** ** [float_catch] (lines 13-25) *)
Definition float_catch (string : string) : M (option float) :=
  if (String.length string =? 0)%nat then ret (Some (float_of_int 0))
  else
    match py_float string with
    | Some x => ret (Some x)
    | None => echo (CouldNotParseFloat string) ;;; ret None
    end.

(** ** [read_file] (lines 60-126) *)

(** The comprehension [[int(d) for d in ymd]] (line 102) *)
Fixpoint int_all (ymd : list string) : option (list Z) :=
  match ymd with
  | [] => Some []
  | d :: rest =>
      match py_int d with
      | None => None
      | Some z =>
          match int_all rest with
          | None => None
          | Some zs => Some (z :: zs)
          end
      end
  end.

(** The [try] body of lines 102-103: the date, or the exception together
    with the value [ymd] holds when it is raised. *)
Definition read_date (ymd : list string)
    : (exn * (list string + list Z)) + Datetime.date :=
  match int_all ymd with
  | None => inl (ValueError, inl ymd)
  | Some ints =>
      match Datetime.new ints with
      | inl e => inl (e, inr ints)
      | inr day => inr day
      end
  end.

(** [float_catch(row[data_pos[column]])] (lines 111-114) *)
Definition read_number (data_pos : list (string * Z)) (row : list string)
    (column : string) : M (option float) :=
  pos <- lift (sgetitem data_pos column) ;;
  field <- lift (list_getitem row pos) ;;
  float_catch field.

(** The body of the loop over the data rows (lines 95-124); [continue]
    and falling off the end both hand [data] to the next iteration. *)
Definition process_row (data_pos : list (string * Z)) (n : nat)
    (row : list string) (data : dataset) : M dataset :=
  name_pos <- lift (sgetitem data_pos "NAME") ;;
  name_field <- lift (list_getitem row name_pos) ;;
  name <- lift (city_key name_field) ;;
  let data := ensure_key data name in
  date_pos <- lift (sgetitem data_pos "DATE") ;;
  date_field <- lift (list_getitem row date_pos) ;;
  match read_date (split "-" date_field) with
  | inl (e, ymd) =>
      if date_error_caught e
      then echo (CouldNotParseDate n ymd) ;;; ret data
      else raise e
  | inr day =>
      precipitation <- read_number data_pos row "PRCP" ;;
      snowfall <- read_number data_pos row "SNOW" ;;
      max_temp <- read_number data_pos row "TMAX" ;;
      min_temp <- read_number data_pos row "TMIN" ;;
      match precipitation, snowfall, max_temp, min_temp with
      | Some p, Some s, Some tmax, Some tmin =>
          lift (append_record data name (mkDate day p s tmax tmin))
      | _, _, _, _ => echo (CouldNotParseWeather n) ;;; ret data
      end
  end.

(** [for n, row in enumerate(reader)] (line 91), from index [n] *)
Fixpoint read_rows (data_pos : list (string * Z)) (n : nat)
    (rows : csv_rows) (data : dataset) : M dataset :=
  match rows with
  | [] => ret data
  | row :: rest =>
      data' <- process_row data_pos n row data ;;
      read_rows data_pos (S n) rest data'
  end.

(** [read_file] on the rows of the file; [Some data] is [return data],
    [None] the bare [return] of line 88. *)
Definition read_file (csv : csv_rows) : M (option dataset) :=
  match csv with
  | [] => raise StopIteration
  | headers :: rows =>
      let data_pos := scan_headers 0 headers initial_data_pos in
      if existsb (Z.eqb (-1)) (PyDict.values data_pos) then
        missing <- lift (missing_headers (PyDict.keys data_pos)) ;;
        echo (ImproperlyFormatted missing) ;;;
        ret None
      else
        data <- read_rows data_pos 0 rows [] ;;
        ret (Some data)
  end.

(** ** [days_of_precip] (lines 136-173); [csv] is the content of the
    default file. [None] is a return without output. *)
Definition days_of_precip (city : string) (csv : csv_rows)
    : M (option output) :=
  match city_name city with
  | None => echo CityNotRecognized ;;; ret None
  | Some name =>
      data <- read_file csv ;;
      records <- lift (city_records name data) ;;
      avg <- lift (avg_precip_days records) ;;
      ret (Some (DaysOfPrecip city avg))
  end.

(** ** [max_temp_delta] (lines 190-251) *)

(** Lines 240-246: the date and the rounded delta that are printed *)
Definition max_temp_delta_query (year month : option Z) (data : list Date)
    : exn + (Datetime.date * float) :=
  match py_max snd (select_tdeltas year month data) with
  | inl e => inl e
  | inr date_max_delta =>
      inr (fst date_max_delta, py_round (snd date_max_delta) 14)
  end.

(** Lines 203-215: the checks on [month] *)
Definition month_rejected (year month : option Z) : option message :=
  match month with
  | Some m =>
      if (m >? 12) || (m <? 1) then Some MonthOutOfRange
      else match year with
           | None => Some YearRequired
           | Some _ => None
           end
  | None => None
  end.

Definition max_temp_delta (year month : option Z) (city : string)
    (csv : csv_rows) : M (option output) :=
  match city_name city with
  | None => echo CityNotRecognized ;;; ret None
  | Some name =>
      if year_rejected year then echo YearOutOfRange ;;; ret None
      else
        match month_rejected year month with
        | Some m => echo m ;;; ret None
        | None =>
            data <- read_file csv ;;
            records <- lift (city_records name data) ;;
            result <- lift (max_temp_delta_query year month records) ;;
            ret (Some (MaxTempDelta city (fst result) (snd result)))
        end
  end.
End Program.

(* ================================================================== *)
(** * An instance of the builtins on plain decimal literals            *)
(* ================================================================== *)

(** The instance below agrees with CPython on the texts used in the
    examples: optionally signed decimal literals of at most 15 digits,
    and [round(x, 14)] of a value with fewer than 14 decimals. *)

Definition digit_value (c : ascii) : option Z :=
  let n := nat_of_ascii c in
  if (48 <=? n)%nat && (n <=? 57)%nat then Some (Z.of_nat (n - 48)) else None.

Fixpoint digits_value (acc : Z) (s : string) : option Z :=
  match s with
  | EmptyString => Some acc
  | String c rest =>
      match digit_value c with
      | Some d => digits_value (10 * acc + d) rest
      | None => None
      end
  end.

Definition unsigned_int (s : string) : option Z :=
  match s with
  | EmptyString => None
  | _ => digits_value 0 s
  end.

Definition decimal_int (s : string) : option Z :=
  match s with
  | String "-" rest => option_map Z.opp (unsigned_int rest)
  | _ => unsigned_int s
  end.

Definition unsigned_float (s : string) : option float :=
  match split "." s with
  | [whole] => option_map float_of_int (unsigned_int whole)
  | [whole; frac] =>
      match unsigned_int (whole ++ frac)%string with
      | Some m =>
          Some (float_of_int m
                / float_of_int (10 ^ Z.of_nat (String.length frac)))%float
      | None => None
      end
  | _ => None
  end.

Definition decimal_float (s : string) : option float :=
  match s with
  | String "-" rest => option_map PrimFloat.opp (unsigned_float rest)
  | _ => unsigned_float s
  end.

Definition literal_builtins : PyBuiltins :=
  {| py_int := decimal_int;
     py_float := decimal_float;
     py_round := fun x _ => x |}.

(* ================================================================== *)
(** * The builtin [float] on ASCII text                                *)
(* ================================================================== *)

(** [float(s)] as the language reference gives it:
    [floatvalue ::= [sign] (floatnumber | infinity | nan)],
    [floatnumber ::= number [exponent]],
    [number ::= digitpart ["." [digitpart]] | "." digitpart],
    [exponent ::= ("e" | "E") [sign] digitpart],
    [digitpart ::= digit (["_"] digit)*], between white space that is
    dropped; the value is the binary64 number nearest to the decimal
    one. The model is for ASCII text: the white space and the digits of
    Unicode that [float] also takes are left out. *)

(** The white space [float] strips: space, tab, line feed, vertical tab,
    form feed and carriage return. *)
Definition is_space (c : ascii) : bool :=
  let n := nat_of_ascii c in
  (n =? 32)%nat || ((9 <=? n)%nat && (n <=? 13)%nat).

Fixpoint lstrip (s : string) : string :=
  match s with
  | EmptyString => EmptyString
  | String c rest => if is_space c then lstrip rest else s
  end.

Fixpoint rstrip (s : string) : string :=
  match s with
  | EmptyString => EmptyString
  | String c rest =>
      match rstrip rest with
      | EmptyString => if is_space c then EmptyString else String c EmptyString
      | kept => String c kept
      end
  end.

(** An optional sign: whether it is a minus, and the text after it. *)
Definition take_sign (s : string) : bool * string :=
  match s with
  | String "-" rest => (true, rest)
  | String "+" rest => (false, rest)
  | _ => (false, s)
  end.

(** The text before the first character that satisfies [p], and the text
    after that character if there is one. *)
Fixpoint break (p : ascii -> bool) (s : string) : string * option string :=
  match s with
  | EmptyString => (EmptyString, None)
  | String c rest =>
      if p c then (EmptyString, Some rest)
      else let (before, after) := break p rest in (String c before, after)
  end.

Definition is_dot (c : ascii) : bool := Ascii.eqb c ".".
Definition is_exp (c : ascii) : bool := Ascii.eqb c "e" || Ascii.eqb c "E".

(** A digit part: digits with single underscores between them. From the
    value [acc] and the count [n] of digits read so far, the value and
    count after the text; [after_digit] tells whether the character
    before was a digit. *)
Fixpoint digit_part (acc : Z) (n : nat) (after_digit : bool) (s : string)
    : option (Z * nat) :=
  match s with
  | EmptyString => if after_digit then Some (acc, n) else None
  | String c rest =>
      match digit_value c with
      | Some d => digit_part (10 * acc + d) (S n) true rest
      | None =>
          if Ascii.eqb c "_" && after_digit then digit_part acc n false rest
          else None
      end
  end.

(** The digits of a number, [digitpart ["." [digitpart]] | "." digitpart]:
    the integer they write and how many of them follow the point. *)
Definition number_digits (s : string) : option (Z * nat) :=
  let (whole, after) := break is_dot s in
  let whole_only :=
    option_map (fun r => (fst r, O)) (digit_part 0 0 false whole) in
  match after with
  | None => whole_only
  | Some frac =>
      match whole, frac with
      | EmptyString, _ => digit_part 0 0 false frac
      | _, EmptyString => whole_only
      | _, _ =>
          match digit_part 0 0 false whole with
          | Some (w, _) => digit_part w 0 false frac
          | None => None
          end
      end
  end.

(** An exponent, [[sign] digitpart]. *)
Definition exponent_value (s : string) : option Z :=
  let (neg, digits) := take_sign s in
  match digit_part 0 0 false digits with
  | Some (e, _) => Some (if neg then - e else e)
  | None => None
  end.

(** The binary64 value nearest to [m * 10 ^ e] for [0 <= m], ties to
    even, with the sign [neg]. *)
Definition nearest_float (neg : bool) (m e : Z) : float :=
  let magnitude :=
    if m =? 0 then S754_zero false
    else if 0 <=? e then binary_normalize prec emax (m * 10 ^ e) 0 false
    else SFdiv prec emax (S754_finite false (Z.to_pos m) 0)
                         (S754_finite false (Z.to_pos (10 ^ (- e))) 0) in
  SF2Prim (if neg then SFopp magnitude else magnitude).

(** [floatnumber]: a number with an optional exponent. *)
Definition float_number (neg : bool) (s : string) : option float :=
  let (mantissa, exponent) := break is_exp s in
  match number_digits mantissa with
  | Some (m, nfrac) =>
      match exponent with
      | None => Some (nearest_float neg m (- Z.of_nat nfrac))
      | Some text =>
          match exponent_value text with
          | Some e => Some (nearest_float neg m (e - Z.of_nat nfrac))
          | None => None
          end
      end
  | None => None
  end.

(** [float(s)] for a [str] of ASCII characters: white space at both ends
    is dropped; after an optional sign come [inf], [infinity] or [nan] in
    any case, or a number. [None] is [ValueError]. *)
Definition python_float (s : string) : option float :=
  let (neg, body) := take_sign (rstrip (lstrip s)) in
  let word := lower body in
  if String.eqb word "inf" || String.eqb word "infinity"
  then Some (if neg then neg_infinity else infinity)
  else if String.eqb word "nan" then Some nan
  else float_number neg body.

(** The builtins with [float] as above; [int] and [round] as in
    [literal_builtins]. *)
Definition python_builtins : PyBuiltins :=
  {| py_int := decimal_int;
     py_float := python_float;
     py_round := fun x _ => x |}.

(* ================================================================== *)
(** * Vocabulary of the statements                                     *)
(* ================================================================== *)

Definition required_headers : list string :=
  ["NAME"; "DATE"; "PRCP"; "SNOW"; "TMAX"; "TMIN"].

Definition has_header (headers : list string) (h : string) : bool :=
  existsb (String.eqb h) headers.

Definition has_required_headers (headers : list string) : bool :=
  forallb (has_header headers) required_headers.

(** The index of the last header equal to [h] when the headers are
    numbered from [n], [pos] when there is none. *)
Fixpoint pos_after (h : string) (n : Z) (headers : list string) (pos : Z) : Z :=
  match headers with
  | [] => pos
  | header :: rest =>
      pos_after h (n + 1) rest (if String.eqb header h then n else pos)
  end.

(** The column of header [h], [-1] when the header row lacks it. *)
Definition column (headers : list string) (h : string) : Z :=
  pos_after h 0 headers (-1).

(** A [data_pos] dictionary with the given six positions. *)
Definition positions (name day prcp snow tmax tmin : Z) : list (string * Z) :=
  [("NAME", name); ("DATE", day); ("PRCP", prcp);
   ("SNOW", snow); ("TMAX", tmax); ("TMIN", tmin)].

(** The field of [row] under header [h]. *)
Definition cell (headers row : list string) (h : string) : option string :=
  nth_error row (Z.to_nat (column headers h)).

Definition has_cell (headers row : list string) (h : string) : bool :=
  match cell headers row h with
  | Some _ => true
  | None => false
  end.

(** [row] has a field under every required header. *)
Definition wide_enough (headers row : list string) : bool :=
  forallb (fun h => column headers h <? Z.of_nat (List.length row))
          required_headers.

(** The city key of a NAME field. *)
Definition city_of (field : string) : string :=
  remove_char "," (lower (hd EmptyString (split " " field))).

(** The city key of a data row, when it has a NAME field. *)
Definition row_city (headers row : list string) : option string :=
  option_map city_of (cell headers row "NAME").

(** The records a dataset holds for [city], none for an absent key. *)
Definition records_of (data : dataset) (city : string) : list Date :=
  match sget data city with
  | Some records => records
  | None => []
  end.

(** A diagnostic that reports data row [n] as skipped. *)
Definition skip_diagnostic (n : nat) (m : message) : Prop :=
  match m with
  | CouldNotParseDate n' _ | CouldNotParseWeather n' => n' = n
  | _ => False
  end.

(** The invariant claimed for the returned dataset: no key with an empty
    sequence. *)
Definition every_city_has_a_record (data : dataset) : Prop :=
  forall city records, sget data city = Some records -> records <> [].

(** The record with positive total precipitation (line 154). *)
Definition has_precip (d : Date) : bool := gt_zero (total_precipitation d).

(** The number of dates that fall in year [y]. *)
Definition days_in_year (y : Z) (dates : list Datetime.date) : Z :=
  Z.of_nat (List.length (filter (fun d => Datetime.year d =? y) dates)).

Definition sumZ (l : list Z) : Z := fold_right Z.add 0 l.

(** The record's date falls in year [y], in a month numbered [m]. *)
Definition in_year (y : Z) (d : Date) : bool := Datetime.year (date d) =? y.
Definition in_month (m : Z) (d : Date) : bool := Datetime.month (date d) =? m.

(** The records the year/month rule considers; a month without a year,
    which the command rejects, matches no record. *)
Definition considered (year month : option Z) (data : list Date) : list Date :=
  match year, month with
  | None, None => data
  | Some y, None => filter (in_year y) data
  | Some y, Some m => filter (fun d => in_year y d && in_month m d) data
  | None, Some _ => []
  end.

(** The length of month [m] of year [y] in the Gregorian calendar. *)
Definition month_length (y m : Z) : Z :=
  let february :=
    if (y mod 400 =? 0) then 29
    else if (y mod 100 =? 0) then 28
    else if (y mod 4 =? 0) then 29
    else 28 in
  nth (Z.to_nat (m - 1))
      [31; february; 31; 30; 31; 30; 31; 31; 30; 31; 30; 31] 0.

(** Year 1..9999, month 1..12 and a day of that month. *)
Definition calendar_date (y m d : Z) : bool :=
  (1 <=? y) && (y <=? 9999) && (1 <=? m) && (m <=? 12)
  && (1 <=? d) && (d <=? month_length y m).

Definition c_int_range (z : Z) : bool := (- 2 ^ 31 <=? z) && (z <? 2 ^ 31).

Section Vocabulary.
Context {B : PyBuiltins}.

(** The numeric parser of the specification: empty text is zero. *)
Definition parse_number (text : string) : option float :=
  match text with
  | EmptyString => Some (float_of_int 0)
  | _ => py_float text
  end.

(** The components of a DATE field as integers, when each of them is
    one. *)
Definition date_components (text : string) : option (list Z) :=
  fold_right
    (fun piece rest =>
       match py_int piece, rest with
       | Some z, Some zs => Some (z :: zs)
       | _, _ => None
       end)
    (Some []) (split "-" text).

(** A DATE field parses when it has exactly three components, each an
    integer, that form a calendar date. *)
Definition parse_date (text : string) : option Datetime.date :=
  match date_components text with
  | Some [y; m; d] =>
      if calendar_date y m d then Some (Datetime.mkdate y m d) else None
  | _ => None
  end.

(** A DATE field on which [date] raises [OverflowError]: at most three
    integer components, one of them outside the range of a C [int]. *)
Definition date_overflows (text : string) : bool :=
  match date_components text with
  | Some ints =>
      (List.length ints <=? 3)%nat && negb (forallb c_int_range ints)
  | None => false
  end.

(** The DATE field of the row, if it has one, does not overflow. *)
Definition date_fits (headers row : list string) : bool :=
  match cell headers row "DATE" with
  | Some d => negb (date_overflows d)
  | None => true
  end.

(** A data row the loop body can work through: it has a NAME and a DATE
    field and, when the date parses, a field under each of the four
    numeric headers. *)
Definition readable (headers row : list string) : bool :=
  match cell headers row "NAME", cell headers row "DATE" with
  | Some _, Some d =>
      match parse_date d with
      | None => true
      | Some _ =>
          has_cell headers row "PRCP" && has_cell headers row "SNOW"
          && has_cell headers row "TMAX" && has_cell headers row "TMIN"
      end
  | _, _ => false
  end.

(** The Record a data row stands for: it exists only when the date and
    the four numeric fields all parse. *)
Definition row_record (headers row : list string) : option Date :=
  match cell headers row "DATE", cell headers row "PRCP",
        cell headers row "SNOW", cell headers row "TMAX",
        cell headers row "TMIN" with
  | Some d, Some p, Some s, Some tmax, Some tmin =>
      match parse_date d, parse_number p, parse_number s,
            parse_number tmax, parse_number tmin with
      | Some day, Some p', Some s', Some tmax', Some tmin' =>
          Some (mkDate day p' s' tmax' tmin')
      | _, _, _, _, _ => None
      end
  | _, _, _, _, _ => None
  end.

(** The records of [city] among the data rows, in file order. *)
Definition records_in (headers : list string) (rows : csv_rows)
    (city : string) : list Date :=
  flat_map
    (fun row =>
       match row_city headers row, row_record headers row with
       | Some c, Some r => if String.eqb c city then [r] else []
       | _, _ => []
       end) rows.
End Vocabulary.

(** The dataset after a data row of city [c] has been read: the key is
    present, and the row's record, if it has one, is at the end of the
    city's sequence. *)
Definition add_record (data : dataset) (c : string) (r : option Date)
    : dataset :=
  match r with
  | Some r => sset (ensure_key data c) c (records_of data c ++ [r])
  | None => ensure_key data c
  end.

(** Some data row names [city]. *)
Definition names_city (headers : list string) (rows : csv_rows)
    (city : string) : bool :=
  existsb (fun row => match row_city headers row with
                      | Some c => String.eqb c city
                      | None => false
                      end) rows.

(** ** The texts the statements about [float_catch] speak of *)

(** Every character of the text satisfies [p]. *)
Fixpoint all_chars (p : ascii -> bool) (s : string) : bool :=
  match s with
  | EmptyString => true
  | String c rest => p c && all_chars p rest
  end.

(** The text has a decimal digit. *)
Fixpoint has_digit (s : string) : bool :=
  match s with
  | EmptyString => false
  | String c rest =>
      match digit_value c with Some _ => true | None => has_digit rest end
  end.

(** A decimal literal: an optional sign ([Some true] is a minus), then
    the digits [whole] and, if [frac] is given, a point and the digits
    [frac]. *)
Definition sign_text (sign : option bool) : string :=
  match sign with
  | None => ""
  | Some false => "+"
  | Some true => "-"
  end.

Definition is_minus (sign : option bool) : bool :=
  match sign with Some true => true | _ => false end.

Definition frac_digits (frac : option string) : string :=
  match frac with Some digits => digits | None => "" end.

Definition decimal_text (sign : option bool) (whole : string)
    (frac : option string) : string :=
  sign_text sign ++ whole
  ++ match frac with Some digits => "." ++ digits | None => "" end.

(** The text is one of the words inf, infinity and nan in any case,
    after an optional sign and between white space. *)
Definition special_word (s : string) : bool :=
  existsb (String.eqb (lower (snd (take_sign (rstrip (lstrip s))))))
          ["inf"; "infinity"; "nan"].

(** A character of ASCII. *)
Definition is_ascii (c : ascii) : bool := (nat_of_ascii c <? 128)%nat.

(** The characters that occur in the texts [float] accepts: white space,
    digits, signs, the point, the underscore, the exponent mark and the
    letters of inf, infinity and nan. *)
Definition float_char (c : ascii) : bool :=
  is_space c
  || match digit_value c with Some _ => true | None => false end
  || existsb (Ascii.eqb c) (list_ascii_of_string "+-._eEiInNfFtTyYaA").

(* ================================================================== *)
(** * Example data                                                     *)
(* ================================================================== *)

Definition example_headers : list string :=
  ["STATION"; "NAME"; "DATE"; "PRCP"; "SNOW"; "TMAX"; "TMIN"].

(** Two valid Boston rows around a row with the date 2015-13-40 and a
    Miami row with a non-numeric PRCP field, then a Juneau row that ends
    after a DATE field that is no date. *)
Definition example_csv : csv_rows :=
  [example_headers;
   ["USW14739"; "BOSTON, MA US"; "2015-01-01"; "0.5"; ""; "40"; "30.5"];
   ["USW14739"; "BOSTON, MA US"; "2015-13-40"; "0.5"; ""; "40"; "30.5"];
   ["USW12839"; "MIAMI INTERNATIONAL AIRPORT, FL US"; "2015-01-02";
    "abc"; ""; "80"; "70.5"];
   ["USW14739"; "BOSTON, MA US"; "2016-02-29"; ""; "1.25"; "50"; "30.5"];
   ["USW25309"; "JUNEAU AIRPORT, AK US"; "n/a"]].

(** The dataset and the messages [read_file] yields on [example_csv]. *)
Definition example_boston : list Date :=
  [mkDate (Datetime.mkdate 2015 1 1) 0.5 0 40 30.5;
   mkDate (Datetime.mkdate 2016 2 29) 0 1.25 50 30.5].

Definition example_dataset : dataset :=
  [("boston", example_boston); ("miami", []); ("juneau", [])].

Definition example_log : list message :=
  [CouldNotParseDate 1 (inr [2015; 13; 40]);
   CouldNotParseFloat "abc"; CouldNotParseWeather 2;
   CouldNotParseDate 4 (inl ["n/a"])].

(** One data row, whose date does not parse. *)
Definition bad_date_csv : csv_rows :=
  [required_headers; ["BOSTON, MA US"; "2015-13-40"; ""; ""; ""; ""]].

(** A blank line after the header row: [csv.reader] yields an empty row. *)
Definition blank_line_csv : csv_rows := [required_headers; []].

(** A valid row, then a row whose year does not fit a C [int]. *)
Definition overflow_csv : csv_rows :=
  [required_headers;
   ["BOSTON, MA US"; "2015-01-01"; "0.5"; ""; "40"; "30.5"];
   ["BOSTON, MA US"; "2147483648-01-01"; "0.5"; ""; "40"; "30.5"]].

(** A valid row, a row dated 2015-13-40, then a blank line. *)
Definition bad_date_blank_csv : csv_rows :=
  [required_headers;
   ["BOSTON, MA US"; "2015-01-01"; "0.5"; ""; "40"; "30.5"];
   ["BOSTON, MA US"; "2015-13-40"; "0.5"; ""; "40"; "30.5"];
   []].

(** Two Miami days without rain or snow, and the records they give. *)
Definition dry_csv : csv_rows :=
  [required_headers;
   ["MIAMI INTERNATIONAL AIRPORT, FL US"; "2015-01-02"; "0"; ""; "80"; "70.5"];
   ["MIAMI INTERNATIONAL AIRPORT, FL US"; "2015-01-03"; ""; ""; "81"; "70"]].

Definition dry_miami : list Date :=
  [mkDate (Datetime.mkdate 2015 1 2) 0 0 80 70.5;
   mkDate (Datetime.mkdate 2015 1 3) 0 0 81 70].

(** A Boston day whose two temperatures are written inf, then a day with
    the temperatures 50 and 30. *)
Definition inf_csv : csv_rows :=
  [required_headers;
   ["BOSTON, MA US"; "2015-01-01"; ""; ""; "inf"; "inf"];
   ["BOSTON, MA US"; "2015-01-02"; ""; ""; "50"; "30"]].

(** Three days with precipitation or snow in 2015, two in 2016, and a
    dry day. *)
Definition precip_example : list Date :=
  [mkDate (Datetime.mkdate 2015 1 5) 0.5 0 40 30.5;
   mkDate (Datetime.mkdate 2015 2 9) 0 2.5 30 20;
   mkDate (Datetime.mkdate 2016 3 1) 1.25 0 50 41;
   mkDate (Datetime.mkdate 2015 7 4) 0.25 0 85 70;
   mkDate (Datetime.mkdate 2016 7 4) 0 0 88 71;
   mkDate (Datetime.mkdate 2016 12 24) 0.5 1.5 33 20].

(** Temperature deltas 5.5, 12.5, 12.5 and 3.0: the maximum occurs
    twice. *)
Definition delta_example : list Date :=
  [mkDate (Datetime.mkdate 2015 1 1) 0 0 40.5 35;
   mkDate (Datetime.mkdate 2015 1 2) 0 0 42.5 30;
   mkDate (Datetime.mkdate 2015 1 3) 0 0 50 37.5;
   mkDate (Datetime.mkdate 2016 1 1) 0 0 33 30].

(** A command that echoes a diagnostic and returns without a result, as
    the commands do on arguments they reject. *)
Definition reports_error {A} (c : M (option A)) : Prop :=
  exists log m, c = (log ++ [m], inr None).

(** A command that ends with an exception nothing catches. *)
Definition crashes {A} (c : M A) : Prop :=
  exists log e, c = (log, inl e).

(* ================================================================== *)
(** * Vocabulary and models for the properties beyond the claims       *)
(* ================================================================== *)

(** Valid arguments of [max_temp_delta]: a known city, a year from 2010 to
    2019 if one is given, a month from 1 to 12 if one is given, and no
    month without a year. *)
Definition args_ok (year month : option Z) (city : string) : bool :=
  existsb (String.eqb city) ["bos"; "jnu"; "mia"]
  && match year with
     | Some y => (2010 <=? y) && (y <=? 2019)
     | None => true
     end
  && match month with
     | Some m =>
         (1 <=? m) && (m <=? 12)
         && match year with Some _ => true | None => false end
     | None => true
     end.

(** Two rows with the same field under every required header. *)
Definition same_cells (headers row row' : list string) : Prop :=
  forall h, In h required_headers -> cell headers row h = cell headers row' h.

(** ** [DataEncoder] (lines 50-57) *)

(** The objects the encoder can be handed: an instance of the program's
    class [Date], a [datetime.date], or a value [json] serialises by
    itself. *)
#[warnings="-register-all"]
Inductive pyvalue : Type :=
| VRecord (o : Date)
| VDay (o : Datetime.date)
| VFloat (x : float)
| VStr (s : string)
| VDict (items : list (string * pyvalue)).

(** The character of the last decimal digit of [k]. *)
Definition digit_char (k : Z) : ascii :=
  ascii_of_nat (48 + Z.to_nat (k mod 10)).

(** [n] printed with [width] digits, zero-padded ([n] below 10^width). *)
Fixpoint zero_padded (width : nat) (n : Z) : string :=
  match width with
  | O => EmptyString
  | S w => (zero_padded w (n / 10) ++ String (digit_char n) EmptyString)%string
  end.

(** [str(d)] for a [datetime.date]: year, month and day with four, two
    and two digits. *)
Definition date_str (d : Datetime.date) : string :=
  (zero_padded 4 (Datetime.year d) ++ "-"
   ++ zero_padded 2 (Datetime.month d) ++ "-"
   ++ zero_padded 2 (Datetime.day d))%string.

Module DataEncoder.
(** [default(o)]: the attribute dictionary of a [Date], the text of a
    [date]; anything else goes to [JSONEncoder.default], which raises
    [TypeError]. *)
Definition default (o : pyvalue) : exn + pyvalue :=
  match o with
  | VRecord r =>
      inr (VDict [("date", VDay (date r));
                  ("precipitation", VFloat (precipitation r));
                  ("snowfall", VFloat (snowfall r));
                  ("max_temp", VFloat (max_temp r));
                  ("min_temp", VFloat (min_temp r))])
  | VDay d => inr (VStr (date_str d))
  | _ => inl TypeError
  end.
End DataEncoder.

(** A text of decimal digits only. *)
Fixpoint all_digits (s : string) : bool :=
  match s with
  | EmptyString => true
  | String c rest =>
      match digit_value c with Some _ => all_digits rest | None => false end
  end.

(** Example data for the properties beyond the claims. *)

(** Two rows, both with a Record. *)
Definition clean_csv : csv_rows :=
  [example_headers;
   ["USW14739"; "BOSTON, MA US"; "2015-01-01"; "0.5"; ""; "40"; "30.5"];
   ["USW14739"; "BOSTON, MA US"; "2016-02-29"; ""; "1.25"; "50"; "30.5"]].

(** The data rows of [example_csv] with another text in the STATION column,
    which is not a required one. *)
Definition example_rows_relabelled : csv_rows :=
  [["B"; "BOSTON, MA US"; "2015-01-01"; "0.5"; ""; "40"; "30.5"];
   ["B"; "BOSTON, MA US"; "2015-13-40"; "0.5"; ""; "40"; "30.5"];
   ["M"; "MIAMI INTERNATIONAL AIRPORT, FL US"; "2015-01-02";
    "abc"; ""; "80"; "70.5"];
   ["B"; "BOSTON, MA US"; "2016-02-29"; ""; "1.25"; "50"; "30.5"];
   ["J"; "JUNEAU AIRPORT, AK US"; "n/a"]].

(** A first record whose two temperatures are both infinite, so that
    its delta is not a number, before a record with the delta 20. *)
Definition nan_example : list Date :=
  [mkDate (Datetime.mkdate 2015 1 1) 0 0 infinity infinity;
   mkDate (Datetime.mkdate 2015 1 2) 0 0 50 30].

(* ================================================================== *)
(** * Lemmas on the runtime                                            *)
(* ================================================================== *)

Lemma bind_lift_inr {A C} (a : A) (k : A -> M C) : bind (lift (inr a)) k = k a.
Proof. unfold bind, lift. destruct (k a). reflexivity. Qed.

Lemma bind_lift_inl {A C} (e : exn) (k : A -> M C) :
  bind (lift (inl e)) k = ([], inl e).
Proof. reflexivity. Qed.

Lemma bind_ret {A C} (a : A) (k : A -> M C) : bind (ret a) k = k a.
Proof. apply bind_lift_inr. Qed.

Lemma bind_inr {A C} out (a : A) (k : A -> M C) :
  bind (out, inr a) k = (out ++ fst (k a), snd (k a)).
Proof. unfold bind. destruct (k a). reflexivity. Qed.

Lemma bind_inl {A C} out (e : exn) (k : A -> M C) :
  bind (out, inl e) k = (out, inl e).
Proof. reflexivity. Qed.

Section DictFacts.
Context {K V : Type} (eqb : K -> K -> bool).
Hypothesis eqb_eq : forall a b, eqb a b = true <-> a = b.

Lemma eqb_refl_true k : eqb k k = true.
Proof. now apply eqb_eq. Qed.

Lemma eqb_neq_false a b : a <> b -> eqb a b = false.
Proof.
  intros Hne. destruct (eqb a b) eqn:E; [|reflexivity].
  apply eqb_eq in E. contradiction.
Qed.

Lemma get_set_same (d : list (K * V)) k v :
  PyDict.get eqb (PyDict.set eqb d k v) k = Some v.
Proof.
  induction d as [|[k' v'] d IH]; simpl.
  - now rewrite eqb_refl_true.
  - destruct (eqb k' k) eqn:E; simpl; rewrite E; auto.
Qed.

Lemma get_set_other (d : list (K * V)) k v k' :
  k <> k' -> PyDict.get eqb (PyDict.set eqb d k v) k' = PyDict.get eqb d k'.
Proof.
  intros Hne. induction d as [|[k0 v0] d IH]; simpl.
  - now rewrite (eqb_neq_false k k').
  - destruct (eqb k0 k) eqn:E; simpl.
    + apply eqb_eq in E. subst k0. now rewrite (eqb_neq_false k k').
    + now rewrite IH.
Qed.

Lemma get_in_keys (d : list (K * V)) k :
  In k (PyDict.keys d) <-> PyDict.get eqb d k <> None.
Proof.
  induction d as [|[k' v'] d IH]; simpl.
  - split; [tauto | congruence].
  - destruct (eqb k' k) eqn:E.
    + apply eqb_eq in E. split; [congruence | auto].
    + rewrite <- IH. split; [|auto].
      intros [Heq|Hin]; [|assumption].
      apply eqb_eq in Heq. congruence.
Qed.

Lemma keys_set_present (d : list (K * V)) k v :
  PyDict.get eqb d k <> None ->
  PyDict.keys (PyDict.set eqb d k v) = PyDict.keys d.
Proof.
  induction d as [|[k' v'] d IH]; simpl; [congruence|].
  destruct (eqb k' k) eqn:E; simpl; [reflexivity|].
  intros H. now rewrite IH.
Qed.

Lemma keys_set_absent (d : list (K * V)) k v :
  PyDict.get eqb d k = None ->
  PyDict.keys (PyDict.set eqb d k v) = PyDict.keys d ++ [k].
Proof.
  induction d as [|[k' v'] d IH]; simpl; [reflexivity|].
  destruct (eqb k' k) eqn:E; simpl; [congruence|].
  intros H. now rewrite IH.
Qed.
End DictFacts.

Lemma string_eqb_eq (a b : string) : String.eqb a b = true <-> a = b.
Proof. apply String.eqb_eq. Qed.

Lemma sget_set_same {V} (d : list (string * V)) k v :
  sget (sset d k v) k = Some v.
Proof. apply get_set_same, string_eqb_eq. Qed.

Lemma sget_set_other {V} (d : list (string * V)) k v k' :
  k <> k' -> sget (sset d k v) k' = sget d k'.
Proof. apply get_set_other, string_eqb_eq. Qed.

(** Indexing with a non-negative index is [nth_error]. *)
Lemma list_getitem_nonneg {A} (l : list A) (i : Z) :
  0 <= i ->
  list_getitem l i =
    match nth_error l (Z.to_nat i) with
    | Some a => inr a
    | None => inl IndexError
    end.
Proof.
  intros Hi. unfold list_getitem.
  destruct (i <? 0) eqn:E; [apply Z.ltb_lt in E; lia|].
  destruct ((0 <=? i) && (i <? Z.of_nat (List.length l))) eqn:E2.
  - reflexivity.
  - destruct (nth_error l (Z.to_nat i)) eqn:E3; [|reflexivity].
    assert (Z.to_nat i < List.length l)%nat
      by (apply nth_error_Some; congruence).
    apply andb_false_iff in E2. destruct E2 as [E2|E2].
    + apply Z.leb_gt in E2. lia.
    + apply Z.ltb_ge in E2. lia.
Qed.

Lemma split_not_nil sep s : split sep s <> [].
Proof.
  destruct s as [|c s]; simpl; [discriminate|].
  destruct (Ascii.eqb c sep); [discriminate|].
  destruct (split sep s); discriminate.
Qed.

Lemma city_key_total field : city_key field = inr (city_of field).
Proof.
  unfold city_key, city_of, list_getitem.
  pose proof (split_not_nil " " field) as Hne.
  destruct (split " " field) as [|first pieces]; [contradiction|].
  simpl. replace (Z.pos (Pos.of_succ_nat (List.length pieces)))
    with (Z.of_nat (S (List.length pieces))) by reflexivity.
  destruct (0 <? Z.of_nat (S (List.length pieces))) eqn:E; [reflexivity|].
  apply Z.ltb_ge in E. lia.
Qed.

(* ================================================================== *)
(** * The header scan                                                  *)
(* ================================================================== *)

Lemma scan_headers_positions headers : forall n a b c d e f,
  scan_headers n headers (positions a b c d e f) =
  positions (pos_after "NAME" n headers a) (pos_after "DATE" n headers b)
            (pos_after "PRCP" n headers c) (pos_after "SNOW" n headers d)
            (pos_after "TMAX" n headers e) (pos_after "TMIN" n headers f).
Proof.
  induction headers as [|h rest IH]; intros; [reflexivity|].
  change (scan_headers n (h :: rest) (positions a b c d e f))
    with (scan_headers (n + 1) rest
            (if scontains (positions a b c d e f) h
             then sset (positions a b c d e f) h n
             else positions a b c d e f)).
  cbn [pos_after].
  assert (Hstep :
    (if scontains (positions a b c d e f) h
     then sset (positions a b c d e f) h n else positions a b c d e f) =
    positions (if String.eqb h "NAME" then n else a)
              (if String.eqb h "DATE" then n else b)
              (if String.eqb h "PRCP" then n else c)
              (if String.eqb h "SNOW" then n else d)
              (if String.eqb h "TMAX" then n else e)
              (if String.eqb h "TMIN" then n else f)).
  { unfold positions, PyDict.contains. cbn [PyDict.get PyDict.set].
    rewrite !(String.eqb_sym _ h).
    destruct (String.eqb_spec h "NAME") as [->|]; [reflexivity|].
    destruct (String.eqb_spec h "DATE") as [->|]; [reflexivity|].
    destruct (String.eqb_spec h "PRCP") as [->|]; [reflexivity|].
    destruct (String.eqb_spec h "SNOW") as [->|]; [reflexivity|].
    destruct (String.eqb_spec h "TMAX") as [->|]; [reflexivity|].
    destruct (String.eqb_spec h "TMIN") as [->|]; reflexivity. }
  refine (eq_trans (f_equal (scan_headers (n + 1) rest) Hstep) _). apply IH.
Qed.

Lemma data_pos_columns headers :
  scan_headers 0 headers initial_data_pos =
  positions (column headers "NAME") (column headers "DATE")
            (column headers "PRCP") (column headers "SNOW")
            (column headers "TMAX") (column headers "TMIN").
Proof. apply (scan_headers_positions headers 0 (-1) (-1) (-1) (-1) (-1) (-1)). Qed.

Lemma pos_after_absent h headers : forall n pos,
  existsb (String.eqb h) headers = false -> pos_after h n headers pos = pos.
Proof.
  induction headers as [|x rest IH]; intros n pos Hex; [reflexivity|].
  simpl in *. apply orb_false_iff in Hex. destruct Hex as [Hx Hrest].
  rewrite String.eqb_sym, Hx. now apply IH.
Qed.

Lemma pos_after_bounds h headers : forall n pos,
  pos_after h n headers pos = pos \/
  n <= pos_after h n headers pos < n + Z.of_nat (List.length headers).
Proof.
  induction headers as [|x rest IH]; intros n pos; [now left|].
  cbn [pos_after List.length].
  destruct (String.eqb x h).
  - right. destruct (IH (n + 1) n) as [-> | H]; lia.
  - destruct (IH (n + 1) pos) as [-> | H]; [now left | right; lia].
Qed.

Lemma pos_after_present h headers : forall n pos,
  existsb (String.eqb h) headers = true ->
  n <= pos_after h n headers pos < n + Z.of_nat (List.length headers).
Proof.
  induction headers as [|x rest IH]; intros n pos Hex; [discriminate|].
  cbn [pos_after List.length]. simpl in Hex.
  rewrite String.eqb_sym in Hex.
  destruct (String.eqb x h); simpl in Hex.
  - destruct (pos_after_bounds h rest (n + 1) n) as [-> | H]; lia.
  - specialize (IH (n + 1) pos Hex). lia.
Qed.

Lemma column_present headers h :
  has_header headers h = true -> 0 <= column headers h.
Proof. intros H. apply (pos_after_present h headers 0 (-1)) in H. apply H. Qed.

Lemma column_absent headers h :
  has_header headers h = false -> column headers h = -1.
Proof. apply pos_after_absent. Qed.

Lemma required_columns headers h :
  has_required_headers headers = true -> In h required_headers ->
  0 <= column headers h.
Proof.
  unfold has_required_headers. rewrite forallb_forall.
  intros H Hin. apply column_present, H, Hin.
Qed.

(** The test of line 83 is exactly "some required header is absent". *)
Lemma missing_test headers :
  existsb (Z.eqb (-1)) (PyDict.values (scan_headers 0 headers initial_data_pos))
  = negb (has_required_headers headers).
Proof.
  rewrite data_pos_columns. unfold has_required_headers, required_headers.
  cbn [positions PyDict.values map snd existsb forallb].
  assert (Hcol : forall h, (-1 =? column headers h) = negb (has_header headers h)).
  { intros h. destruct (has_header headers h) eqn:E; cbn [negb].
    - apply column_present in E. apply Z.eqb_neq. lia.
    - apply column_absent in E. rewrite E. reflexivity. }
  rewrite !Hcol.
  destruct (has_header headers "NAME"), (has_header headers "DATE"),
    (has_header headers "PRCP"), (has_header headers "SNOW"),
    (has_header headers "TMAX"), (has_header headers "TMIN"); reflexivity.
Qed.

(* ================================================================== *)
(** * The numeric parser                                               *)
(* ================================================================== *)

(** ** The builtin [float] *)

Lemma all_chars_impl (p q : ascii -> bool) s :
  (forall c, p c = true -> q c = true) ->
  all_chars p s = true -> all_chars q s = true.
Proof.
  intros Hpq. induction s as [|c s IH]; [reflexivity|].
  cbn [all_chars]. rewrite !andb_true_iff. intros [Hc Hs]. auto.
Qed.

Lemma all_chars_app p s t :
  all_chars p (s ++ t)%string = all_chars p s && all_chars p t.
Proof.
  induction s as [|c s IH]; [reflexivity|].
  cbn [append all_chars]. now rewrite IH, andb_assoc.
Qed.

Lemma append_empty s : (s ++ "")%string = s.
Proof. induction s as [|c s IH]; [reflexivity|]. cbn. now rewrite IH. Qed.

Lemma lstrip_no_space s :
  all_chars (fun c => negb (is_space c)) s = true -> lstrip s = s.
Proof.
  destruct s as [|c s]; [reflexivity|].
  cbn [all_chars lstrip]. rewrite andb_true_iff, negb_true_iff.
  now intros [-> _].
Qed.

Lemma rstrip_no_space s :
  all_chars (fun c => negb (is_space c)) s = true -> rstrip s = s.
Proof.
  induction s as [|c s IH]; [reflexivity|].
  cbn [all_chars rstrip]. rewrite andb_true_iff, negb_true_iff.
  intros [Hc Hs]. rewrite (IH Hs), Hc. now destruct s.
Qed.

Lemma break_none p s :
  all_chars (fun c => negb (p c)) s = true -> break p s = (s, None).
Proof.
  induction s as [|c s IH]; [reflexivity|].
  cbn [all_chars break]. rewrite andb_true_iff, negb_true_iff.
  intros [-> Hs]. now rewrite (IH Hs).
Qed.

Lemma break_at p s c t :
  all_chars (fun c => negb (p c)) s = true -> p c = true ->
  break p (s ++ String c t)%string = (s, Some t).
Proof.
  intros Hs Hc. induction s as [|c' s IH].
  - cbn [append break]. now rewrite Hc.
  - cbn [all_chars] in Hs. rewrite andb_true_iff, negb_true_iff in Hs.
    destruct Hs as [Hc' Hs]. cbn [append break]. now rewrite Hc', (IH Hs).
Qed.

(** On digits only, [digit_part] reads what [digits_value] reads. *)
Lemma digit_part_digits s : forall acc n b v,
  digits_value acc s = Some v -> b = true \/ s <> "" ->
  digit_part acc n b s = Some (v, (n + String.length s)%nat).
Proof.
  induction s as [|c s IH]; intros acc n b v Hv Hb.
  - cbn in Hv. injection Hv as <-. cbn [digit_part String.length].
    destruct Hb as [-> | Hb]; [|now contradiction Hb].
    now rewrite Nat.add_0_r.
  - cbn [digits_value] in Hv. cbn [digit_part String.length].
    destruct (digit_value c) as [d|]; [|discriminate].
    rewrite (IH _ (S n) true v Hv (or_introl eq_refl)).
    now rewrite Nat.add_succ_r.
Qed.

Lemma digits_value_split s t : forall acc v,
  digits_value acc (s ++ t)%string = Some v ->
  exists w, digits_value acc s = Some w /\ digits_value w t = Some v.
Proof.
  induction s as [|c s IH]; intros acc v Hv.
  - exists acc. split; [reflexivity | exact Hv].
  - cbn [append digits_value] in *.
    destruct (digit_value c); [|discriminate]. now apply IH.
Qed.

Lemma digits_value_chars (p : ascii -> bool) s :
  (forall c d, digit_value c = Some d -> p c = true) ->
  forall acc v, digits_value acc s = Some v -> all_chars p s = true.
Proof.
  intros Hp. induction s as [|c s IH]; intros acc v Hv; [reflexivity|].
  cbn [digits_value] in Hv. cbn [all_chars].
  destruct (digit_value c) as [d|] eqn:Hd; [|discriminate].
  rewrite (Hp _ _ Hd). exact (IH _ _ Hv).
Qed.

Lemma digit_not_space c d : digit_value c = Some d -> negb (is_space c) = true.
Proof.
  destruct c as [[] [] [] [] [] [] [] []]; cbv; intros H;
    first [discriminate H | reflexivity].
Qed.

Lemma digit_not_dot c d : digit_value c = Some d -> negb (is_dot c) = true.
Proof.
  destruct c as [[] [] [] [] [] [] [] []]; cbv; intros H;
    first [discriminate H | reflexivity].
Qed.

Lemma digit_not_exp c d : digit_value c = Some d -> negb (is_exp c) = true.
Proof.
  destruct c as [[] [] [] [] [] [] [] []]; cbv; intros H;
    first [discriminate H | reflexivity].
Qed.

(** A text that begins with a digit or a point is none of the words. *)
Lemma number_not_word c s w :
  In w ["inf"; "infinity"; "nan"] ->
  (exists d, digit_value c = Some d) \/ c = "."%char ->
  String.eqb (lower (String c s)) w = false.
Proof.
  intros Hw Hc. cbn [lower].
  assert (Hi : Ascii.eqb (lower_ascii c) "i" = false
               /\ Ascii.eqb (lower_ascii c) "n" = false).
  { destruct Hc as [[d Hd] | ->]; [|split; reflexivity].
    revert Hd. destruct c as [[] [] [] [] [] [] [] []]; cbv; intros H;
      first [discriminate H | split; reflexivity]. }
  destruct Hi as [Hi Hn].
  destruct Hw as [<-|[<-|[<-|[]]]]; cbn [String.eqb];
    rewrite ?Hi, ?Hn; reflexivity.
Qed.

Lemma digit_ascii c d : digit_value c = Some d -> is_ascii c = true.
Proof.
  destruct c as [[] [] [] [] [] [] [] []]; cbv; intros H;
    first [discriminate H | reflexivity].
Qed.

(** The characters of a decimal literal: digits, a point, a sign. *)
Lemma decimal_text_chars (p : ascii -> bool) sign whole frac m :
  digits_value 0 (whole ++ frac_digits frac)%string = Some m ->
  (forall c d, digit_value c = Some d -> p c = true) ->
  p "."%char = true -> p "+"%char = true -> p "-"%char = true ->
  all_chars p (decimal_text sign whole frac) = true.
Proof.
  intros Hm Hp Hdot Hplus Hminus.
  destruct (digits_value_split _ _ _ _ Hm) as (w & Hw & Hf).
  unfold decimal_text. rewrite !all_chars_app.
  rewrite (digits_value_chars p _ Hp _ _ Hw).
  assert (Hsign : all_chars p (sign_text sign) = true).
  { destruct sign as [[]|]; cbn [sign_text all_chars];
      rewrite ?Hplus, ?Hminus; reflexivity. }
  rewrite Hsign. destruct frac as [f|]; [|reflexivity].
  cbn [frac_digits] in Hf. change ("." ++ f)%string with (String "." f).
  cbn [all_chars andb]. rewrite Hdot.
  exact (digits_value_chars p _ Hp _ _ Hf).
Qed.

(** The digits of a decimal literal. *)
Lemma number_digits_decimal whole frac m :
  digits_value 0 (whole ++ frac_digits frac)%string = Some m ->
  (whole ++ frac_digits frac)%string <> "" ->
  number_digits
    (whole ++ match frac with Some digits => "." ++ digits | None => "" end)%string
  = Some (m, String.length (frac_digits frac)).
Proof.
  intros Hm Hne.
  destruct (digits_value_split _ _ _ _ Hm) as (w & Hw & Hf).
  assert (Hdots : all_chars (fun c => negb (is_dot c)) whole = true)
    by exact (digits_value_chars _ _ digit_not_dot _ _ Hw).
  unfold number_digits. destruct frac as [f|]; cbn [frac_digits] in *.
  - change ("." ++ f)%string with (String "." f).
    rewrite (break_at is_dot whole "." f Hdots eq_refl).
    destruct whole as [|c whole].
    + cbn in Hw. injection Hw as <-.
      rewrite (digit_part_digits f 0 0%nat false m Hf (or_intror Hne)).
      reflexivity.
    + assert (Hwhole : digit_part 0 0 false (String c whole)
                       = Some (w, (0 + String.length (String c whole))%nat))
        by (apply digit_part_digits; [exact Hw | right; discriminate]).
      destruct f as [|c' f].
      * cbn in Hf. injection Hf as <-. now rewrite Hwhole.
      * rewrite Hwhole.
        apply digit_part_digits; [exact Hf | right; discriminate].
  - cbn in Hf. injection Hf as <-.
    rewrite append_empty in Hne |- *.
    rewrite (break_none is_dot whole Hdots).
    rewrite (digit_part_digits whole 0 0%nat false w Hw (or_intror Hne)).
    reflexivity.
Qed.

(** [float] on a decimal literal. *)
Lemma python_float_decimal sign whole frac m :
  digits_value 0 (whole ++ frac_digits frac)%string = Some m ->
  (whole ++ frac_digits frac)%string <> "" ->
  python_float (decimal_text sign whole frac)
  = Some (nearest_float (is_minus sign) m
            (- Z.of_nat (String.length (frac_digits frac)))).
Proof.
  intros Hm Hne.
  set (body := (whole ++ match frac with
                         | Some digits => "." ++ digits | None => "" end)%string).
  assert (Hchars : forall p : ascii -> bool,
             (forall c d, digit_value c = Some d -> p c = true) ->
             p "."%char = true -> all_chars p body = true).
  { intros p Hp Hdot.
    destruct (digits_value_split _ _ _ _ Hm) as (w & Hw & Hf).
    unfold body. rewrite all_chars_app.
    rewrite (digits_value_chars p _ Hp _ _ Hw). destruct frac as [f|].
    - cbn [frac_digits] in Hf. change ("." ++ f)%string with (String "." f).
      cbn [all_chars andb]. rewrite Hdot.
      exact (digits_value_chars p _ Hp _ _ Hf).
    - reflexivity. }
  assert (Hfirst : exists c rest, body = String c rest /\
             ((exists d, digit_value c = Some d) \/ c = "."%char)).
  { unfold body. destruct whole as [|c whole].
    - destruct frac as [f|]; [|now contradiction Hne].
      exists "."%char, f. split; [reflexivity | now right].
    - eexists c, _. split; [reflexivity|]. left.
      cbn [append digits_value] in Hm.
      destruct (digit_value c) as [d|]; [now exists d | discriminate]. }
  destruct Hfirst as (c & rest & Hbody & Hc).
  assert (Hspace : all_chars (fun c => negb (is_space c))
                     (decimal_text sign whole frac) = true).
  { unfold decimal_text. fold body. rewrite all_chars_app.
    rewrite (Hchars _ digit_not_space eq_refl).
    now destruct sign as [[]|]. }
  assert (Hsign : take_sign (decimal_text sign whole frac)
                  = (is_minus sign, body)).
  { unfold decimal_text. fold body. rewrite Hbody.
    destruct sign as [[]|]; try reflexivity.
    cbn [sign_text append take_sign is_minus].
    destruct Hc as [[d Hd] | ->]; [|reflexivity].
    revert Hd. destruct c as [[] [] [] [] [] [] [] []]; cbv; intros H;
      first [discriminate H | reflexivity]. }
  unfold python_float.
  rewrite (lstrip_no_space _ Hspace), (rstrip_no_space _ Hspace), Hsign.
  rewrite Hbody.
  rewrite !(number_not_word c rest) by (cbn; tauto).
  cbn [orb]. rewrite <- Hbody.
  unfold float_number.
  rewrite (break_none is_exp body (Hchars _ digit_not_exp eq_refl)).
  unfold body. now rewrite (number_digits_decimal _ _ _ Hm Hne).
Qed.

(** ** Texts [float] rejects *)

Lemma has_digit_lstrip s : has_digit (lstrip s) = true -> has_digit s = true.
Proof.
  induction s as [|c s IH]; [easy|].
  cbn [lstrip]. destruct (is_space c); [|easy].
  intros H. cbn [has_digit]. rewrite (IH H). now destruct (digit_value c).
Qed.

Lemma has_digit_rstrip s : has_digit (rstrip s) = true -> has_digit s = true.
Proof.
  induction s as [|c s IH]; [easy|].
  cbn [rstrip has_digit].
  destruct (rstrip s) as [|c' kept].
  - destruct (is_space c); [discriminate|]. cbn [has_digit].
    destruct (digit_value c); [reflexivity | discriminate].
  - cbn [has_digit] in *. destruct (digit_value c); [reflexivity|]. exact IH.
Qed.

Lemma has_digit_take_sign s :
  has_digit (snd (take_sign s)) = true -> has_digit s = true.
Proof.
  destruct s as [|c s]; [easy|].
  unfold take_sign.
  destruct c as [[] [] [] [] [] [] [] []]; cbn [snd]; try easy;
    intros H; cbn [has_digit]; rewrite H;
    match goal with |- match ?d with _ => _ end = _ => now destruct d end.
Qed.

Lemma has_digit_break p s before after :
  break p s = (before, after) ->
  has_digit before = true
  \/ match after with Some t => has_digit t = true | None => False end ->
  has_digit s = true.
Proof.
  revert before after. induction s as [|c s IH]; intros before after.
  - cbn. intros [= <- <-]. now intros [H|[]].
  - cbn [break has_digit]. destruct (p c).
    + intros [= <- <-]. intros [H|H]; [discriminate|].
      rewrite H. now destruct (digit_value c).
    + destruct (break p s) as [b a] eqn:Hb. intros [= <- <-].
      cbn [has_digit]. destruct (digit_value c); [reflexivity|].
      intros H. exact (IH _ _ eq_refl H).
Qed.

Lemma digit_part_has_digit s : forall acc n b r,
  digit_part acc n b s = Some r -> b = true \/ has_digit s = true.
Proof.
  induction s as [|c s IH]; intros acc n b r.
  - cbn. destruct b; [now left | discriminate].
  - cbn [digit_part has_digit]. destruct (digit_value c); [now right|].
    destruct (Ascii.eqb c "_" && b); [|discriminate].
    intros H. destruct (IH _ _ _ _ H) as [E|E]; [discriminate | now right].
Qed.

Lemma digit_part_digit s acc n r :
  digit_part acc n false s = Some r -> has_digit s = true.
Proof.
  intros H. destruct (digit_part_has_digit _ _ _ _ _ H); [discriminate | easy].
Qed.

Lemma number_digits_has_digit s r :
  number_digits s = Some r -> has_digit s = true.
Proof.
  unfold number_digits. destruct (break is_dot s) as [whole after] eqn:Hb.
  intros H. apply (has_digit_break _ _ _ _ Hb).
  destruct after as [frac|].
  - destruct whole as [|c whole].
    + right. exact (digit_part_digit _ _ _ _ H).
    + left.
      destruct (digit_part 0 0 false (String c whole)) as [[w k]|] eqn:Hw;
        [exact (digit_part_digit _ _ _ _ Hw) | now destruct frac].
  - left. destruct (digit_part 0 0 false whole) as [r'|] eqn:Hw;
      [|discriminate]. exact (digit_part_digit _ _ _ _ Hw).
Qed.

Lemma float_number_has_digit neg s x :
  float_number neg s = Some x -> has_digit s = true.
Proof.
  unfold float_number. destruct (break is_exp s) as [mantissa e] eqn:Hb.
  destruct (number_digits mantissa) as [[m k]|] eqn:Hm; [|discriminate].
  intros _. apply (has_digit_break _ _ _ _ Hb). left.
  exact (number_digits_has_digit _ _ Hm).
Qed.

(** What [float] accepts is one of the words or a number. *)
Lemma python_float_cases s x :
  python_float s = Some x ->
  special_word s = true
  \/ float_number (fst (take_sign (rstrip (lstrip s))))
                  (snd (take_sign (rstrip (lstrip s)))) = Some x.
Proof.
  unfold python_float, special_word.
  destruct (take_sign (rstrip (lstrip s))) as [neg body]. cbn [fst snd existsb].
  destruct (String.eqb (lower body) "inf"); [now left|].
  destruct (String.eqb (lower body) "infinity"); [now left|].
  destruct (String.eqb (lower body) "nan"); [now left|].
  now right.
Qed.

(** A text without a digit that is none of the words is rejected. *)
Lemma python_float_no_digit s :
  has_digit s = false -> special_word s = false -> python_float s = None.
Proof.
  intros Hd Hw. destruct (python_float s) as [x|] eqn:Hx; [|reflexivity].
  destruct (python_float_cases _ _ Hx) as [E|E]; [congruence|].
  apply float_number_has_digit, has_digit_take_sign,
    has_digit_rstrip, has_digit_lstrip in E. congruence.
Qed.

Lemma float_char_lower c : float_char (lower_ascii c) = float_char c.
Proof. destruct c as [[] [] [] [] [] [] [] []]; reflexivity. Qed.

Lemma all_chars_lower s :
  all_chars float_char (lower s) = all_chars float_char s.
Proof.
  induction s as [|c s IH]; [reflexivity|].
  cbn [lower all_chars]. now rewrite float_char_lower, IH.
Qed.

Lemma all_chars_lstrip p s :
  (forall c, is_space c = true -> p c = true) ->
  all_chars p (lstrip s) = true -> all_chars p s = true.
Proof.
  intros Hp. induction s as [|c s IH]; [easy|].
  cbn [lstrip]. destruct (is_space c) eqn:Hc; [|easy].
  intros H. cbn [all_chars]. now rewrite (Hp _ Hc), (IH H).
Qed.

Lemma all_chars_rstrip p s :
  (forall c, is_space c = true -> p c = true) ->
  all_chars p (rstrip s) = true -> all_chars p s = true.
Proof.
  intros Hp. induction s as [|c s IH]; [easy|].
  cbn [rstrip all_chars].
  destruct (rstrip s) as [|c' kept].
  - destruct (is_space c) eqn:Hc.
    + intros _. now rewrite (Hp _ Hc), IH.
    + cbn [all_chars]. rewrite andb_true_r. intros ->. now rewrite IH.
  - change (all_chars p (String c (String c' kept)))
      with (p c && all_chars p (String c' kept)).
    rewrite !andb_true_iff. intros [Hc Hs]. auto.
Qed.

Lemma all_chars_take_sign s :
  all_chars float_char (snd (take_sign s)) = true ->
  all_chars float_char s = true.
Proof.
  destruct s as [|c s]; [easy|].
  unfold take_sign.
  destruct c as [[] [] [] [] [] [] [] []]; cbn [snd]; try easy;
    intros H; cbn [all_chars]; rewrite H; reflexivity.
Qed.

Lemma all_chars_break p q s before after :
  (forall c, q c = true -> p c = true) ->
  break q s = (before, after) ->
  all_chars p before = true ->
  match after with Some t => all_chars p t = true | None => True end ->
  all_chars p s = true.
Proof.
  intros Hq. revert before after.
  induction s as [|c s IH]; intros before after; [easy|].
  cbn [break all_chars]. destruct (q c) eqn:Hc.
  - intros [= <- <-] _ H. now rewrite (Hq _ Hc), H.
  - destruct (break q s) as [b a]. intros [= <- <-].
    cbn [all_chars]. rewrite !andb_true_iff. intros [H1 H2] H3.
    split; [exact H1 | exact (IH _ _ eq_refl H2 H3)].
Qed.

Lemma digit_part_chars s : forall acc n b r,
  digit_part acc n b s = Some r -> all_chars float_char s = true.
Proof.
  induction s as [|c s IH]; intros acc n b r; [easy|].
  cbn [digit_part all_chars].
  destruct (digit_value c) as [d|] eqn:Hd.
  - intros H. rewrite (IH _ _ _ _ H), andb_true_r.
    unfold float_char. rewrite Hd. now rewrite orb_true_r.
  - destruct (Ascii.eqb c "_") eqn:Hc; [|discriminate].
    destruct b; [|discriminate]. cbn [andb]. intros H.
    rewrite (IH _ _ _ _ H), andb_true_r.
    apply Ascii.eqb_eq in Hc. now subst c.
Qed.

Lemma number_digits_chars s r :
  number_digits s = Some r -> all_chars float_char s = true.
Proof.
  unfold number_digits. destruct (break is_dot s) as [whole after] eqn:Hb.
  intros H.
  assert (Hdot : forall c, is_dot c = true -> float_char c = true).
  { intros c Hc. apply Ascii.eqb_eq in Hc. now subst c. }
  apply (all_chars_break _ _ _ _ _ Hdot Hb).
  - destruct whole as [|c whole]; [reflexivity|].
    destruct (digit_part 0 0 false (String c whole)) as [[w k]|] eqn:Hw.
    + exact (digit_part_chars _ _ _ _ _ Hw).
    + now destruct after as [[|c' frac]|].
  - destruct after as [frac|]; [|exact I].
    destruct frac as [|c' frac]; [reflexivity|].
    destruct whole as [|c whole].
    + exact (digit_part_chars _ _ _ _ _ H).
    + destruct (digit_part 0 0 false (String c whole)) as [[w k]|];
        [|discriminate]. exact (digit_part_chars _ _ _ _ _ H).
Qed.

Lemma exponent_value_chars s e :
  exponent_value s = Some e -> all_chars float_char s = true.
Proof.
  unfold exponent_value. intros H. apply all_chars_take_sign.
  destruct (take_sign s) as [neg digits]. cbn [snd].
  destruct (digit_part 0 0 false digits) as [[v k]|] eqn:Hd; [|discriminate].
  exact (digit_part_chars _ _ _ _ _ Hd).
Qed.

Lemma float_number_chars neg s x :
  float_number neg s = Some x -> all_chars float_char s = true.
Proof.
  unfold float_number. destruct (break is_exp s) as [mantissa e] eqn:Hb.
  destruct (number_digits mantissa) as [[m k]|] eqn:Hm; [|discriminate].
  intros H. apply (all_chars_break float_char _ _ _ _) with (2 := Hb).
  - intros c Hc. unfold is_exp in Hc. apply orb_true_iff in Hc.
    destruct Hc as [Hc|Hc]; apply Ascii.eqb_eq in Hc; now subst c.
  - exact (number_digits_chars _ _ Hm).
  - destruct e as [text|]; [|exact I].
    destruct (exponent_value text) as [v|] eqn:Hv; [|discriminate].
    exact (exponent_value_chars _ _ Hv).
Qed.

Lemma space_float_char c : is_space c = true -> float_char c = true.
Proof. unfold float_char. now intros ->. Qed.

(** A text with a character that no accepted text has is rejected. *)
Lemma python_float_foreign_char s :
  all_chars float_char s = false -> python_float s = None.
Proof.
  intros Hc. destruct (python_float s) as [x|] eqn:Hx; [|reflexivity].
  enough (all_chars float_char s = true) by congruence.
  apply (all_chars_lstrip _ _ space_float_char),
        (all_chars_rstrip _ _ space_float_char), all_chars_take_sign.
  destruct (python_float_cases _ _ Hx) as [E|E].
  - unfold special_word in E. rewrite <- all_chars_lower.
    cbn [existsb] in E. rewrite !orb_true_iff in E.
    destruct E as [E|[E|[E|E]]]; [| | |discriminate];
      apply String.eqb_eq in E; rewrite E; reflexivity.
  - exact (float_number_chars _ _ _ E).
Qed.

(** ** [float_catch] *)

Section FloatCatch.
Context {B : PyBuiltins}.

Lemma float_catch_parse s :
  float_catch s =
    (match parse_number s with
     | Some _ => []
     | None => [CouldNotParseFloat s]
     end, inr (parse_number s)).
Proof.
  unfold float_catch, parse_number.
  destruct s as [|c s]; [reflexivity|].
  cbn [String.length Nat.eqb].
  destruct (py_float (String c s)); reflexivity.
Qed.

(** C8, as the code has it. Where [float] is CPython's on ASCII text,
    [float_catch] returns exactly 0.0 for the empty string. For a
    decimal literal, an optional sign and digits with at most one point
    among them, it returns the binary64 value nearest to the number
    written. It returns the failure [None] with a diagnostic, never a
    number, for every non-empty ASCII string without a digit that is
    none of the words inf, infinity and nan, and for every ASCII string
    with a character that no text of a number has. For every non-empty
    string it returns what [float] returns, and fails exactly when
    [float] does. *)
Theorem float_catch_spec
    (Hfloat : forall s, all_chars is_ascii s = true ->
                        py_float s = python_float s) :
  float_catch "" = ([], inr (Some PrimFloat.zero)) /\
  (forall sign whole frac m,
      digits_value 0 (whole ++ frac_digits frac)%string = Some m ->
      (whole ++ frac_digits frac)%string <> "" ->
      float_catch (decimal_text sign whole frac)
      = ([], inr (Some (nearest_float (is_minus sign) m
                          (- Z.of_nat (String.length (frac_digits frac))))))) /\
  (forall s, s <> "" -> all_chars is_ascii s = true ->
      (has_digit s = false /\ special_word s = false)
      \/ all_chars float_char s = false ->
      float_catch s = ([CouldNotParseFloat s], inr None)) /\
  (forall s, s <> "" ->
      float_catch s
      = match py_float s with
        | Some x => ([], inr (Some x))
        | None => ([CouldNotParseFloat s], inr None)
        end).
Proof.
  assert (Hcatch : forall s, s <> "" ->
            float_catch s
            = match py_float s with
              | Some x => ([], inr (Some x))
              | None => ([CouldNotParseFloat s], inr None)
              end).
  { intros s Hne. unfold float_catch. destruct s as [|c s]; [contradiction|].
    cbn [String.length Nat.eqb].
    now destruct (py_float (String c s)). }
  split; [reflexivity|]. split; [|split; [|exact Hcatch]].
  - intros sign whole frac m Hm Hne. rewrite Hcatch.
    + rewrite Hfloat
        by exact (decimal_text_chars is_ascii sign whole frac m Hm
                    digit_ascii eq_refl eq_refl eq_refl).
      now rewrite (python_float_decimal sign whole frac m Hm Hne).
    + unfold decimal_text. intros E.
      destruct sign as [[]|]; try discriminate E.
      destruct whole; [|discriminate E].
      destruct frac; [discriminate E | now apply Hne].
  - intros s Hne Hascii H. rewrite (Hcatch s Hne), (Hfloat s Hascii).
    destruct H as [[Hd Hw]|Hc].
    + now rewrite (python_float_no_digit s Hd Hw).
    + now rewrite (python_float_foreign_char s Hc).
Qed.
End FloatCatch.

Lemma float_catch_spec_witness :
  float_catch (B := python_builtins) "-12.5" = ([], inr (Some (-12.5)%float)) /\
  float_catch (B := python_builtins) "n/a"
    = ([CouldNotParseFloat "n/a"], inr None) /\
  float_catch (B := python_builtins) "1,5"
    = ([CouldNotParseFloat "1,5"], inr None).
Proof.
  destruct (float_catch_spec (B := python_builtins) (fun s _ => eq_refl))
    as (_ & Hnum & Hfail & _).
  split; [|split].
  - exact (Hnum (Some true) "12" (Some "5") 125 eq_refl
             ltac:(discriminate)).
  - apply Hfail; [discriminate | reflexivity | left; split; reflexivity].
  - apply Hfail; [discriminate | reflexivity | right; reflexivity].
Defined.

(** The texts nan and inf have no digit and are no decimal literal, yet
    [float_catch] returns a value for them, without a diagnostic: the
    value that is not a number, and an infinity. *)
Lemma float_catch_special_words :
  has_digit "nan" = false /\ has_digit "inf" = false /\
  float_catch (B := python_builtins) "nan" = ([], inr (Some nan)) /\
  float_catch (B := python_builtins) "inf" = ([], inr (Some infinity)) /\
  float_catch (B := python_builtins) "-Infinity"
    = ([], inr (Some neg_infinity)).
Proof. repeat split; reflexivity. Qed.

(* ================================================================== *)
(** * Ingestion: the header check                                      *)
(* ================================================================== *)

Section HeaderCheck.
Context {B : PyBuiltins}.

(** C1. When the header row lacks a required header, [read_file]
    raises [ValueError] while it builds the text of the diagnostic:
    the comprehension unpacks the four-character key [NAME] into two
    targets. Nothing is echoed and no dataset is returned. *)
Theorem read_file_missing_header_raises headers rows :
  has_required_headers headers = false ->
  read_file (headers :: rows) = ([], inl ValueError).
Proof.
  intros Hmiss. unfold read_file.
  rewrite missing_test, Hmiss. cbn [negb].
  rewrite data_pos_columns. reflexivity.
Qed.
End HeaderCheck.

Lemma read_file_missing_header_raises_witness :
  has_required_headers ["NAME"; "DATE"; "PRCP"; "SNOW"; "TMIN"] = false /\
  read_file (B := literal_builtins)
    [["NAME"; "DATE"; "PRCP"; "SNOW"; "TMIN"];
     ["BOSTON, MA US"; "2015-01-01"; "0.5"; "0"; "30.5"]]
  = ([], inl ValueError).
Proof.
  split; [reflexivity|].
  apply (read_file_missing_header_raises (B := literal_builtins)).
  reflexivity.
Defined.

(* ================================================================== *)
(** * Ingestion: the data rows                                         *)
(* ================================================================== *)

Section Rows.
Context {B : PyBuiltins}.

Lemma fits_c_int_range z : Datetime.fits_c_int z = c_int_range z.
Proof.
  unfold Datetime.fits_c_int, c_int_range. change (2 ^ 31) with 2147483648.
  apply Bool.eq_iff_eq_true.
  rewrite !andb_true_iff, !Z.leb_le, Z.ltb_lt. lia.
Qed.

Lemma month_length_days y m :
  1 <= m <= 12 -> month_length y m = Datetime.days_in_month y m.
Proof.
  intros Hm. unfold month_length, Datetime.days_in_month, Datetime.is_leap.
  assert (Hcases : m = 1 \/ m = 2 \/ m = 3 \/ m = 4 \/ m = 5 \/ m = 6 \/ m = 7
                   \/ m = 8 \/ m = 9 \/ m = 10 \/ m = 11 \/ m = 12) by lia.
  assert (Hfeb :
    (if y mod 400 =? 0 then 29
     else if y mod 100 =? 0 then 28 else if y mod 4 =? 0 then 29 else 28)
    = (if (y mod 4 =? 0) && (negb (y mod 100 =? 0) || (y mod 400 =? 0))
       then 29 else 28)).
  { destruct (Z.eqb_spec (y mod 400) 0) as [H400|H400];
      destruct (Z.eqb_spec (y mod 100) 0) as [H100|H100];
      destruct (Z.eqb_spec (y mod 4) 0) as [H4|H4]; try reflexivity.
    - exfalso. apply H4.
      rewrite (Z.div_mod y 400) by lia. rewrite H400.
      replace (400 * (y / 400) + 0) with ((100 * (y / 400)) * 4) by lia.
      apply Z.mod_mul. lia.
    - exfalso. apply H4.
      rewrite (Z.div_mod y 400) by lia. rewrite H400.
      replace (400 * (y / 400) + 0) with ((100 * (y / 400)) * 4) by lia.
      apply Z.mod_mul. lia. }
  repeat (destruct Hcases as [-> | Hcases]; [try reflexivity; exact Hfeb|]).
  subst m. reflexivity.
Qed.

Lemma calendar_date_days y m d :
  calendar_date y m d =
  (1 <=? y) && (y <=? 9999) && (1 <=? m) && (m <=? 12)
  && (1 <=? d) && (d <=? Datetime.days_in_month y m).
Proof.
  unfold calendar_date.
  destruct (Z.leb_spec 1 m), (Z.leb_spec m 12);
    rewrite ?andb_false_r, ?andb_false_l; try reflexivity.
  now rewrite month_length_days by lia.
Qed.

Lemma days_in_month_bound y m : 28 <= Datetime.days_in_month y m <= 31.
Proof.
  unfold Datetime.days_in_month.
  destruct (m =? 2); [destruct (Datetime.is_leap y); lia|].
  destruct (_ || _); lia.
Qed.

Lemma calendar_date_fits y m d :
  calendar_date y m d = true -> forallb c_int_range [y; m; d] = true.
Proof.
  rewrite calendar_date_days, !andb_true_iff, !Z.leb_le.
  pose proof (days_in_month_bound y m).
  intros Hc. unfold c_int_range. cbn [forallb].
  rewrite !andb_true_iff, !Z.leb_le, !Z.ltb_lt. lia.
Qed.

Lemma int_all_components text :
  int_all (split "-" text) = date_components text.
Proof.
  unfold date_components.
  induction (split "-" text) as [|piece rest IH]; [reflexivity|].
  cbn [int_all fold_right]. rewrite IH.
  destruct (py_int piece); reflexivity.
Qed.

(** The outcome of the [try] body against the reading of the DATE field:
    it returns the date the field parses to, and otherwise raises an
    exception that the [except] clause catches unless the field
    overflows. *)
Lemma read_date_spec text :
  match read_date (split "-" text) with
  | inr day => parse_date text = Some day /\ date_overflows text = false
  | inl (e, _) =>
      parse_date text = None /\
      if date_overflows text then e = OverflowError
      else date_error_caught e = true
  end.
Proof.
  unfold read_date, parse_date, date_overflows.
  rewrite int_all_components.
  destruct (date_components text) as [ints|]; [|split; reflexivity].
  unfold Datetime.new.
  assert (Hfits : forallb Datetime.fits_c_int ints = forallb c_int_range ints).
  { induction ints as [|z ints IH]; [reflexivity|].
    cbn [forallb]. now rewrite IH, fits_c_int_range. }
  rewrite Hfits.
  destruct ints as [|y [|m [|d [|x rest]]]]; cbn [List.length Nat.ltb Nat.leb].
  - split; reflexivity.
  - destruct (forallb c_int_range [y]); split; reflexivity.
  - destruct (forallb c_int_range [y; m]); split; reflexivity.
  - rewrite <- calendar_date_days.
    destruct (forallb c_int_range [y; m; d]) eqn:Efit; cbn [negb andb].
    + destruct (calendar_date y m d); split; reflexivity.
    + destruct (calendar_date y m d) eqn:Ecal; [|split; reflexivity].
      apply calendar_date_fits in Ecal. congruence.
  - split; reflexivity.
Qed.

Lemma parse_date_read_date text :
  parse_date text =
    match read_date (split "-" text) with
    | inr day => Some day
    | inl _ => None
    end.
Proof.
  pose proof (read_date_spec text) as H.
  destruct (read_date (split "-" text)) as [[e v]|day]; apply H.
Qed.

Lemma read_date_error text e v :
  read_date (split "-" text) = inl (e, v) ->
  date_error_caught e = negb (date_overflows text).
Proof.
  intros Hread. pose proof (read_date_spec text) as H.
  rewrite Hread in H. destruct H as [_ H].
  destruct (date_overflows text); [now subst | exact H].
Qed.

Variable headers : list string.
Hypothesis Hreq : has_required_headers headers = true.

Local Abbreviation data_pos := (scan_headers 0 headers initial_data_pos).

Lemma data_pos_getitem h :
  In h required_headers ->
  sgetitem data_pos h = inr (column headers h).
Proof.
  rewrite data_pos_columns.
  intros Hin. repeat (destruct Hin as [<-|Hin]; [reflexivity|]). destruct Hin.
Qed.

Lemma row_getitem row h :
  In h required_headers ->
  list_getitem row (column headers h) =
    match cell headers row h with
    | Some s => inr s
    | None => inl IndexError
    end.
Proof.
  intros Hin. apply list_getitem_nonneg.
  now apply required_columns.
Qed.

Lemma read_number_cell row h :
  In h required_headers ->
  read_number data_pos row h =
    match cell headers row h with
    | Some s => (match parse_number s with
                 | Some _ => []
                 | None => [CouldNotParseFloat s]
                 end, inr (parse_number s))
    | None => ([], inl IndexError)
    end.
Proof.
  intros Hin. unfold read_number.
  rewrite (data_pos_getitem h Hin). unfold lift at 1. cbn [bind].
  rewrite (row_getitem row h Hin).
  destruct (cell headers row h) as [s|]; cbn [lift bind]; [|reflexivity].
  rewrite float_catch_parse. reflexivity.
Qed.

Lemma ensure_key_get data c :
  sget (ensure_key data c) c = Some (records_of data c).
Proof.
  unfold ensure_key, PyDict.contains, records_of.
  destruct (sget data c) eqn:E; [assumption|].
  apply sget_set_same.
Qed.

Lemma process_row_returns n row data msgs data' :
  process_row data_pos n row data = (msgs, inr data') ->
  exists c, row_city headers row = Some c /\
    data' = add_record data c (row_record headers row) /\
    (row_record headers row = None ->
     exists m, In m msgs /\ skip_diagnostic n m).
Proof.
  unfold process_row, row_city, row_record.
  rewrite (data_pos_getitem "NAME"), bind_lift_inr by (simpl; tauto).
  rewrite (row_getitem row "NAME") by (simpl; tauto).
  destruct (cell headers row "NAME") as [nf|]; [|discriminate].
  rewrite bind_lift_inr, city_key_total, bind_lift_inr.
  rewrite (data_pos_getitem "DATE"), bind_lift_inr by (simpl; tauto).
  rewrite (row_getitem row "DATE") by (simpl; tauto).
  destruct (cell headers row "DATE") as [df|]; [|discriminate].
  rewrite bind_lift_inr, parse_date_read_date. cbn [option_map].
  destruct (read_date (split "-" df)) as [[e v]|day] eqn:Edate.
  - destruct (date_error_caught e); [|discriminate]. cbn.
    intros [= <- <-]. exists (city_of nf). split; [reflexivity|].
    split.
    + destruct (cell headers row "PRCP"), (cell headers row "SNOW"),
        (cell headers row "TMAX"), (cell headers row "TMIN"); reflexivity.
    + intros _. eexists. split; [left; reflexivity | reflexivity].
  - rewrite !read_number_cell by (simpl; tauto).
    destruct (cell headers row "PRCP") as [p|]; [|discriminate].
    rewrite bind_inr. cbn [fst snd].
    destruct (cell headers row "SNOW") as [s|]; [|discriminate].
    rewrite bind_inr. cbn [fst snd].
    destruct (cell headers row "TMAX") as [tx|]; [|discriminate].
    rewrite bind_inr. cbn [fst snd].
    destruct (cell headers row "TMIN") as [tn|]; [|discriminate].
    rewrite bind_inr. cbn [fst snd].
    destruct (parse_number p), (parse_number s), (parse_number tx),
      (parse_number tn);
      try (cbn; intros [= <- <-]; exists (city_of nf);
           split; [reflexivity|]; split; [reflexivity|];
           intros _; exists (CouldNotParseWeather n);
           split; [simpl; tauto | reflexivity]).
    unfold append_record, PyDict.getitem. rewrite ensure_key_get.
    cbn. intros [= <- <-]. exists (city_of nf).
    split; [reflexivity|]. split; [reflexivity | discriminate].
Qed.

Lemma wide_enough_cell row h :
  wide_enough headers row = true -> In h required_headers ->
  has_cell headers row h = true.
Proof.
  unfold wide_enough, has_cell, cell. rewrite forallb_forall. intros Hwide Hin.
  destruct (nth_error row (Z.to_nat (column headers h))) eqn:E; [reflexivity|].
  apply nth_error_None in E. specialize (Hwide h Hin).
  apply Z.ltb_lt in Hwide. pose proof (required_columns headers h Hreq Hin).
  lia.
Qed.

(** A row with a field under every required header is readable. *)
Lemma wide_enough_readable row :
  wide_enough headers row = true -> readable headers row = true.
Proof.
  intros Hwide. unfold readable.
  pose proof (wide_enough_cell row "NAME" Hwide) as Hname.
  pose proof (wide_enough_cell row "DATE" Hwide) as Hdate.
  unfold has_cell in Hname, Hdate.
  destruct (cell headers row "NAME"); [|discriminate Hname; simpl; tauto].
  destruct (cell headers row "DATE") as [d|];
    [|discriminate Hdate; simpl; tauto].
  destruct (parse_date d); [|reflexivity].
  rewrite !wide_enough_cell by (assumption || (simpl; tauto)). reflexivity.
Qed.

(** The loop body returns on a readable row whose date does not
    overflow, raises [IndexError] on a row that is not readable, and
    [OverflowError] on a row with a NAME whose DATE overflows. *)
Lemma process_row_total n row data :
  readable headers row = true ->
  date_fits headers row = true ->
  exists msgs data', process_row data_pos n row data = (msgs, inr data').
Proof.
  unfold readable, date_fits, has_cell, process_row. intros Hread Hfit.
  rewrite (data_pos_getitem "NAME"), bind_lift_inr by (simpl; tauto).
  rewrite (row_getitem row "NAME") by (simpl; tauto).
  destruct (cell headers row "NAME") as [nf|]; [|discriminate].
  rewrite bind_lift_inr, city_key_total, bind_lift_inr.
  rewrite (data_pos_getitem "DATE"), bind_lift_inr by (simpl; tauto).
  rewrite (row_getitem row "DATE") by (simpl; tauto).
  destruct (cell headers row "DATE") as [df|]; [|discriminate].
  rewrite bind_lift_inr. rewrite parse_date_read_date in Hread.
  destruct (read_date (split "-" df)) as [[e v]|day] eqn:Edate.
  - rewrite (read_date_error _ _ _ Edate), Hfit. cbn. eauto.
  - rewrite !read_number_cell by (simpl; tauto).
    destruct (cell headers row "PRCP") as [p|]; [|discriminate].
    destruct (cell headers row "SNOW") as [s|]; [|discriminate].
    destruct (cell headers row "TMAX") as [tx|]; [|discriminate].
    destruct (cell headers row "TMIN") as [tn|]; [|discriminate].
    rewrite !bind_inr. cbn [fst snd].
    destruct (parse_number p), (parse_number s), (parse_number tx),
      (parse_number tn); try (cbn; eauto).
    unfold append_record, PyDict.getitem. rewrite ensure_key_get.
    cbn. eauto.
Qed.

Lemma process_row_overflow n row data :
  cell headers row "NAME" <> None ->
  date_fits headers row = false ->
  process_row data_pos n row data = ([], inl OverflowError).
Proof.
  unfold date_fits, process_row. intros Hname Hfit.
  rewrite (data_pos_getitem "NAME"), bind_lift_inr by (simpl; tauto).
  rewrite (row_getitem row "NAME") by (simpl; tauto).
  destruct (cell headers row "NAME") as [nf|]; [|contradiction].
  rewrite bind_lift_inr, city_key_total, bind_lift_inr.
  rewrite (data_pos_getitem "DATE"), bind_lift_inr by (simpl; tauto).
  rewrite (row_getitem row "DATE") by (simpl; tauto).
  destruct (cell headers row "DATE") as [df|]; [|discriminate].
  rewrite bind_lift_inr.
  pose proof (read_date_spec df) as Hspec.
  destruct (read_date (split "-" df)) as [[e v]|day].
  - destruct Hspec as [_ Hover].
    destruct (date_overflows df); [|discriminate]. now subst.
  - destruct Hspec as [_ Hno]. rewrite Hno in Hfit. discriminate.
Qed.

Lemma process_row_unreadable n row data :
  readable headers row = false ->
  exists msgs, process_row data_pos n row data = (msgs, inl IndexError).
Proof.
  unfold readable, has_cell, process_row. intros Hread.
  rewrite (data_pos_getitem "NAME"), bind_lift_inr by (simpl; tauto).
  rewrite (row_getitem row "NAME") by (simpl; tauto).
  destruct (cell headers row "NAME") as [nf|]; [|eexists; reflexivity].
  rewrite bind_lift_inr, city_key_total, bind_lift_inr.
  rewrite (data_pos_getitem "DATE"), bind_lift_inr by (simpl; tauto).
  rewrite (row_getitem row "DATE") by (simpl; tauto).
  destruct (cell headers row "DATE") as [df|]; [|eexists; reflexivity].
  rewrite bind_lift_inr. rewrite parse_date_read_date in Hread.
  destruct (read_date (split "-" df)) as [[e v]|day] eqn:Edate; [discriminate|].
  rewrite !read_number_cell by (simpl; tauto).
  destruct (cell headers row "PRCP") as [p|]; [|eexists; reflexivity].
  rewrite bind_inr. cbn [fst snd].
  destruct (cell headers row "SNOW") as [s|]; [|eexists; reflexivity].
  rewrite bind_inr. cbn [fst snd].
  destruct (cell headers row "TMAX") as [tx|]; [|eexists; reflexivity].
  rewrite bind_inr. cbn [fst snd].
  destruct (cell headers row "TMIN") as [tn|]; [|eexists; reflexivity].
  discriminate.
Qed.

Lemma records_of_ensure_key data c city :
  records_of (ensure_key data c) city = records_of data city.
Proof.
  unfold ensure_key, PyDict.contains, records_of.
  destruct (sget data c) eqn:E; [reflexivity|].
  destruct (String.eqb_spec c city) as [<-|Hne].
  - now rewrite sget_set_same, E.
  - now rewrite sget_set_other.
Qed.

Lemma records_of_add_record data c r city :
  records_of (add_record data c r) city =
  records_of data city ++
    (if String.eqb c city
     then match r with Some r' => [r'] | None => [] end
     else []).
Proof.
  destruct r as [r|]; cbn [add_record].
  - destruct (String.eqb_spec c city) as [<-|Hne].
    + unfold records_of at 1. now rewrite sget_set_same.
    + unfold records_of at 1. rewrite sget_set_other by assumption.
      fold (records_of (ensure_key data c) city).
      now rewrite records_of_ensure_key, app_nil_r.
  - rewrite records_of_ensure_key.
    destruct (String.eqb c city); now rewrite app_nil_r.
Qed.

Lemma contains_ensure_key data c city :
  scontains (ensure_key data c) city
  = scontains data city || String.eqb c city.
Proof.
  unfold ensure_key, PyDict.contains.
  destruct (sget data c) eqn:E.
  - destruct (String.eqb_spec c city) as [<-|Hne].
    + rewrite E. reflexivity.
    + now rewrite orb_false_r.
  - destruct (String.eqb_spec c city) as [<-|Hne].
    + rewrite sget_set_same. now rewrite orb_true_r.
    + rewrite sget_set_other by assumption. now rewrite orb_false_r.
Qed.

Lemma contains_add_record data c r city :
  scontains (add_record data c r) city
  = scontains data city || String.eqb c city.
Proof.
  destruct r as [r|]; cbn [add_record]; [|apply contains_ensure_key].
  rewrite <- contains_ensure_key. unfold PyDict.contains.
  destruct (String.eqb_spec c city) as [<-|Hne].
  - now rewrite sget_set_same, ensure_key_get.
  - now rewrite sget_set_other.
Qed.

(** What [read_rows] has done when it returns. *)
Lemma read_rows_returns rows : forall n data log data',
  read_rows data_pos n rows data = (log, inr data') ->
  (forall city, records_of data' city
                = records_of data city ++ records_in headers rows city) /\
  (forall city, scontains data' city
                = scontains data city || names_city headers rows city) /\
  (forall i row, nth_error rows i = Some row ->
                 row_record headers row = None ->
                 exists m, In m log /\ skip_diagnostic (n + i) m).
Proof.
  induction rows as [|row rest IH]; intros n data log data' Hrun.
  - cbn in Hrun. injection Hrun as <- <-. repeat split.
    + intros city. cbn. now rewrite app_nil_r.
    + intros city. cbn. now rewrite orb_false_r.
    + intros [|i] r Hr; discriminate.
  - cbn [read_rows] in Hrun.
    destruct (process_row data_pos n row data) as [msgs [e|data1]] eqn:Erow;
      [discriminate|].
    rewrite bind_inr in Hrun.
    destruct (read_rows data_pos (S n) rest data1) as [log1 res1] eqn:Erest.
    cbn [fst snd] in Hrun. injection Hrun as <- ->.
    apply process_row_returns in Erow.
    destruct Erow as (c & Hcity & -> & Hdiag).
    destruct (IH _ _ _ _ Erest) as (Hrec & Hkeys & Hlog).
    repeat split.
    + intros city. rewrite Hrec, records_of_add_record, <- app_assoc.
      f_equal. cbn [records_in flat_map]. rewrite Hcity.
      destruct (row_record headers row), (String.eqb c city); reflexivity.
    + intros city. rewrite Hkeys, contains_add_record, <- orb_assoc.
      cbn [names_city existsb]. now rewrite Hcity.
    + intros [|i] r Hr Hnone.
      * injection Hr as <-. destruct (Hdiag Hnone) as (m & Hin & Hm).
        exists m. split; [apply in_or_app; now left|].
        now rewrite Nat.add_0_r.
      * destruct (Hlog i r Hr Hnone) as (m & Hin & Hm).
        exists m. split; [apply in_or_app; now right|].
        now replace (n + S i)%nat with (S n + i)%nat by lia.
Qed.

Lemma read_rows_total rows : forall n data,
  forallb (readable headers) rows = true ->
  forallb (date_fits headers) rows = true ->
  exists log data', read_rows data_pos n rows data = (log, inr data').
Proof.
  induction rows as [|row rest IH]; intros n data Hwide Hfits.
  - exists [], data. reflexivity.
  - cbn [forallb] in Hwide, Hfits. apply andb_true_iff in Hwide, Hfits.
    destruct Hwide as [Hrow Hrest]. destruct Hfits as [Hfit Hfits].
    destruct (process_row_total n row data Hrow Hfit)
      as (msgs & data1 & Erow).
    destruct (IH (S n) data1 Hrest Hfits) as (log1 & data' & Erest).
    cbn [read_rows]. rewrite Erow, bind_inr, Erest. cbn [fst snd]. eauto.
Qed.

Lemma read_file_rows rows :
  read_file (headers :: rows) =
    (fst (read_rows data_pos 0 rows []),
     match snd (read_rows data_pos 0 rows []) with
     | inl e => inl e
     | inr data => inr (Some data)
     end).
Proof.
  unfold read_file. rewrite missing_test, Hreq. cbn [negb].
  destruct (read_rows data_pos 0 rows []) as [log [e|data]].
  - reflexivity.
  - rewrite bind_inr. cbn. now rewrite app_nil_r.
Qed.
End Rows.

Section Ingestion.
Context {B : PyBuiltins}.

(** A number fails to parse exactly when its text is not empty and
    [float] rejects it. *)
Lemma parse_number_fails text :
  parse_number text = None <-> text <> "" /\ py_float text = None.
Proof.
  destruct text as [|c text]; cbn [parse_number].
  - split; [discriminate | intros [H _]; now contradiction H].
  - split; [intros H; split; [discriminate | exact H] | intros [_ H]; exact H].
Qed.

(** A row whose date or one of whose four numbers does not parse stands
    for no Record. *)
Lemma row_record_fails headers row :
  (exists d, cell headers row "DATE" = Some d /\ parse_date d = None) \/
  (exists h s, In h ["PRCP"; "SNOW"; "TMAX"; "TMIN"] /\
               cell headers row h = Some s /\ parse_number s = None) ->
  row_record headers row = None.
Proof.
  unfold row_record. intros [(d & -> & ->) | (h & s & Hin & Hcell & Hnum)].
  - destruct (cell headers row "PRCP"), (cell headers row "SNOW"),
      (cell headers row "TMAX"), (cell headers row "TMIN"); reflexivity.
  - destruct (cell headers row "DATE") as [d|]; [|reflexivity].
    destruct Hin as [<-|[<-|[<-|[<-|[]]]]]; rewrite Hcell, Hnum;
      destruct (cell headers row "PRCP"), (cell headers row "SNOW"),
        (cell headers row "TMAX"), (cell headers row "TMIN");
      try reflexivity;
      destruct (parse_date d); try reflexivity;
      repeat match goal with
      | |- context [match parse_number ?x with _ => _ end] =>
          destruct (parse_number x)
      end; reflexivity.
Qed.

(** C4, as the code has it. With all required headers present,
    [read_file] returns a dataset whatever dates and numbers fail to
    parse, as long as every data row is readable (no field that the loop
    body reads is missing) and no DATE field overflows a C [int]. The
    records of each city are exactly the Records of its fully parsed
    rows, in file order, and every row without a Record (its date or one
    of its four numbers did not parse) has a diagnostic in the log that
    names its row index. *)
Theorem read_file_skips_bad_rows headers rows :
  has_required_headers headers = true ->
  forallb (readable headers) rows = true ->
  forallb (date_fits headers) rows = true ->
  exists log data,
    read_file (headers :: rows) = (log, inr (Some data)) /\
    (forall city, records_of data city = records_in headers rows city) /\
    (forall i row, nth_error rows i = Some row ->
                   row_record headers row = None ->
                   exists m, In m log /\ skip_diagnostic i m).
Proof.
  intros Hreq Hread Hfits.
  destruct (read_rows_total headers Hreq rows 0%nat [] Hread Hfits)
    as (log & data & Hrun).
  exists log, data. rewrite (read_file_rows headers Hreq), Hrun.
  split; [reflexivity|].
  destruct (read_rows_returns headers Hreq rows _ _ _ _ Hrun)
    as (Hrec & _ & Hlog).
  split; [intros city; apply Hrec | exact Hlog].
Qed.

(** C9, as the code has it. When [read_file] returns a dataset, a city
    key is present exactly when some data row names the city, and it
    maps to the Records of that city's fully parsed rows, which may be
    none: the sequence is created when the row is read, before its date
    and numbers are parsed. *)
Theorem read_file_keys headers rows log data :
  has_required_headers headers = true ->
  read_file (headers :: rows) = (log, inr (Some data)) ->
  forall city,
    (scontains data city = true <->
     exists row, In row rows /\ row_city headers row = Some city) /\
    records_of data city = records_in headers rows city.
Proof.
  intros Hreq Hrun city. rewrite (read_file_rows headers Hreq) in Hrun.
  destruct (read_rows (scan_headers 0 headers initial_data_pos) 0 rows [])
    as [log' [e|data']] eqn:Erows; [discriminate|].
  cbn [fst snd] in Hrun. injection Hrun as -> ->.
  destruct (read_rows_returns headers Hreq rows _ _ _ _ Erows)
    as (Hrec & Hkeys & _).
  split; [|apply Hrec].
  rewrite Hkeys. cbn [PyDict.contains PyDict.get orb].
  unfold names_city. rewrite existsb_exists.
  split; intros (row & Hin & Hrow); exists row; (split; [assumption|]).
  - destruct (row_city headers row) as [c|]; [|discriminate].
    apply String.eqb_eq in Hrow. now subst.
  - rewrite Hrow. apply String.eqb_refl.
Qed.

(** A row that ends before the NAME or the DATE column is not readable. *)
Lemma short_row_unreadable headers row :
  has_required_headers headers = true ->
  Z.of_nat (List.length row) <= column headers "NAME" \/
  Z.of_nat (List.length row) <= column headers "DATE" ->
  readable headers row = false.
Proof.
  intros Hreq Hshort. unfold readable.
  assert (Hnone : forall h, In h required_headers ->
            Z.of_nat (List.length row) <= column headers h ->
            cell headers row h = None).
  { intros h Hin Hle. apply nth_error_None.
    pose proof (required_columns headers h Hreq Hin). lia. }
  destruct Hshort as [Hs|Hs].
  - rewrite (Hnone "NAME") by (assumption || (simpl; tauto)). reflexivity.
  - rewrite (Hnone "DATE") by (assumption || (simpl; tauto)).
    destruct (cell headers row "NAME"); reflexivity.
Qed.

(** C10. With all required headers present, the first data row that
    lacks a field the loop body reads (one that ends before the NAME or
    DATE column, or before a numeric column while its date parses) makes
    [read_file] raise [IndexError] at the unguarded [row[...]]: the rows
    after it are not read and no dataset is returned. Should a DATE of
    an earlier row overflow a C [int], the exception raised is the
    [OverflowError] of that row instead. *)
Theorem read_file_short_row_raises headers before row rest :
  has_required_headers headers = true ->
  forallb (readable headers) before = true ->
  readable headers row = false ->
  exists log,
    read_file (headers :: before ++ row :: rest)
    = (log, inl (if forallb (date_fits headers) before
                 then IndexError else OverflowError)).
Proof.
  intros Hreq Hbefore Hshort.
  rewrite (read_file_rows headers Hreq).
  assert (Hrows : forall n data, exists log,
    read_rows (scan_headers 0 headers initial_data_pos) n
              (before ++ row :: rest) data
    = (log, inl (if forallb (date_fits headers) before
                 then IndexError else OverflowError))).
  { induction before as [|r before' IH]; intros n data.
    - cbn [app read_rows forallb].
      destruct (process_row_unreadable headers Hreq n row data Hshort)
        as (msgs & ->).
      exists msgs. reflexivity.
    - cbn [forallb] in Hbefore |- *.
      apply andb_true_iff in Hbefore. destruct Hbefore as [Hr Hbefore'].
      cbn [app read_rows].
      destruct (date_fits headers r) eqn:Hf; cbn [andb].
      + destruct (process_row_total headers Hreq n r data Hr Hf)
          as (msgs & data1 & Erow).
        destruct (IH Hbefore' (S n) data1) as (log1 & Erest).
        rewrite Erow, bind_inr, Erest. eexists. reflexivity.
      + rewrite (process_row_overflow headers Hreq n r data); [|  |exact Hf].
        * exists []. reflexivity.
        * unfold readable in Hr.
          destruct (cell headers r "NAME"); [discriminate | discriminate Hr]. }
  destruct (Hrows 0%nat []) as (log & ->). exists log. reflexivity.
Qed.

(** The first data row with a NAME whose DATE overflows, after rows that
    are readable and do not overflow, makes [read_file] raise
    [OverflowError], which the [except] clause of line 104 does not
    catch. *)
Lemma read_file_overflow_raises headers before row rest :
  has_required_headers headers = true ->
  forallb (readable headers) before = true ->
  forallb (date_fits headers) before = true ->
  cell headers row "NAME" <> None ->
  date_fits headers row = false ->
  exists log,
    read_file (headers :: before ++ row :: rest) = (log, inl OverflowError).
Proof.
  intros Hreq Hbefore Hfits Hname Hover.
  rewrite (read_file_rows headers Hreq).
  assert (Hrows : forall n data, exists log,
    read_rows (scan_headers 0 headers initial_data_pos) n
              (before ++ row :: rest) data = (log, inl OverflowError)).
  { induction before as [|r before' IH]; intros n data.
    - cbn [app read_rows].
      rewrite (process_row_overflow headers Hreq n row data Hname Hover).
      exists []. reflexivity.
    - cbn [forallb] in Hbefore, Hfits.
      apply andb_true_iff in Hbefore, Hfits.
      destruct Hbefore as [Hr Hbefore']. destruct Hfits as [Hf Hfits'].
      destruct (process_row_total headers Hreq n r data Hr Hf)
        as (msgs & data1 & Erow).
      destruct (IH Hbefore' Hfits' (S n) data1) as (log1 & Erest).
      cbn [app read_rows]. rewrite Erow, bind_inr, Erest.
      eexists. reflexivity. }
  destruct (Hrows 0%nat []) as (log & ->). exists log. reflexivity.
Qed.
End Ingestion.

Lemma read_file_skips_bad_rows_witness :
  has_required_headers example_headers = true /\
  forallb (readable (B := literal_builtins) example_headers) (tl example_csv)
    = true /\
  forallb (date_fits (B := literal_builtins) example_headers) (tl example_csv)
    = true /\
  exists log data,
    read_file (B := literal_builtins) example_csv = (log, inr (Some data)) /\
    (forall city, records_of data city
                  = records_in (B := literal_builtins) example_headers
                      (tl example_csv) city) /\
    (forall i row, nth_error (tl example_csv) i = Some row ->
                   row_record (B := literal_builtins) example_headers row = None ->
                   exists m, In m log /\ skip_diagnostic i m).
Proof.
  split; [reflexivity|]. split; [reflexivity|]. split; [reflexivity|].
  apply (read_file_skips_bad_rows (B := literal_builtins) example_headers
           (tl example_csv)); reflexivity.
Defined.

(** Two inputs with all required headers on which a row whose DATE does
    not parse is followed by no returned dataset. On the first, the year
    2147483648 does not fit a C [int]: [date] raises [OverflowError],
    which is not caught. On the second, the row dated 2015-13-40 is
    skipped and the blank line after it raises [IndexError]; the valid
    row before them appears in no dataset. *)
Lemma read_file_bad_date_aborts :
  (has_required_headers (hd [] overflow_csv) = true /\
   parse_date (B := literal_builtins) "2147483648-01-01" = None /\
   read_file (B := literal_builtins) overflow_csv = ([], inl OverflowError)) /\
  (has_required_headers (hd [] bad_date_blank_csv) = true /\
   parse_date (B := literal_builtins) "2015-13-40" = None /\
   read_file (B := literal_builtins) bad_date_blank_csv
   = ([CouldNotParseDate 1 (inr [2015; 13; 40])], inl IndexError)).
Proof. repeat split; reflexivity. Qed.

(** The row dated 2015-13-40, the row with the PRCP field [abc] and the
    row without a date have no Record; the two other rows are Boston's
    records. *)
Example example_csv_ingested :
  map (row_record (B := literal_builtins) example_headers) (tl example_csv)
    = [nth_error example_boston 0; None; None; nth_error example_boston 1; None]
  /\ read_file (B := literal_builtins) example_csv
     = (example_log, inr (Some example_dataset)).
Proof. split; reflexivity. Qed.

(** The dataset of [bad_date_csv] has the key [boston] with no record. *)
Lemma read_file_empty_city :
  has_required_headers (hd [] bad_date_csv) = true /\
  exists log data,
    read_file (B := literal_builtins) bad_date_csv = (log, inr (Some data)) /\
    ~ every_city_has_a_record data.
Proof.
  split; [reflexivity|].
  exists [CouldNotParseDate 0 (inr [2015; 13; 40])], [("boston", [])].
  split; [reflexivity|].
  intros Hall. apply (Hall "boston" []); reflexivity.
Qed.

Lemma read_file_keys_witness :
  has_required_headers (hd [] bad_date_csv) = true /\
  read_file (B := literal_builtins) bad_date_csv
    = ([CouldNotParseDate 0 (inr [2015; 13; 40])], inr (Some [("boston", [])])) /\
  forall city,
    (scontains [("boston", @nil Date)] city = true <->
     exists row, In row (tl bad_date_csv)
                 /\ row_city (hd [] bad_date_csv) row = Some city) /\
    records_of [("boston", [])] city
    = records_in (B := literal_builtins) (hd [] bad_date_csv)
        (tl bad_date_csv) city.
Proof.
  split; [reflexivity|]. split; [reflexivity|].
  apply (read_file_keys (B := literal_builtins) (hd [] bad_date_csv)
           (tl bad_date_csv) [CouldNotParseDate 0 (inr [2015; 13; 40])]);
    reflexivity.
Defined.

Lemma read_file_short_row_raises_witness :
  has_required_headers required_headers = true /\
  forallb (readable (B := literal_builtins) required_headers) [] = true /\
  readable (B := literal_builtins) required_headers [] = false /\
  exists log,
    read_file (B := literal_builtins) blank_line_csv = (log, inl IndexError).
Proof.
  do 3 (split; [reflexivity|]).
  apply (read_file_short_row_raises (B := literal_builtins)
           required_headers [] [] []); reflexivity.
Defined.

(** A row with a date but no numeric field stops the ingestion, also
    after rows that were read or skipped. *)
Example read_file_truncated_row :
  read_file (B := literal_builtins)
    (example_csv ++ [["USW14739"; "BOSTON, MA US"; "2016-03-01"; "0.5"]])
  = (example_log, inl IndexError).
Proof. reflexivity. Qed.

(* ================================================================== *)
(** * Query: average precipitation days                                *)
(* ================================================================== *)

Lemma py_sum_sumZ l : py_sum l = sumZ l.
Proof.
  unfold py_sum, sumZ.
  assert (H : forall acc, fold_left Z.add l acc = acc + fold_right Z.add 0 l).
  { induction l as [|x l IH]; intros acc; simpl; [lia|]. rewrite IH. lia. }
  now rewrite H.
Qed.

Lemma zget_set_same (d : list (Z * Z)) k v :
  PyDict.get Z.eqb (PyDict.set Z.eqb d k v) k = Some v.
Proof. apply get_set_same, Z.eqb_eq. Qed.

Lemma sum_set_absent (d : list (Z * Z)) k v :
  PyDict.get Z.eqb d k = None ->
  sumZ (PyDict.values (PyDict.set Z.eqb d k v)) = sumZ (PyDict.values d) + v.
Proof.
  induction d as [|[k' v'] d IH]; simpl; [lia|].
  destruct (k' =? k); [discriminate|]. intros H. simpl. rewrite IH by assumption.
  lia.
Qed.

Lemma sum_set_present (d : list (Z * Z)) k c v :
  PyDict.get Z.eqb d k = Some c ->
  sumZ (PyDict.values (PyDict.set Z.eqb d k v))
  = sumZ (PyDict.values d) - c + v.
Proof.
  induction d as [|[k' v'] d IH]; simpl; [discriminate|].
  destruct (k' =? k); simpl.
  - intros [= ->]. lia.
  - intros H. rewrite IH by assumption. lia.
Qed.

Lemma keys_ensure_year (d : list (Z * Z)) y :
  let d' := ensure_year d y in
  sumZ (PyDict.values d') = sumZ (PyDict.values d) /\
  (NoDup (PyDict.keys d) -> NoDup (PyDict.keys d')) /\
  (forall z, In z (PyDict.keys d') <-> In z (PyDict.keys d) \/ z = y) /\
  exists c, PyDict.get Z.eqb d' y = Some c.
Proof.
  unfold ensure_year, PyDict.contains. cbv zeta.
  destruct (PyDict.get Z.eqb d y) as [c|] eqn:E.
  - repeat split; try tauto; [|eauto].
    intros [H| ->]; [assumption|].
    apply (get_in_keys Z.eqb Z.eqb_eq). congruence.
  - assert (Hnot : ~ In y (PyDict.keys d)).
    { rewrite (get_in_keys Z.eqb Z.eqb_eq). tauto. }
    rewrite sum_set_absent by assumption.
    rewrite (keys_set_absent Z.eqb) by assumption.
    repeat split.
    + lia.
    + intros Hnd. apply NoDup_app; [assumption | repeat constructor; simpl; tauto |].
      intros z Hz [<-|[]]. contradiction.
    + rewrite in_app_iff. simpl. intuition.
    + rewrite in_app_iff. simpl. intuition.
    + exists 0. apply zget_set_same.
Qed.

(** The loop of lines 156-161 never raises; it adds one to the sum of
    the counts per date and one key per year not yet seen. *)
Lemma count_years_spec dates : forall year_days,
  NoDup (PyDict.keys year_days) ->
  exists year_days',
    count_years dates year_days = inr year_days' /\
    sumZ (PyDict.values year_days')
      = sumZ (PyDict.values year_days) + Z.of_nat (List.length dates) /\
    NoDup (PyDict.keys year_days') /\
    (forall y, In y (PyDict.keys year_days') <->
               In y (PyDict.keys year_days) \/ In y (map Datetime.year dates)).
Proof.
  induction dates as [|d rest IH]; intros yd Hnd.
  - exists yd. cbn. repeat split; try tauto; lia.
  - cbn [count_years]. cbv zeta.
    destruct (keys_ensure_year yd (Datetime.year d))
      as (Hsum & Hnd1 & Hkeys & c & Hget).
    set (yd1 := ensure_year yd (Datetime.year d)) in *.
    unfold PyDict.getitem. rewrite Hget.
    assert (Hk2 : PyDict.keys (PyDict.set Z.eqb yd1 (Datetime.year d) (c + 1))
                  = PyDict.keys yd1).
    { apply (keys_set_present Z.eqb). rewrite Hget. discriminate. }
    destruct (IH (PyDict.set Z.eqb yd1 (Datetime.year d) (c + 1)))
      as (yd' & Hrun & Hsum' & Hnd' & Hkeys').
    { rewrite Hk2. auto. }
    exists yd'. split; [assumption|]. split; [|split; [assumption|]].
    + rewrite Hsum', (sum_set_present _ _ c) by assumption.
      rewrite Hsum. cbn [List.length]. lia.
    + intros y. rewrite Hkeys', Hk2, Hkeys. cbn [map In].
      intuition congruence.
Qed.

Lemma sumZ_indicator (ys : list Z) (a : Z) :
  NoDup ys -> In a ys ->
  sumZ (map (fun y => if a =? y then 1 else 0) ys) = 1.
Proof.
  induction 1 as [|y ys Hnot Hnd IH]; intros Hin; [destruct Hin|].
  cbn [map sumZ fold_right]. fold (sumZ (map (fun y => if a =? y then 1 else 0) ys)).
  destruct (Z.eqb_spec a y) as [->|Hne].
  - assert (Hz : sumZ (map (fun y0 => if y =? y0 then 1 else 0) ys) = 0).
    { clear IH Hin Hnd. induction ys as [|z ys IHys]; [reflexivity|].
      cbn [map sumZ fold_right].
      destruct (Z.eqb_spec y z) as [->|_]; [simpl in Hnot; tauto|].
      fold (sumZ (map (fun y0 => if y =? y0 then 1 else 0) ys)).
      rewrite IHys; [reflexivity | simpl in Hnot; tauto]. }
    rewrite Hz. reflexivity.
  - destruct Hin as [->|Hin]; [contradiction|]. rewrite IH by assumption.
    reflexivity.
Qed.

(** Summing the per-year counts over the distinct years counts every
    date once. *)
Lemma sum_days_in_year (ys : list Z) (dates : list Datetime.date) :
  NoDup ys ->
  (forall d, In d dates -> In (Datetime.year d) ys) ->
  sumZ (map (fun y => days_in_year y dates) ys) = Z.of_nat (List.length dates).
Proof.
  intros Hnd. induction dates as [|d rest IH]; intros Hcover.
  - clear Hnd Hcover. unfold sumZ, days_in_year.
    induction ys as [|y ys IHys]; [reflexivity|]. cbn in *. exact IHys.
  - assert (Hsplit : forall l,
      sumZ (map (fun y => days_in_year y (d :: rest)) l)
      = sumZ (map (fun y => if Datetime.year d =? y then 1 else 0) l)
        + sumZ (map (fun y => days_in_year y rest) l)).
    { induction l as [|y l IHl]; [reflexivity|].
      cbn [map sumZ fold_right].
      fold (sumZ (map (fun y => days_in_year y (d :: rest)) l)).
      fold (sumZ (map (fun y => if Datetime.year d =? y then 1 else 0) l)).
      fold (sumZ (map (fun y => days_in_year y rest) l)).
      rewrite IHl. unfold days_in_year. cbn [filter].
      destruct (Datetime.year d =? y); cbn [List.length]; lia. }
    rewrite Hsplit, sumZ_indicator, IH; cbn [List.length]; try lia; auto.
    + intros d' Hd'. apply Hcover. now right.
    + apply Hcover. now left.
Qed.

Lemma same_elements_length (l1 l2 : list Z) :
  NoDup l1 -> NoDup l2 -> (forall y, In y l1 <-> In y l2) ->
  List.length l1 = List.length l2.
Proof.
  intros H1 H2 Heq. apply Nat.le_antisymm.
  - apply NoDup_incl_length; [assumption|]. intros y. apply Heq.
  - apply NoDup_incl_length; [assumption|]. intros y. apply Heq.
Qed.

Lemma filter_none {A} (f : A -> bool) l :
  (forall x, In x l -> f x = false) -> filter f l = [].
Proof.
  induction l as [|x l IH]; intros H; [reflexivity|].
  cbn. rewrite (H x) by now left. apply IH. intros y Hy. apply H. now right.
Qed.

(** C5. When some record has positive total precipitation, the value of
    [avg_precip_days] is the sum, over the distinct years of the records
    with positive total precipitation, of the number of those records in
    that year, divided by the number of those years. *)
Theorem avg_precip_days_value (data : list Date) :
  (exists d, In d data /\ has_precip d = true) ->
  let dates := map date (filter has_precip data) in
  let years := nodup Z.eq_dec (map Datetime.year dates) in
  avg_precip_days data =
    inr (float_of_int (sumZ (map (fun y => days_in_year y dates) years))
         / float_of_int (Z.of_nat (List.length years)))%float.
Proof.
  intros (d & Hin & Hd) dates years.
  unfold avg_precip_days. fold has_precip. fold dates.
  destruct (count_years_spec dates []) as (yd & -> & Hsum & Hnd & Hkeys);
    [constructor|].
  assert (Hlen : List.length (PyDict.keys yd) = List.length years).
  { apply same_elements_length; [assumption | apply NoDup_nodup |].
    intros y. unfold years. rewrite Hkeys, nodup_In. cbn. tauto. }
  assert (Hdate : In (date d) dates).
  { unfold dates. apply in_map, filter_In. now split. }
  assert (Hyears : years <> []).
  { intros Hnil. assert (Hy : In (Datetime.year (date d)) years).
    { unfold years. apply nodup_In, in_map, Hdate. }
    rewrite Hnil in Hy. destruct Hy. }
  rewrite py_sum_sumZ, Hsum, Hlen. cbn [PyDict.values map sumZ fold_right].
  rewrite sum_days_in_year.
  - unfold int_truediv.
    destruct (Z.eqb_spec (Z.of_nat (List.length years)) 0) as [H0|_];
      [|reflexivity].
    destruct years; [contradiction | discriminate].
  - apply NoDup_nodup.
  - intros d' Hd'. unfold years. apply nodup_In, in_map, Hd'.
Qed.

Section DaysOfPrecip.
Context {B : PyBuiltins}.

(** C3, as the code has it. When no record of the city has positive
    total precipitation, the division of line 168 raises
    [ZeroDivisionError], never a default value, and nothing catches it:
    the command ends with that exception after what [read_file] echoed,
    and prints no result. *)
Theorem days_of_precip_undefined city name csv log data records :
  city_name city = Some name ->
  read_file csv = (log, inr (Some data)) ->
  sget data name = Some records ->
  (forall d, In d records -> has_precip d = false) ->
  avg_precip_days records = inl ZeroDivisionError /\
  days_of_precip city csv = (log, inl ZeroDivisionError).
Proof.
  intros Hcity Hread Hget Hdry.
  assert (Havg : avg_precip_days records = inl ZeroDivisionError).
  { unfold avg_precip_days. fold has_precip.
    rewrite (filter_none has_precip records Hdry). reflexivity. }
  split; [assumption|].
  unfold days_of_precip. rewrite Hcity, Hread, bind_inr.
  unfold city_records, PyDict.getitem. rewrite Hget, bind_lift_inr, Havg.
  cbn. now rewrite app_nil_r.
Qed.
End DaysOfPrecip.

Lemma avg_precip_days_value_witness :
  (exists d, In d precip_example /\ has_precip d = true) /\
  avg_precip_days precip_example = inr 2.5%float.
Proof.
  assert (H : exists d, In d precip_example /\ has_precip d = true).
  { eexists. split; [left; reflexivity | reflexivity]. }
  split; [exact H|].
  exact (avg_precip_days_value precip_example H).
Defined.

Lemma days_of_precip_undefined_witness :
  city_name "mia" = Some "miami" /\
  read_file (B := literal_builtins) dry_csv
    = ([], inr (Some [("miami", dry_miami)])) /\
  sget [("miami", dry_miami)] "miami" = Some dry_miami /\
  (forall d, In d dry_miami -> has_precip d = false) /\
  avg_precip_days dry_miami = inl ZeroDivisionError /\
  days_of_precip (B := literal_builtins) "mia" dry_csv
    = ([], inl ZeroDivisionError).
Proof.
  assert (Hdry : forall d, In d dry_miami -> has_precip d = false)
    by (intros d [<-|[<-|[]]]; reflexivity).
  do 3 (split; [reflexivity|]). split; [exact Hdry|].
  apply (days_of_precip_undefined (B := literal_builtins) "mia" "miami"
           dry_csv [] [("miami", dry_miami)] dry_miami);
    [reflexivity | reflexivity | reflexivity | exact Hdry].
Defined.

(** Miami has two records and neither has precipitation: the command
    ends with [ZeroDivisionError]; it does not echo a diagnostic and
    return. *)
Lemma days_of_precip_dry_crashes :
  read_file (B := literal_builtins) dry_csv
    = ([], inr (Some [("miami", dry_miami)])) /\
  dry_miami <> [] /\
  (forall d, In d dry_miami -> has_precip d = false) /\
  crashes (days_of_precip (B := literal_builtins) "mia" dry_csv) /\
  ~ reports_error (days_of_precip (B := literal_builtins) "mia" dry_csv).
Proof.
  split; [reflexivity|]. split; [discriminate|]. split.
  - intros d [<-|[<-|[]]]; reflexivity.
  - split.
    + exists [], ZeroDivisionError. reflexivity.
    + intros (log & m & H). discriminate H.
Qed.

(* ================================================================== *)
(** * The order of binary64 values                                     *)
(* ================================================================== *)

Ltac sf_cases :=
  repeat match goal with
  | |- context [Z.compare ?a ?b] => destruct (Z.compare_spec a b); subst
  | |- context [Pos.compare_cont Eq ?a ?b] =>
      change (Pos.compare_cont Eq a b) with (Pos.compare a b);
      destruct (Pos.compare_spec a b); subst
  end; simpl; intros; try congruence; try lia.

Lemma SF_lt_le_trans x y z :
  SFltb x y = true -> SFleb y z = true -> SFltb x z = true.
Proof.
  unfold SFltb, SFleb, SFcompare.
  destruct x as [[]|[]| |[] mx ex], y as [[]|[]| |[] my ey],
    z as [[]|[]| |[] mz ez]; simpl; try congruence; sf_cases.
Qed.

Lemma SF_lt_le x y : SFltb x y = true -> SFleb x y = true.
Proof. unfold SFltb, SFleb. destruct (SFcompare x y) as [[]|]; congruence. Qed.

Lemma SF_lt_not_ge x y : SFltb x y = true -> SFleb y x = false.
Proof.
  unfold SFltb, SFleb, SFcompare.
  destruct x as [[]|[]| |[] mx ex], y as [[]|[]| |[] my ey];
    simpl; try congruence; sf_cases.
Qed.

Section FloatOrder.
Local Open Scope float_scope.
Variables x y z : float.

Lemma float_lt_le_trans :
  (x <? y) = true -> (y <=? z) = true -> (x <? z) = true.
Proof. rewrite !ltb_spec, leb_spec. apply SF_lt_le_trans. Qed.

Lemma float_lt_le : (x <? y) = true -> (x <=? y) = true.
Proof. rewrite ltb_spec, leb_spec. apply SF_lt_le. Qed.

Lemma float_lt_not_ge : (x <? y) = true -> (y <=? x) = false.
Proof. rewrite ltb_spec, leb_spec. apply SF_lt_not_ge. Qed.
End FloatOrder.

Lemma float_lt_trans (x y z : float) :
  (x <? y)%float = true -> (y <? z)%float = true -> (x <? z)%float = true.
Proof. intros Hxy Hyz. eapply float_lt_le_trans; eauto using float_lt_le. Qed.

Lemma float_not_le_not_lt (x y : float) :
  (x <=? y)%float = false -> (x <? y)%float = false.
Proof.
  intros Hle. destruct (x <? y)%float eqn:E; [|reflexivity].
  apply float_lt_le in E. congruence.
Qed.

Lemma float_lt_irrefl (x : float) : (x <? x)%float = false.
Proof.
  destruct (x <? x)%float eqn:E; [|reflexivity].
  pose proof (float_lt_not_ge _ _ E) as Hge. apply float_lt_le in E. congruence.
Qed.

(** A candidate below [r] stays below when it is not below [x]:
    [x] is then not above [r], nor equal to it. *)
Lemma float_beaten (m r x : float) :
  (m <? r)%float = true -> (m <? x)%float = false -> (r <=? x)%float = false.
Proof.
  intros Hmr Hmx. destruct (r <=? x)%float eqn:E; [|reflexivity].
  rewrite (float_lt_le_trans _ _ _ Hmr E) in Hmx. discriminate.
Qed.

Lemma SF_not_lt_ge x y :
  SFeqb x x = true -> SFeqb y y = true ->
  SFltb x y = false -> SFleb y x = true.
Proof.
  unfold SFeqb, SFltb, SFleb, SFcompare.
  destruct x as [[]|[]| |[] mx ex], y as [[]|[]| |[] my ey];
    simpl; try congruence; sf_cases.
Qed.

Lemma SF_not_le_gt x y :
  SFeqb x x = true -> SFeqb y y = true ->
  SFleb x y = false -> SFltb y x = true.
Proof.
  unfold SFeqb, SFltb, SFleb, SFcompare.
  destruct x as [[]|[]| |[] mx ex], y as [[]|[]| |[] my ey];
    simpl; try congruence; sf_cases.
Qed.

Lemma is_nan_SFeqb x : is_nan x = false -> SFeqb (Prim2SF x) (Prim2SF x) = true.
Proof. unfold is_nan. rewrite negb_false_iff, eqb_spec. trivial. Qed.

(** Two values that are numbers are comparable. *)
Lemma float_not_lt_ge (x y : float) :
  is_nan x = false -> is_nan y = false ->
  (x <? y)%float = false -> (y <=? x)%float = true.
Proof.
  intros Hx Hy. rewrite ltb_spec, leb_spec.
  apply SF_not_lt_ge; now apply is_nan_SFeqb.
Qed.

Lemma float_not_le_gt (x y : float) :
  is_nan x = false -> is_nan y = false ->
  (x <=? y)%float = false -> (y <? x)%float = true.
Proof.
  intros Hx Hy. rewrite ltb_spec, leb_spec.
  apply SF_not_le_gt; now apply is_nan_SFeqb.
Qed.

(* ================================================================== *)
(** * Query: maximum temperature delta                                 *)
(* ================================================================== *)

(** [max_from] returns the first of the items that no item exceeds. *)
Lemma max_from_spec {A} (key : A -> float) (items : list A) : forall m,
  exists i,
    nth_error (m :: items) i = Some (max_from key m items) /\
    (i = 0%nat \/ (key m <? key (max_from key m items))%float = true) /\
    (forall x, In x (m :: items) ->
               (key (max_from key m items) <? key x)%float = false) /\
    (forall j x, (j < i)%nat -> nth_error (m :: items) j = Some x ->
                 (key (max_from key m items) <=? key x)%float = false).
Proof.
  induction items as [|x rest IH]; intros m.
  - exists 0%nat. cbn [max_from]. repeat split.
    + now left.
    + intros y [<-|[]]. apply float_lt_irrefl.
    + intros j y Hj. lia.
  - cbn [max_from]. destruct (key m <? key x)%float eqn:Emx.
    + destruct (IH x) as (i & Hnth & Hfirst & Hmax & Hbefore).
      set (r := max_from key x rest) in *.
      assert (Hmr : (key m <? key r)%float = true).
      { destruct Hfirst as [-> | Hxr].
        - cbn in Hnth. injection Hnth as <-. assumption.
        - eapply float_lt_trans; eassumption. }
      exists (S i). repeat split.
      * exact Hnth.
      * now right.
      * intros y [<-|Hy]; [|now apply Hmax].
        now apply float_not_le_not_lt, float_lt_not_ge.
      * intros [|j] y Hj Hy.
        -- cbn in Hy. injection Hy as <-. now apply float_lt_not_ge.
        -- apply (Hbefore j); [lia | exact Hy].
    + destruct (IH m) as (i & Hnth & Hfirst & Hmax & Hbefore).
      set (r := max_from key m rest) in *.
      destruct i as [|k].
      * cbn in Hnth. injection Hnth as Hr. exists 0%nat. repeat split.
        -- cbn. now rewrite Hr.
        -- now left.
        -- intros y [<-|[<-|Hy]].
           ++ apply Hmax. now left.
           ++ now rewrite <- Hr.
           ++ apply Hmax. now right.
        -- intros j y Hj. lia.
      * destruct Hfirst as [Hk | Hmr]; [discriminate|].
        exists (S (S k)). repeat split.
        -- exact Hnth.
        -- now right.
        -- intros y [<-|[<-|Hy]].
           ++ apply Hmax. now left.
           ++ apply float_not_le_not_lt. eapply float_beaten; eassumption.
           ++ apply Hmax. now right.
        -- intros [|[|j]] y Hj Hy.
           ++ apply (Hbefore 0%nat); [lia | exact Hy].
           ++ cbn in Hy. injection Hy as <-. eapply float_beaten; eassumption.
           ++ apply (Hbefore (S j)); [lia | exact Hy].
Qed.

Lemma select_tdeltas_considered year month data :
  select_tdeltas year month data = map tdelta (considered year month data).
Proof.
  unfold select_tdeltas, considered.
  destruct month as [m|], year as [y|]; cbn [eq_opt]; try reflexivity.
  - f_equal. apply filter_ext. intros d. apply andb_comm.
  - f_equal. apply filter_none. intros d _. apply andb_false_r.
Qed.

(** C7. The list [tdeltas] holds, in order, the date and delta of every
    record when neither year nor month is given, of exactly the records
    of the year when only the year is given, and of exactly the records
    of that month of that year when both are given. *)
Theorem select_tdeltas_rule (data : list Date) :
  select_tdeltas None None data = map tdelta data /\
  (forall y, select_tdeltas (Some y) None data
             = map tdelta (filter (in_year y) data)) /\
  (forall y m, select_tdeltas (Some y) (Some m) data
               = map tdelta (filter (fun d => in_year y d && in_month m d) data)) /\
  (forall y d, In d (filter (in_year y) data)
               <-> In d data /\ Datetime.year (date d) = y) /\
  (forall y m d, In d (filter (fun d => in_year y d && in_month m d) data)
                 <-> In d data /\ Datetime.year (date d) = y
                     /\ Datetime.month (date d) = m).
Proof.
  split; [reflexivity|]. split; [reflexivity|]. split; [|split].
  - intros y m. apply (select_tdeltas_considered (Some y) (Some m)).
  - intros y d. rewrite filter_In. unfold in_year. now rewrite Z.eqb_eq.
  - intros y m d. rewrite filter_In, andb_true_iff. unfold in_year, in_month.
    now rewrite !Z.eqb_eq.
Qed.

Section MaxTempDelta.
Context {B : PyBuiltins}.

(** When the records considered are not empty, the query returns the
    date of one of them, [r], together with its delta rounded to 14
    digits, where the delta of [r] is below that of no considered record
    and reaches that of no considered record before [r]. *)
Lemma max_temp_delta_query_first year month data :
  considered year month data <> [] ->
  exists i r,
    nth_error (considered year month data) i = Some r /\
    max_temp_delta_query year month data
      = inr (date r, py_round (temp_delta r) 14) /\
    (forall r', In r' (considered year month data) ->
                (temp_delta r <? temp_delta r')%float = false) /\
    (forall j r', (j < i)%nat ->
                  nth_error (considered year month data) j = Some r' ->
                  (temp_delta r <=? temp_delta r')%float = false).
Proof.
  intros Hne. unfold max_temp_delta_query.
  rewrite select_tdeltas_considered.
  destruct (considered year month data) as [|first rest]; [contradiction|].
  cbn [map py_max].
  destruct (max_from_spec snd (map tdelta rest) (tdelta first))
    as (i & Hnth & _ & Hmax & Hbefore).
  change (tdelta first :: map tdelta rest) with (map tdelta (first :: rest))
    in Hnth, Hmax, Hbefore.
  rewrite nth_error_map in Hnth.
  destruct (nth_error (first :: rest) i) as [r|] eqn:Er; [|discriminate].
  cbn [option_map] in Hnth. injection Hnth as Hr. rewrite <- Hr in *.
  exists i, r. split; [exact Er|]. split; [reflexivity|]. split.
  - intros r' Hin. apply (Hmax (tdelta r')). now apply in_map.
  - intros j r' Hlt Hj. apply (Hbefore j (tdelta r') Hlt).
    rewrite nth_error_map, Hj. reflexivity.
Qed.

(** C6, as the code has it. When the records considered are not empty
    and the delta of each of them is a number, the query returns the
    date of the first record of maximal delta, together with that delta
    rounded to 14 digits: the record [r] returned has a delta that every
    considered record is at most, and that every considered record
    before [r] is below. *)
Theorem max_temp_delta_first_max year month data :
  considered year month data <> [] ->
  (forall r, In r (considered year month data) ->
             is_nan (temp_delta r) = false) ->
  exists i r,
    nth_error (considered year month data) i = Some r /\
    max_temp_delta_query year month data
      = inr (date r, py_round (temp_delta r) 14) /\
    (forall r', In r' (considered year month data) ->
                (temp_delta r' <=? temp_delta r)%float = true) /\
    (forall j r', (j < i)%nat ->
                  nth_error (considered year month data) j = Some r' ->
                  (temp_delta r' <? temp_delta r)%float = true).
Proof.
  intros Hne Hnum.
  destruct (max_temp_delta_query_first year month data Hne)
    as (i & r & Hnth & Hquery & Hmax & Hbefore).
  pose proof (Hnum r (nth_error_In _ _ Hnth)) as Hr.
  exists i, r. split; [exact Hnth|]. split; [exact Hquery|]. split.
  - intros r' Hin. apply float_not_lt_ge; auto.
  - intros j r' Hlt Hj. apply float_not_le_gt; eauto using nth_error_In.
Qed.

(** C2, as the code has it. When no record passes the filter, [max]
    raises [ValueError] on the empty list and nothing catches it: the
    command ends with that exception after what [read_file] echoed, and
    prints no result. *)
Theorem max_temp_delta_empty_raises year month city name csv log data
    records :
  city_name city = Some name ->
  year_rejected year = false ->
  month_rejected year month = None ->
  read_file csv = (log, inr (Some data)) ->
  sget data name = Some records ->
  considered year month records = [] ->
  max_temp_delta_query year month records = inl ValueError /\
  max_temp_delta year month city csv = (log, inl ValueError).
Proof.
  intros Hcity Hyear Hmonth Hread Hget Hempty.
  assert (Hq : max_temp_delta_query year month records = inl ValueError).
  { unfold max_temp_delta_query.
    now rewrite select_tdeltas_considered, Hempty. }
  split; [assumption|].
  unfold max_temp_delta. rewrite Hcity, Hyear, Hmonth, Hread, bind_inr.
  unfold city_records, PyDict.getitem. rewrite Hget, bind_lift_inr, Hq.
  cbn. now rewrite app_nil_r.
Qed.
End MaxTempDelta.

Lemma max_temp_delta_first_max_witness :
  considered (Some 2015) None delta_example <> [] /\
  (forall r, In r (considered (Some 2015) None delta_example) ->
             is_nan (temp_delta r) = false) /\
  exists i r,
    nth_error (considered (Some 2015) None delta_example) i = Some r /\
    max_temp_delta_query (B := literal_builtins) (Some 2015) None delta_example
      = inr (date r, py_round (PyBuiltins := literal_builtins) (temp_delta r) 14) /\
    (forall r', In r' (considered (Some 2015) None delta_example) ->
                (temp_delta r' <=? temp_delta r)%float = true) /\
    (forall j r', (j < i)%nat ->
                  nth_error (considered (Some 2015) None delta_example) j
                    = Some r' ->
                  (temp_delta r' <? temp_delta r)%float = true).
Proof.
  assert (Hnum : forall r, In r (considered (Some 2015) None delta_example) ->
                           is_nan (temp_delta r) = false)
    by (intros r [<-|[<-|[<-|[]]]]; reflexivity).
  split; [discriminate|]. split; [exact Hnum|].
  apply (max_temp_delta_first_max (B := literal_builtins)
           (Some 2015) None delta_example); [discriminate | exact Hnum].
Defined.

(** Read from a file whose first Boston row has inf as both temperatures,
    the first record has a delta that is not a number and the second the
    delta 20. The query returns the first record, whose delta the
    second's is not at most: the record returned is not one of maximal
    delta. *)
Lemma max_temp_delta_nan_returned :
  read_file (B := python_builtins) inf_csv
    = ([], inr (Some [("boston", nan_example)])) /\
  considered None None nan_example <> [] /\
  map temp_delta nan_example = [nan; 20]%float /\
  max_temp_delta_query (B := python_builtins) None None nan_example
    = inr (Datetime.mkdate 2015 1 1, nan) /\
  (20 <=? nan)%float = false /\
  max_temp_delta (B := python_builtins) None None "bos" inf_csv
    = ([], inr (Some (MaxTempDelta "bos" (Datetime.mkdate 2015 1 1) nan))).
Proof.
  split; [reflexivity|]. split; [discriminate|].
  repeat split; reflexivity.
Qed.

(** Of the two records of 2015 with the maximal delta 12.5, the earlier
    one, of 2015-01-02, is returned. *)
Example max_temp_delta_tie :
  map temp_delta delta_example = [5.5; 12.5; 12.5; 3]%float /\
  max_temp_delta_query (B := literal_builtins) (Some 2015) None delta_example
  = inr (Datetime.mkdate 2015 1 2, 12.5%float).
Proof. split; reflexivity. Qed.

(** Boston has no record in 2017, a year the command accepts: the
    command ends with [ValueError]; it does not echo a diagnostic and
    return. *)
Lemma max_temp_delta_empty_crashes :
  year_rejected (Some 2017) = false /\
  read_file (B := literal_builtins) example_csv
    = (example_log, inr (Some example_dataset)) /\
  considered (Some 2017) None (records_of example_dataset "boston") = [] /\
  crashes (max_temp_delta (B := literal_builtins) (Some 2017) None "bos"
             example_csv) /\
  ~ reports_error (max_temp_delta (B := literal_builtins) (Some 2017) None
                     "bos" example_csv).
Proof.
  split; [reflexivity|]. split; [reflexivity|]. split; [reflexivity|].
  split.
  - exists example_log, ValueError. reflexivity.
  - intros (log & m & H). discriminate H.
Qed.

Lemma max_temp_delta_empty_raises_witness :
  city_name "bos" = Some "boston" /\
  year_rejected (Some 2017) = false /\
  month_rejected (Some 2017) None = None /\
  read_file (B := literal_builtins) example_csv
    = (example_log, inr (Some example_dataset)) /\
  sget example_dataset "boston" = Some example_boston /\
  considered (Some 2017) None example_boston = [] /\
  max_temp_delta_query (B := literal_builtins) (Some 2017) None example_boston
    = inl ValueError /\
  max_temp_delta (B := literal_builtins) (Some 2017) None "bos" example_csv
    = (example_log, inl ValueError).
Proof.
  do 6 (split; [reflexivity|]).
  apply (max_temp_delta_empty_raises (B := literal_builtins)
           (Some 2017) None "bos" "boston" example_csv example_log
           example_dataset);
    reflexivity.
Defined.


(* ================================================================== *)
(** * More on the header scan                                          *)
(* ================================================================== *)

Lemma pos_after_last h headers : forall n pos,
  (pos_after h n headers pos = pos /\ ~ In h headers) \/
  (n <= pos_after h n headers pos /\
   nth_error headers (Z.to_nat (pos_after h n headers pos - n)) = Some h /\
   forall j, (Z.to_nat (pos_after h n headers pos - n) < j)%nat ->
             nth_error headers j <> Some h).
Proof.
  induction headers as [|x rest IH]; intros n pos; [left; split; [reflexivity | tauto]|].
  cbn [pos_after].
  destruct (String.eqb_spec x h) as [->|Hne].
  - right. destruct (IH (n + 1) n) as [[Heq Hnot] | (Hle & Hnth & Hlater)].
    + rewrite Heq. replace (n - n) with 0 by lia. cbn.
      repeat split; [lia|].
      intros [|j] Hj; [lia|]. cbn. intros Hin. apply Hnot.
      eapply nth_error_In, Hin.
    + set (p := pos_after h (n + 1) rest n) in *.
      replace (Z.to_nat (p - n)) with (S (Z.to_nat (p - (n + 1)))) by lia.
      repeat split; [lia | exact Hnth |].
      intros [|j] Hj; [lia|]. cbn. apply Hlater. lia.
  - destruct (IH (n + 1) pos) as [[Heq Hnot] | (Hle & Hnth & Hlater)].
    + left. split; [assumption|]. intros [Hx|Hin]; [congruence | tauto].
    + right. set (p := pos_after h (n + 1) rest pos) in *.
      replace (Z.to_nat (p - n)) with (S (Z.to_nat (p - (n + 1)))) by lia.
      repeat split; [lia | exact Hnth |].
      intros [|j] Hj; [lia|]. cbn. apply Hlater. lia.
Qed.

(** X1. Whatever the header row holds, [data_pos] keeps exactly its six
    keys, in order; a required header that is absent keeps the position
    -1, and one that is present gets the index of its last occurrence. *)
Theorem scan_headers_last_occurrence (headers : list string) (h : string) :
  In h required_headers ->
  PyDict.keys (scan_headers 0 headers initial_data_pos) = required_headers /\
  exists pos,
    sget (scan_headers 0 headers initial_data_pos) h = Some pos /\
    ((pos = -1 /\ ~ In h headers) \/
     (0 <= pos /\ nth_error headers (Z.to_nat pos) = Some h /\
      forall j, (Z.to_nat pos < j)%nat -> nth_error headers j <> Some h)).
Proof.
  intros Hin. split; [rewrite data_pos_columns; reflexivity|].
  exists (column headers h). split.
  - pose proof (data_pos_getitem headers h Hin) as Hget.
    unfold PyDict.getitem in Hget.
    destruct (sget (scan_headers 0 headers initial_data_pos) h); congruence.
  - unfold column.
    destruct (pos_after_last h headers 0 (-1)) as [[Heq Hnot] | (Hle & Hnth & Hl)].
    + left. now split.
    + right. rewrite Z.sub_0_r in Hnth, Hl. now repeat split.
Qed.

Lemma scan_headers_last_occurrence_witness :
  In "DATE" required_headers /\
  PyDict.keys (scan_headers 0 ["DATE"; "X"; "NAME"; "DATE"; "Y"]
                 initial_data_pos) = required_headers /\
  exists pos,
    sget (scan_headers 0 ["DATE"; "X"; "NAME"; "DATE"; "Y"] initial_data_pos)
      "DATE" = Some pos /\
    ((pos = -1 /\ ~ In "DATE" ["DATE"; "X"; "NAME"; "DATE"; "Y"]) \/
     (0 <= pos /\
      nth_error ["DATE"; "X"; "NAME"; "DATE"; "Y"] (Z.to_nat pos) = Some "DATE" /\
      forall j, (Z.to_nat pos < j)%nat ->
                nth_error ["DATE"; "X"; "NAME"; "DATE"; "Y"] j <> Some "DATE")).
Proof.
  assert (H : In "DATE" required_headers) by (simpl; tauto).
  split; [exact H|].
  exact (scan_headers_last_occurrence ["DATE"; "X"; "NAME"; "DATE"; "Y"] "DATE" H).
Defined.

(* ================================================================== *)
(** * More on ingestion                                                *)
(* ================================================================== *)

Section IngestionLog.
Context {B : PyBuiltins}.

(** X2. [read_file] never returns [None]: the bare [return] of line 88
    is never reached, because the line before it raises. *)
Theorem read_file_never_none (csv : csv_rows) (log : list message) :
  read_file csv <> (log, inr None).
Proof.
  destruct csv as [|headers rows]; [discriminate|].
  unfold read_file.
  destruct (existsb (Z.eqb (-1))
              (PyDict.values (scan_headers 0 headers initial_data_pos))).
  - rewrite data_pos_columns. discriminate.
  - destruct (read_rows (scan_headers 0 headers initial_data_pos) 0 rows [])
      as [out [e|data]]; [discriminate|].
    rewrite bind_inr. discriminate.
Qed.

Variable headers : list string.
Hypothesis Hreq : has_required_headers headers = true.

Local Abbreviation data_pos := (scan_headers 0 headers initial_data_pos).

(** What the loop body echoes when it returns: nothing for a row with a
    Record, and skip diagnostics only for its own row index. *)
Lemma process_row_log n row data msgs data' :
  process_row data_pos n row data = (msgs, inr data') ->
  (row_record headers row <> None -> msgs = []) /\
  (forall m k, In m msgs -> skip_diagnostic k m ->
               k = n /\ row_record headers row = None).
Proof.
  unfold process_row, row_record.
  rewrite (data_pos_getitem headers "NAME"), bind_lift_inr by (simpl; tauto).
  rewrite (row_getitem headers Hreq row "NAME") by (simpl; tauto).
  destruct (cell headers row "NAME") as [nf|]; [|discriminate].
  rewrite bind_lift_inr, city_key_total, bind_lift_inr.
  rewrite (data_pos_getitem headers "DATE"), bind_lift_inr by (simpl; tauto).
  rewrite (row_getitem headers Hreq row "DATE") by (simpl; tauto).
  destruct (cell headers row "DATE") as [df|]; [|discriminate].
  rewrite bind_lift_inr, parse_date_read_date.
  destruct (read_date (split "-" df)) as [[e v]|day] eqn:Edate.
  - destruct (date_error_caught e); [|discriminate]. cbn.
    intros [= <- <-].
    split.
    + intros Hsome. exfalso. apply Hsome.
      destruct (cell headers row "PRCP"), (cell headers row "SNOW"),
        (cell headers row "TMAX"), (cell headers row "TMIN"); reflexivity.
    + intros m k [<-|[]] Hk. cbn in Hk. split; [now symmetry|].
      destruct (cell headers row "PRCP"), (cell headers row "SNOW"),
        (cell headers row "TMAX"), (cell headers row "TMIN"); reflexivity.
  - rewrite !(read_number_cell headers Hreq) by (simpl; tauto).
    destruct (cell headers row "PRCP") as [p|]; [|discriminate].
    rewrite bind_inr. cbn [fst snd].
    destruct (cell headers row "SNOW") as [s|]; [|discriminate].
    rewrite bind_inr. cbn [fst snd].
    destruct (cell headers row "TMAX") as [tx|]; [|discriminate].
    rewrite bind_inr. cbn [fst snd].
    destruct (cell headers row "TMIN") as [tn|]; [|discriminate].
    rewrite bind_inr. cbn [fst snd].
    destruct (parse_number p), (parse_number s), (parse_number tx),
      (parse_number tn);
      try (cbn; intros [= <- <-]; split;
           [intros Hsome; now contradiction Hsome
           | intros m k Hin Hk; split; [|reflexivity];
             cbn in Hin;
             repeat (destruct Hin as [<-|Hin]; [cbn in Hk; try tauto; now symmetry|]);
             destruct Hin]).
    unfold append_record, PyDict.getitem. rewrite ensure_key_get.
    cbn. intros [= <- <-]. split; [reflexivity | intros m k []].
Qed.

Lemma read_rows_log rows : forall n data log data',
  read_rows data_pos n rows data = (log, inr data') ->
  ((forall row, In row rows -> row_record headers row <> None) -> log = []) /\
  (forall m k, In m log -> skip_diagnostic k m ->
     exists i row, k = (n + i)%nat /\ nth_error rows i = Some row /\
                   row_record headers row = None).
Proof.
  induction rows as [|row rest IH]; intros n data log data' Hrun.
  - cbn in Hrun. injection Hrun as <- <-. split; [reflexivity | intros m k []].
  - cbn [read_rows] in Hrun.
    destruct (process_row data_pos n row data) as [msgs [e|data1]] eqn:Erow;
      [discriminate|].
    rewrite bind_inr in Hrun.
    destruct (read_rows data_pos (S n) rest data1) as [log1 res1] eqn:Erest.
    cbn [fst snd] in Hrun. injection Hrun as <- ->.
    destruct (process_row_log _ _ _ _ _ Erow) as (Hquiet & Hown).
    destruct (IH _ _ _ _ Erest) as (Hquiet' & Hrest).
    split.
    + intros Hall. rewrite Hquiet, Hquiet'; [reflexivity | |].
      * intros r Hr. apply Hall. now right.
      * apply Hall. now left.
    + intros m k Hin Hk. apply in_app_or in Hin. destruct Hin as [Hin|Hin].
      * destruct (Hown m k Hin Hk) as (-> & Hnone).
        exists 0%nat, row. repeat split; [lia | assumption].
      * destruct (Hrest m k Hin Hk) as (i & r & -> & Hnth & Hnone).
        exists (S i), r. repeat split; [lia | assumption | assumption].
Qed.
End IngestionLog.

Section IngestionMore.
Context {B : PyBuiltins}.

(** X3. When [read_file] returns a dataset, the log holds a skip
    diagnostic with row index [n] exactly when the file has a data row
    [n] and that row has no Record. *)
Theorem read_file_diagnostics headers rows log data :
  has_required_headers headers = true ->
  read_file (headers :: rows) = (log, inr (Some data)) ->
  forall n,
    (exists m, In m log /\ skip_diagnostic n m) <->
    (exists row, nth_error rows n = Some row /\ row_record headers row = None).
Proof.
  intros Hreq Hrun n. rewrite (read_file_rows headers Hreq) in Hrun.
  destruct (read_rows (scan_headers 0 headers initial_data_pos) 0 rows [])
    as [log' [e|data']] eqn:Erows; [discriminate|].
  cbn [fst snd] in Hrun. injection Hrun as -> ->.
  split.
  - intros (m & Hin & Hm).
    destruct (read_rows_log headers Hreq rows _ _ _ _ Erows) as (_ & Hsound).
    destruct (Hsound m n Hin Hm) as (i & row & -> & Hnth & Hnone).
    exists row. now split.
  - intros (row & Hnth & Hnone).
    destruct (read_rows_returns headers Hreq rows _ _ _ _ Erows)
      as (_ & _ & Hlog).
    apply (Hlog n row Hnth Hnone).
Qed.

(** X4. When [read_file] returns a dataset, it has echoed nothing
    exactly when every data row has a Record. *)
Theorem read_file_silent headers rows log data :
  has_required_headers headers = true ->
  read_file (headers :: rows) = (log, inr (Some data)) ->
  log = [] <-> (forall row, In row rows -> row_record headers row <> None).
Proof.
  intros Hreq Hrun. rewrite (read_file_rows headers Hreq) in Hrun.
  destruct (read_rows (scan_headers 0 headers initial_data_pos) 0 rows [])
    as [log' [e|data']] eqn:Erows; [discriminate|].
  cbn [fst snd] in Hrun. injection Hrun as -> ->.
  split.
  - intros -> row Hin Hnone.
    destruct (In_nth_error _ _ Hin) as (i & Hnth).
    destruct (read_rows_returns headers Hreq rows _ _ _ _ Erows)
      as (_ & _ & Hlog).
    destruct (Hlog i row Hnth Hnone) as (m & [] & _).
  - apply (read_rows_log headers Hreq rows _ _ _ _ Erows).
Qed.

Lemma read_rows_app data_pos rows1 rows2 : forall n data,
  read_rows data_pos n (rows1 ++ rows2) data =
  bind (read_rows data_pos n rows1 data)
       (read_rows data_pos (n + List.length rows1) rows2).
Proof.
  induction rows1 as [|row rest IH]; intros n data.
  - cbn [app read_rows List.length]. rewrite bind_ret. now rewrite Nat.add_0_r.
  - cbn [app read_rows List.length].
    destruct (process_row data_pos n row data) as [msgs [e|data1]];
      [reflexivity|].
    cbn [bind]. rewrite IH.
    replace (S n + List.length rest)%nat with (n + S (List.length rest))%nat
      by lia.
    destruct (read_rows data_pos (S n) rest data1) as [log1 [e|data2]];
      cbn [bind]; [reflexivity|].
    destruct (read_rows data_pos (n + S (List.length rest)) rows2 data2)
      as [log2 r2].
    now rewrite app_assoc.
Qed.

(** X5. Rows added at the end of a file only add to what the file
    gave: when the longer file is ingested, so is the shorter one, its
    log is the beginning of the longer log, and each city's records in
    the longer file are its records in the shorter one followed by the
    Records of the added rows. *)
Theorem read_file_prefix headers rows1 rows2 log data :
  has_required_headers headers = true ->
  read_file (headers :: rows1 ++ rows2) = (log, inr (Some data)) ->
  exists log1 data1 log2,
    read_file (headers :: rows1) = (log1, inr (Some data1)) /\
    log = log1 ++ log2 /\
    forall city, records_of data city
                 = records_of data1 city ++ records_in headers rows2 city.
Proof.
  intros Hreq Hrun. rewrite (read_file_rows headers Hreq) in Hrun.
  rewrite read_rows_app in Hrun.
  destruct (read_rows (scan_headers 0 headers initial_data_pos) 0 rows1 [])
    as [log1 [e|data1]] eqn:E1; [discriminate|].
  rewrite bind_inr in Hrun. cbn [fst snd] in Hrun.
  destruct (read_rows (scan_headers 0 headers initial_data_pos)
              (0 + List.length rows1) rows2 data1)
    as [log2 [e|data2]] eqn:E2; [discriminate|].
  cbn [fst snd] in Hrun. injection Hrun as <- <-.
  exists log1, data1, log2. rewrite (read_file_rows headers Hreq), E1.
  split; [reflexivity|]. split; [reflexivity|].
  intros city.
  destruct (read_rows_returns headers Hreq rows2 _ _ _ _ E2) as (Hrec & _).
  apply Hrec.
Qed.

Lemma process_row_same_cells headers n row row' data :
  has_required_headers headers = true ->
  same_cells headers row row' ->
  process_row (scan_headers 0 headers initial_data_pos) n row data =
  process_row (scan_headers 0 headers initial_data_pos) n row' data.
Proof.
  intros Hreq Hsame. unfold process_row.
  rewrite !(data_pos_getitem headers "NAME"), !bind_lift_inr by (simpl; tauto).
  rewrite !(row_getitem headers Hreq _ "NAME") by (simpl; tauto).
  rewrite <- (Hsame "NAME") by (simpl; tauto).
  destruct (cell headers row "NAME") as [nf|]; [|reflexivity].
  rewrite !bind_lift_inr, city_key_total, !bind_lift_inr.
  rewrite !(data_pos_getitem headers "DATE"), !bind_lift_inr by (simpl; tauto).
  rewrite !(row_getitem headers Hreq _ "DATE") by (simpl; tauto).
  rewrite <- (Hsame "DATE") by (simpl; tauto).
  destruct (cell headers row "DATE") as [df|]; [|reflexivity].
  rewrite !bind_lift_inr.
  destruct (read_date (split "-" df)) as [[e v]|day]; [reflexivity|].
  rewrite !(read_number_cell headers Hreq) by (simpl; tauto).
  rewrite <- (Hsame "PRCP"), <- (Hsame "SNOW"), <- (Hsame "TMAX"),
    <- (Hsame "TMIN") by (simpl; tauto).
  reflexivity.
Qed.

(** X6. Only the fields under the six required headers are read: two
    files with the same header row whose data rows agree, row by row, on
    those fields give the same log and the same result. *)
Theorem read_file_same_cells headers rows rows' :
  has_required_headers headers = true ->
  Forall2 (same_cells headers) rows rows' ->
  read_file (headers :: rows) = read_file (headers :: rows').
Proof.
  intros Hreq Hsame. rewrite !(read_file_rows headers Hreq).
  assert (Hrows : forall n data,
    read_rows (scan_headers 0 headers initial_data_pos) n rows data =
    read_rows (scan_headers 0 headers initial_data_pos) n rows' data).
  { induction Hsame as [|row row' rest rest' Hrow Hrest IH]; intros n data;
      [reflexivity|].
    cbn [read_rows]. rewrite (process_row_same_cells headers n row row' data Hreq Hrow).
    destruct (process_row _ n row' data) as [msgs [e|data1]]; [reflexivity|].
    rewrite !bind_inr, IH. reflexivity. }
  now rewrite Hrows.
Qed.
End IngestionMore.

(* ================================================================== *)
(** * The commands                                                     *)
(* ================================================================== *)

Lemma city_name_known city :
  existsb (String.eqb city) ["bos"; "jnu"; "mia"] = true <->
  exists name, city_name city = Some name.
Proof.
  unfold city_name. cbn [existsb].
  destruct (String.eqb city "bos"); [split; eauto|].
  destruct (String.eqb city "jnu"); [split; eauto|].
  destruct (String.eqb city "mia"); [split; eauto|].
  split; [discriminate | intros (name & H); discriminate].
Qed.

Lemma year_rejected_range year :
  year_rejected year = false <->
  match year with Some y => 2010 <= y <= 2019 | None => True end.
Proof.
  destruct year as [y|]; cbn; [|tauto].
  rewrite orb_false_iff, Z.geb_leb, Z.leb_gt, Z.ltb_ge. lia.
Qed.

Lemma month_rejected_range year month :
  month_rejected year month = None <->
  match month with
  | Some m => 1 <= m <= 12 /\ year <> None
  | None => True
  end.
Proof.
  destruct month as [m|]; cbn; [|tauto].
  destruct ((m >? 12) || (m <? 1)) eqn:E.
  - apply orb_true_iff in E. rewrite Z.gtb_ltb, !Z.ltb_lt in E.
    split; [discriminate | lia].
  - apply orb_false_iff in E. rewrite Z.gtb_ltb, !Z.ltb_ge in E.
    destruct year as [y|].
    + split; [intros _; split; [lia | discriminate] | reflexivity].
    + split; [discriminate | intros [_ Hy]; now contradiction Hy].
Qed.

Lemma args_ok_checks year month city :
  args_ok year month city = true <->
  (exists name, city_name city = Some name) /\
  year_rejected year = false /\ month_rejected year month = None.
Proof.
  unfold args_ok. rewrite !andb_true_iff, city_name_known,
    year_rejected_range, month_rejected_range.
  destruct year as [y|], month as [m|];
    rewrite ?andb_true_iff, ?Z.leb_le; intuition (try discriminate; try lia).
Qed.

Section Commands.
Context {B : PyBuiltins}.

Lemma days_of_precip_after_read city name csv log r :
  city_name city = Some name ->
  read_file csv = (log, r) ->
  days_of_precip city csv =
    (log,
     match r with
     | inl e => inl e
     | inr data =>
         match city_records name data with
         | inl e => inl e
         | inr records =>
             match avg_precip_days records with
             | inl e => inl e
             | inr avg => inr (Some (DaysOfPrecip city avg))
             end
         end
     end).
Proof.
  intros Hcity Hread. unfold days_of_precip. rewrite Hcity, Hread.
  destruct r as [e|data]; [reflexivity|].
  rewrite bind_inr.
  destruct (city_records name data) as [e|records]; cbn;
    [now rewrite app_nil_r|].
  destruct (avg_precip_days records); cbn; now rewrite app_nil_r.
Qed.

Lemma max_temp_delta_after_read year month city name csv log r :
  city_name city = Some name ->
  year_rejected year = false ->
  month_rejected year month = None ->
  read_file csv = (log, r) ->
  max_temp_delta year month city csv =
    (log,
     match r with
     | inl e => inl e
     | inr data =>
         match city_records name data with
         | inl e => inl e
         | inr records =>
             match max_temp_delta_query year month records with
             | inl e => inl e
             | inr result =>
                 inr (Some (MaxTempDelta city (fst result) (snd result)))
             end
         end
     end).
Proof.
  intros Hcity Hyear Hmonth Hread. unfold max_temp_delta.
  rewrite Hcity, Hyear, Hmonth, Hread.
  destruct r as [e|data]; [reflexivity|].
  rewrite bind_inr.
  destruct (city_records name data) as [e|records]; cbn;
    [now rewrite app_nil_r|].
  destruct (max_temp_delta_query year month records); cbn;
    now rewrite app_nil_r.
Qed.

(** X7. A file that is ingested but has no data row of the requested
    city makes both commands end with [KeyError], at [data[...]]. *)
Theorem commands_missing_city year month city name headers rows log data :
  has_required_headers headers = true ->
  read_file (headers :: rows) = (log, inr (Some data)) ->
  city_name city = Some name ->
  names_city headers rows name = false ->
  days_of_precip city (headers :: rows) = (log, inl KeyError) /\
  (args_ok year month city = true ->
   max_temp_delta year month city (headers :: rows) = (log, inl KeyError)).
Proof.
  intros Hreq Hread Hcity Hnone.
  assert (Hkey : city_records name (Some data) = inl KeyError).
  { rewrite (read_file_rows headers Hreq) in Hread.
    destruct (read_rows (scan_headers 0 headers initial_data_pos) 0 rows [])
      as [log' [e|data']] eqn:Erows; [discriminate|].
    cbn [fst snd] in Hread. injection Hread as -> ->.
    destruct (read_rows_returns headers Hreq rows _ _ _ _ Erows)
      as (_ & Hkeys & _).
    specialize (Hkeys name). rewrite Hnone in Hkeys. cbn in Hkeys.
    unfold city_records, PyDict.getitem. unfold PyDict.contains in Hkeys.
    destruct (sget data name); [discriminate | reflexivity]. }
  split.
  - rewrite (days_of_precip_after_read city name _ log _ Hcity Hread).
    now rewrite Hkey.
  - intros Hargs. apply args_ok_checks in Hargs.
    destruct Hargs as (_ & Hyear & Hmonth).
    rewrite (max_temp_delta_after_read year month city name _ log _
               Hcity Hyear Hmonth Hread).
    now rewrite Hkey.
Qed.

(** X8. [max_temp_delta] returns without a result exactly when its
    arguments are not valid (unknown city, year outside 2010..2019, month
    outside 1..12, or a month without a year); it then echoes one message
    and its outcome does not depend on the file. *)
Theorem max_temp_delta_rejects year month city :
  (forall csv,
     (exists log, max_temp_delta year month city csv = (log, inr None)) <->
     args_ok year month city = false) /\
  (args_ok year month city = false ->
   exists m, forall csv, max_temp_delta year month city csv = ([m], inr None)).
Proof.
  assert (Hrej : args_ok year month city = false ->
    exists m, forall csv, max_temp_delta year month city csv = ([m], inr None)).
  { intros Hargs. unfold max_temp_delta.
    destruct (city_name city) as [name|] eqn:Hcity;
      [|exists CityNotRecognized; reflexivity].
    destruct (year_rejected year) eqn:Hyear;
      [exists YearOutOfRange; reflexivity|].
    destruct (month_rejected year month) as [m|] eqn:Hmonth;
      [exists m; reflexivity|].
    assert (Hok : args_ok year month city = true)
      by (apply args_ok_checks; eauto).
    congruence. }
  split; [|exact Hrej].
  intros csv. split.
  - intros (log & Hrun).
    destruct (args_ok year month city) eqn:Hargs; [|reflexivity].
    apply args_ok_checks in Hargs.
    destruct Hargs as ((name & Hcity) & Hyear & Hmonth).
    destruct (read_file csv) as [log' r] eqn:Hread.
    rewrite (max_temp_delta_after_read year month city name csv log' r
               Hcity Hyear Hmonth Hread) in Hrun.
    destruct r as [e|data]; [discriminate|].
    destruct (city_records name data); [discriminate|].
    destruct (max_temp_delta_query year month l); discriminate.
  - intros Hargs. destruct (Hrej Hargs) as (m & Hm).
    exists [m]. apply Hm.
Qed.

(** X9. On a file with the required headers and readable rows, none
    with a DATE that overflows a C [int] and one of which names the city,
    each command answers from the Records of the city's fully parsed rows
    and nothing else: it prints the value of its query on those records,
    or ends with the exception of that query. *)
Theorem commands_end_to_end year month city name headers rows :
  has_required_headers headers = true ->
  forallb (readable headers) rows = true ->
  forallb (date_fits headers) rows = true ->
  city_name city = Some name ->
  names_city headers rows name = true ->
  exists log,
    days_of_precip city (headers :: rows) =
      (log,
       match avg_precip_days (records_in headers rows name) with
       | inl e => inl e
       | inr avg => inr (Some (DaysOfPrecip city avg))
       end) /\
    (args_ok year month city = true ->
     max_temp_delta year month city (headers :: rows) =
       (log,
        match max_temp_delta_query year month (records_in headers rows name) with
        | inl e => inl e
        | inr result =>
            inr (Some (MaxTempDelta city (fst result) (snd result)))
        end)).
Proof.
  intros Hreq Hread Hfits Hcity Hnamed.
  destruct (read_rows_total headers Hreq rows 0%nat [] Hread Hfits)
    as (log & data & Hrun).
  destruct (read_rows_returns headers Hreq rows _ _ _ _ Hrun)
    as (Hrec & Hkeys & _).
  assert (Hfile : read_file (headers :: rows) = (log, inr (Some data))).
  { now rewrite (read_file_rows headers Hreq), Hrun. }
  assert (Hget : city_records name (Some data)
                 = inr (records_in headers rows name)).
  { specialize (Hkeys name). rewrite Hnamed in Hkeys. cbn in Hkeys.
    specialize (Hrec name). unfold records_of in Hrec. cbn in Hrec.
    unfold city_records, PyDict.getitem. unfold PyDict.contains in Hkeys.
    destruct (sget data name); [now rewrite Hrec | discriminate]. }
  exists log. split.
  - rewrite (days_of_precip_after_read city name _ log _ Hcity Hfile).
    now rewrite Hget.
  - intros Hargs. apply args_ok_checks in Hargs.
    destruct Hargs as (_ & Hyear & Hmonth).
    rewrite (max_temp_delta_after_read year month city name _ log _
               Hcity Hyear Hmonth Hfile).
    now rewrite Hget.
Qed.
End Commands.

(* ================================================================== *)
(** * More on the precipitation query                                  *)
(* ================================================================== *)

Lemma zget_set_other (d : list (Z * Z)) k v k' :
  k <> k' ->
  PyDict.get Z.eqb (PyDict.set Z.eqb d k v) k' = PyDict.get Z.eqb d k'.
Proof. apply get_set_other, Z.eqb_eq. Qed.

Lemma days_in_year_nonneg y dates : 0 <= days_in_year y dates.
Proof. unfold days_in_year. lia. Qed.

Lemma days_in_year_cons y d dates :
  days_in_year y (d :: dates)
  = (if Datetime.year d =? y then 1 else 0) + days_in_year y dates.
Proof.
  unfold days_in_year. cbn [filter].
  destruct (Datetime.year d =? y); cbn [List.length]; lia.
Qed.

Lemma count_years_counts_from dates : forall year_days,
  exists year_days',
    count_years dates year_days = inr year_days' /\
    forall y,
      PyDict.get Z.eqb year_days' y =
        match PyDict.get Z.eqb year_days y with
        | Some c => Some (c + days_in_year y dates)
        | None => if days_in_year y dates =? 0 then None
                  else Some (days_in_year y dates)
        end.
Proof.
  induction dates as [|d rest IH]; intros yd.
  - exists yd. split; [reflexivity|]. intros y. cbn.
    destruct (PyDict.get Z.eqb yd y); [f_equal; lia | reflexivity].
  - cbn [count_years]. cbv zeta.
    set (y0 := Datetime.year d).
    assert (Hens : forall y,
      PyDict.get Z.eqb (ensure_year yd y0) y =
        if y0 =? y
        then Some match PyDict.get Z.eqb yd y0 with Some c => c | None => 0 end
        else PyDict.get Z.eqb yd y).
    { intros y. unfold ensure_year, PyDict.contains.
      destruct (Z.eqb_spec y0 y) as [<-|Hne].
      - destruct (PyDict.get Z.eqb yd y0) eqn:E; [assumption|].
        apply zget_set_same.
      - destruct (PyDict.get Z.eqb yd y0); [reflexivity|].
        now apply zget_set_other. }
    unfold PyDict.getitem. rewrite (Hens y0), Z.eqb_refl.
    set (c0 := match PyDict.get Z.eqb yd y0 with Some c => c | None => 0 end).
    destruct (IH (PyDict.set Z.eqb (ensure_year yd y0) y0 (c0 + 1)))
      as (yd' & Hrun & Hget).
    exists yd'. split; [exact Hrun|].
    intros y. rewrite Hget, days_in_year_cons. fold y0.
    pose proof (days_in_year_nonneg y rest) as Hpos.
    destruct (Z.eqb_spec y0 y) as [<-|Hne].
    + rewrite zget_set_same. subst c0.
      destruct (PyDict.get Z.eqb yd y0).
      * f_equal. lia.
      * destruct (1 + days_in_year y0 rest =? 0) eqn:E0.
        -- apply Z.eqb_eq in E0. lia.
        -- f_equal; lia.
    + rewrite zget_set_other, Hens by assumption.
      destruct (Z.eqb_spec y0 y); [contradiction|].
      cbn [Z.add]. reflexivity.
Qed.

(** X10. The loop of [days_of_precip] never raises, and the dictionary
    it builds has a key exactly for the years in which some of the dates
    fall, each holding the number of those dates. *)
Theorem count_years_counts (dates : list Datetime.date) :
  exists year_days,
    count_years dates [] = inr year_days /\
    forall y,
      PyDict.get Z.eqb year_days y =
        if days_in_year y dates =? 0 then None
        else Some (days_in_year y dates).
Proof. apply (count_years_counts_from dates []). Qed.

Lemma avg_precip_days_closed (data : list Date) :
  let dates := map date (filter has_precip data) in
  avg_precip_days data =
    int_truediv (Z.of_nat (List.length dates))
      (Z.of_nat (List.length (nodup Z.eq_dec (map Datetime.year dates)))).
Proof.
  intros dates. unfold avg_precip_days. fold has_precip. fold dates.
  destruct (count_years_spec dates []) as (yd & -> & Hsum & Hnd & Hkeys);
    [constructor|].
  rewrite py_sum_sumZ, Hsum. cbn [PyDict.values map sumZ fold_right Z.add].
  f_equal. f_equal. apply same_elements_length;
    [assumption | apply NoDup_nodup |].
  intros y. rewrite Hkeys, nodup_In. cbn. tauto.
Qed.

Lemma Permutation_filter_same {A} (f : A -> bool) (l l' : list A) :
  Permutation l l' -> Permutation (filter f l) (filter f l').
Proof.
  induction 1 as [|x l l' _ IH|x y l|l l' l'' _ IH1 _ IH2]; cbn.
  - constructor.
  - destruct (f x); [now constructor | assumption].
  - destruct (f x), (f y); try reflexivity. apply perm_swap.
  - now transitivity (filter f l').
Qed.

(** X11. The value of [avg_precip_days] does not depend on the order
    of the records: reordering the rows of a city changes nothing. *)
Theorem avg_precip_days_permutation (data data' : list Date) :
  Permutation data data' -> avg_precip_days data = avg_precip_days data'.
Proof.
  intros Hperm. rewrite !avg_precip_days_closed. cbv zeta.
  assert (Hdates : Permutation (map date (filter has_precip data))
                               (map date (filter has_precip data'))).
  { apply Permutation_map, Permutation_filter_same, Hperm. }
  f_equal; f_equal.
  - apply Permutation_length, Hdates.
  - apply same_elements_length; try apply NoDup_nodup.
    intros y. rewrite !nodup_In.
    split; apply Permutation_in, Permutation_map;
      [exact Hdates | symmetry; exact Hdates].
Qed.

(* ================================================================== *)
(** * More on the temperature query                                    *)
(* ================================================================== *)

Lemma considered_in year month data r :
  In r (considered year month data) ->
  In r data /\
  (forall y, year = Some y -> Datetime.year (date r) = y) /\
  (forall m, month = Some m -> Datetime.month (date r) = m).
Proof.
  unfold considered. destruct year as [y|], month as [m|]; intros Hin.
  - apply filter_In in Hin. destruct Hin as [Hin Hf].
    apply andb_true_iff in Hf. unfold in_year, in_month in Hf.
    rewrite !Z.eqb_eq in Hf.
    repeat split; [assumption | intros ? [= <-]; tauto | intros ? [= <-]; tauto].
  - apply filter_In in Hin. destruct Hin as [Hin Hf].
    unfold in_year in Hf. rewrite Z.eqb_eq in Hf.
    repeat split; [assumption | intros ? [= <-]; assumption | discriminate].
  - destruct Hin.
  - repeat split; [assumption | discriminate | discriminate].
Qed.

Lemma max_from_first {A} (key : A -> float) (items : list A) (m : A) :
  (forall x, In x items -> (key m <? key x)%float = false) ->
  max_from key m items = m.
Proof.
  induction items as [|x rest IH]; intros Hmax; [reflexivity|].
  cbn [max_from]. rewrite (Hmax x) by now left.
  apply IH. intros y Hy. apply Hmax. now right.
Qed.

Lemma nan_not_lt (x y : float) :
  is_nan x = true -> (x <? y)%float = false.
Proof.
  unfold is_nan. rewrite negb_true_iff, eqb_spec, ltb_spec.
  unfold SFeqb, SFltb, SFcompare.
  destruct (Prim2SF x) as [[]|[]| |[] mx ex]; try discriminate;
    [reflexivity | |];
    rewrite Z.compare_refl, Pos.compare_cont_refl; discriminate.
Qed.

Section MaxTempDeltaMore.
Context {B : PyBuiltins}.

(** X12. Whenever the query returns, the date it returns is the date of
    a record of the data that lies in the requested year and month, and
    the value is that record's delta, rounded. *)
Theorem max_temp_delta_query_in_filter year month data day value :
  max_temp_delta_query year month data = inr (day, value) ->
  exists r,
    In r data /\ day = date r /\ value = py_round (temp_delta r) 14 /\
    (forall y, year = Some y -> Datetime.year day = y) /\
    (forall m, month = Some m -> Datetime.month day = m).
Proof.
  unfold max_temp_delta_query. rewrite select_tdeltas_considered.
  destruct (considered year month data) as [|first rest] eqn:Econs;
    [discriminate|].
  cbn [map py_max].
  destruct (max_from_spec snd (map tdelta rest) (tdelta first))
    as (i & Hnth & _).
  change (tdelta first :: map tdelta rest) with (map tdelta (first :: rest))
    in Hnth.
  rewrite nth_error_map in Hnth.
  destruct (nth_error (first :: rest) i) as [r|] eqn:Er; [|discriminate].
  cbn [option_map] in Hnth. injection Hnth as Hr. rewrite <- Hr.
  cbn [tdelta fst snd]. intros [= <- <-].
  assert (Hin : In r (considered year month data)).
  { rewrite Econs. eapply nth_error_In, Er. }
  destruct (considered_in year month data r Hin) as (Hdata & Hy & Hm).
  exists r. repeat split; assumption.
Qed.

(** X13. A delta that is not a number wins when it comes first: if the
    first considered record has a NaN delta (for instance TMAX and TMIN
    both infinite), its date is returned whatever the other records
    hold, because no comparison with NaN is true. *)
Theorem max_temp_delta_nan_first year month data first rest :
  considered year month data = first :: rest ->
  is_nan (temp_delta first) = true ->
  max_temp_delta_query year month data
  = inr (date first, py_round (temp_delta first) 14).
Proof.
  intros Hcons Hnan. unfold max_temp_delta_query.
  rewrite select_tdeltas_considered, Hcons. cbn [map py_max].
  rewrite max_from_first; [reflexivity|].
  intros x _. cbn [tdelta snd]. now apply nan_not_lt.
Qed.
End MaxTempDeltaMore.

(* ================================================================== *)
(** * The city key                                                     *)
(* ================================================================== *)

Lemma lower_ascii_space c : lower_ascii c = " "%char -> c = " "%char.
Proof.
  destruct c as [[] [] [] [] [] [] [] []]; vm_compute; intros H;
    try reflexivity; discriminate H.
Qed.

Lemma lower_ascii_idem c : lower_ascii (lower_ascii c) = lower_ascii c.
Proof. destruct c as [[] [] [] [] [] [] [] []]; reflexivity. Qed.

Lemma chars_lower s :
  list_ascii_of_string (lower s) = map lower_ascii (list_ascii_of_string s).
Proof. induction s as [|c s IH]; cbn; [reflexivity | now rewrite IH]. Qed.

Lemma chars_remove_char x s c :
  In c (list_ascii_of_string (remove_char x s)) <->
  In c (list_ascii_of_string s) /\ c <> x.
Proof.
  induction s as [|a s IH]; cbn; [tauto|].
  destruct (Ascii.eqb_spec a x) as [->|Hne]; cbn; rewrite IH.
  - split; [tauto|]. intros [[<-|H] Hc]; [contradiction | tauto].
  - split; [|tauto]. intros [<-|H]; [split; [now left | assumption] | tauto].
Qed.

Lemma split_hd_no_sep sep s c :
  In c (list_ascii_of_string (hd EmptyString (split sep s))) -> c <> sep.
Proof.
  induction s as [|a s IH]; cbn; [tauto|].
  destruct (Ascii.eqb_spec a sep) as [->|Hne]; cbn; [tauto|].
  pose proof (split_not_nil sep s) as Hnil.
  destruct (split sep s) as [|piece pieces]; [contradiction|].
  cbn in *. intros [<-|Hin]; [assumption | now apply IH].
Qed.

Lemma split_no_sep sep s :
  (forall c, In c (list_ascii_of_string s) -> c <> sep) -> split sep s = [s].
Proof.
  induction s as [|a s IH]; intros Hno; [reflexivity|].
  cbn. destruct (Ascii.eqb_spec a sep) as [->|Hne].
  - exfalso. apply (Hno sep); [now left | reflexivity].
  - rewrite IH; [reflexivity|]. intros c Hc. apply Hno. now right.
Qed.

Lemma lower_fixed s :
  (forall c, In c (list_ascii_of_string s) -> lower_ascii c = c) -> lower s = s.
Proof.
  induction s as [|a s IH]; intros Hfix; [reflexivity|].
  cbn. rewrite (Hfix a) by now left. rewrite IH; [reflexivity|].
  intros c Hc. apply Hfix. now right.
Qed.

Lemma remove_char_absent x s :
  (forall c, In c (list_ascii_of_string s) -> c <> x) -> remove_char x s = s.
Proof.
  induction s as [|a s IH]; intros Hno; [reflexivity|].
  cbn. destruct (Ascii.eqb_spec a x) as [->|Hne].
  - exfalso. apply (Hno x); [now left | reflexivity].
  - rewrite IH; [reflexivity|]. intros c Hc. apply Hno. now right.
Qed.

(** X14. The city key of any NAME field is computed without error, holds
    no space, no comma and no upper-case ASCII letter, and is its own
    city key: normalising twice changes nothing. *)
Theorem city_key_normal (field : string) :
  exists key,
    city_key field = inr key /\
    (forall c, In c (list_ascii_of_string key) ->
               c <> " "%char /\ c <> ","%char /\ lower_ascii c = c) /\
    city_key key = inr key.
Proof.
  exists (city_of field). split; [apply city_key_total|].
  assert (Hchars : forall c, In c (list_ascii_of_string (city_of field)) ->
            c <> " "%char /\ c <> ","%char /\ lower_ascii c = c).
  { intros c Hc. unfold city_of in Hc.
    apply chars_remove_char in Hc. destruct Hc as [Hc Hcomma].
    rewrite chars_lower in Hc. apply in_map_iff in Hc.
    destruct Hc as (a & <- & Ha). apply split_hd_no_sep in Ha.
    repeat split; [|assumption | apply lower_ascii_idem].
    intros Hsp. apply Ha, lower_ascii_space, Hsp. }
  split; [exact Hchars|].
  rewrite city_key_total. f_equal. unfold city_of at 1.
  rewrite split_no_sep by (intros c Hc; now destruct (Hchars c Hc)).
  cbn [hd].
  rewrite lower_fixed
    by (intros c Hc; now destruct (Hchars c Hc) as (_ & _ & Hl)).
  apply remove_char_absent. intros c Hc.
  now destruct (Hchars c Hc) as (_ & Hcomma & _).
Qed.

(** The examples of the comments of lines 92-94. *)
Example city_key_examples :
  city_key "MIAMI INTERNATIONAL AIRPORT, FL US" = inr "miami" /\
  city_key "JUNEAU AIRPORT, AK US" = inr "juneau" /\
  city_key "BOSTON, MA US" = inr "boston".
Proof. repeat split; reflexivity. Qed.

(* ================================================================== *)
(** * Dates as text                                                    *)
(* ================================================================== *)

Lemma digit_char_value k : digit_value (digit_char k) = Some (k mod 10).
Proof.
  unfold digit_char. pose proof (Z.mod_pos_bound k 10 ltac:(lia)) as Hk.
  remember (k mod 10) as z eqn:Ez. clear Ez.
  assert (Hz : z = 0 \/ z = 1 \/ z = 2 \/ z = 3 \/ z = 4 \/ z = 5 \/ z = 6
               \/ z = 7 \/ z = 8 \/ z = 9) by lia.
  repeat (destruct Hz as [-> | Hz]; [reflexivity|]). now rewrite Hz.
Qed.

Lemma digit_char_not_dash k : digit_char k <> "-"%char.
Proof.
  intros H. pose proof (digit_char_value k) as Hv. rewrite H in Hv.
  discriminate Hv.
Qed.

Lemma digits_value_app s1 s2 : forall acc,
  digits_value acc (s1 ++ s2)%string =
    match digits_value acc s1 with
    | Some a => digits_value a s2
    | None => None
    end.
Proof.
  induction s1 as [|c s1 IH]; intros acc; cbn; [reflexivity|].
  destruct (digit_value c); [apply IH | reflexivity].
Qed.

Lemma digits_value_padded width : forall n acc,
  digits_value acc (zero_padded width n)
  = Some (acc * 10 ^ Z.of_nat width + n mod 10 ^ Z.of_nat width).
Proof.
  induction width as [|w IH]; intros n acc.
  - cbn. rewrite Z.mod_1_r. f_equal. lia.
  - cbn [zero_padded]. rewrite digits_value_app, IH. cbn [digits_value].
    rewrite digit_char_value. f_equal.
    rewrite Nat2Z.inj_succ, Z.pow_succ_r by lia.
    rewrite (Z.rem_mul_r n 10 (10 ^ Z.of_nat w)) by lia. lia.
Qed.

Lemma chars_app s1 s2 :
  list_ascii_of_string (s1 ++ s2)%string
  = list_ascii_of_string s1 ++ list_ascii_of_string s2.
Proof. induction s1 as [|c s1 IH]; cbn; [reflexivity | now rewrite IH]. Qed.

Lemma padded_chars width : forall n c,
  In c (list_ascii_of_string (zero_padded width n)) ->
  exists k, c = digit_char k.
Proof.
  induction width as [|w IH]; intros n c; cbn; [tauto|].
  rewrite chars_app, in_app_iff. cbn.
  intros [Hin | [<- | []]]; [now apply (IH (n / 10)) | eauto].
Qed.

Lemma padded_all_digits width n : all_digits (zero_padded width n) = true.
Proof.
  assert (Hall : forall s, (forall c, In c (list_ascii_of_string s) ->
                                      exists k, c = digit_char k) ->
                           all_digits s = true).
  { induction s as [|c s IHs]; intros Hs; [reflexivity|].
    cbn. destruct (Hs c) as (k & ->); [now left|].
    rewrite digit_char_value. apply IHs. intros c' Hc'. apply Hs. now right. }
  apply Hall, padded_chars.
Qed.

Lemma unsigned_int_padded w n :
  0 <= n < 10 ^ Z.of_nat (S w) ->
  unsigned_int (zero_padded (S w) n) = Some n.
Proof.
  intros Hn. unfold unsigned_int.
  pose proof (digits_value_padded (S w) n 0) as Hv.
  rewrite Z.mod_small in Hv by assumption. cbn [Z.mul Z.add] in Hv.
  destruct (zero_padded (S w) n) eqn:E; [|exact Hv].
  cbn [zero_padded] in E. destruct (zero_padded w (n / 10)); discriminate E.
Qed.

Lemma split_app_sep sep a b :
  (forall c, In c (list_ascii_of_string a) -> c <> sep) ->
  split sep (a ++ String sep b)%string = a :: split sep b.
Proof.
  induction a as [|x a IH]; intros Hno; cbn.
  - now rewrite Ascii.eqb_refl.
  - destruct (Ascii.eqb_spec x sep) as [->|Hne].
    + exfalso. apply (Hno sep); [now left | reflexivity].
    + rewrite IH; [reflexivity|]. intros c Hc. apply Hno. now right.
Qed.

Lemma padded_no_dash width n c :
  In c (list_ascii_of_string (zero_padded width n)) -> c <> "-"%char.
Proof.
  intros Hc. destruct (padded_chars width n c Hc) as (k & ->).
  apply digit_char_not_dash.
Qed.

Lemma split_date_str d :
  split "-" (date_str d) =
  [zero_padded 4 (Datetime.year d); zero_padded 2 (Datetime.month d);
   zero_padded 2 (Datetime.day d)].
Proof.
  unfold date_str.
  change (?a ++ "-" ++ ?b)%string with (a ++ String "-" b)%string.
  rewrite split_app_sep by apply padded_no_dash.
  change ("-" ++ ?b)%string with (String "-" b).
  rewrite split_app_sep by apply padded_no_dash.
  now rewrite split_no_sep by apply padded_no_dash.
Qed.

Lemma new_date_fields args d :
  Datetime.new args = inr d ->
  args = [Datetime.year d; Datetime.month d; Datetime.day d] /\
  1 <= Datetime.year d <= 9999 /\ 1 <= Datetime.month d <= 12 /\
  1 <= Datetime.day d <= 31.
Proof.
  unfold Datetime.new.
  destruct (3 <? List.length args)%nat; [discriminate|].
  destruct (negb (forallb Datetime.fits_c_int args)); [discriminate|].
  destruct args as [|y [|m [|dd [|x rest]]]]; try discriminate.
  destruct (_ && _) eqn:E; [|discriminate].
  intros [= <-]. cbn.
  rewrite !andb_true_iff, !Z.leb_le in E.
  pose proof (days_in_month_bound y m).
  repeat split; lia.
Qed.

Section DateText.
Context {B : PyBuiltins}.

(** X15. A date survives the trip through the output: when [int] reads
    texts of decimal digits as the numbers they write, the text that
    [DataEncoder.default] gives for a date built by [date(...)], split
    and parsed as [read_file] parses a DATE field, is that date again. *)
Theorem date_text_round_trip args d :
  (forall s, all_digits s = true -> py_int s = unsigned_int s) ->
  Datetime.new args = inr d ->
  DataEncoder.default (VDay d) = inr (VStr (date_str d)) /\
  read_date (split "-" (date_str d)) = inr d /\
  parse_date (date_str d) = Some d.
Proof.
  intros Hint Hnew. split; [reflexivity|].
  destruct (new_date_fields args d Hnew) as (-> & Hy & Hm & Hd).
  assert (Hread : read_date (split "-" (date_str d)) = inr d).
  { rewrite split_date_str. unfold read_date. cbn [int_all].
    rewrite !Hint by apply padded_all_digits.
    rewrite !unsigned_int_padded by (cbn; lia).
    now rewrite Hnew. }
  split; [exact Hread|].
  now rewrite parse_date_read_date, Hread.
Qed.
End DateText.

Lemma decimal_int_digits s :
  all_digits s = true -> decimal_int s = unsigned_int s.
Proof.
  destruct s as [|c s]; [reflexivity|].
  destruct c as [[] [] [] [] [] [] [] []]; try reflexivity.
  cbn. discriminate.
Qed.

Lemma date_text_round_trip_witness :
  (forall s, all_digits s = true ->
             py_int (PyBuiltins := literal_builtins) s = unsigned_int s) /\
  Datetime.new [2016; 2; 29] = inr (Datetime.mkdate 2016 2 29) /\
  DataEncoder.default (VDay (Datetime.mkdate 2016 2 29))
    = inr (VStr "2016-02-29") /\
  read_date (B := literal_builtins) (split "-" "2016-02-29")
    = inr (Datetime.mkdate 2016 2 29) /\
  parse_date (B := literal_builtins) "2016-02-29"
    = Some (Datetime.mkdate 2016 2 29).
Proof.
  split; [exact decimal_int_digits|]. split; [reflexivity|].
  exact (date_text_round_trip (B := literal_builtins) [2016; 2; 29]
           (Datetime.mkdate 2016 2 29) decimal_int_digits eq_refl).
Defined.

(* ================================================================== *)
(** * The properties beyond the claims at concrete inputs              *)
(* ================================================================== *)

Lemma read_file_diagnostics_witness :
  has_required_headers example_headers = true /\
  read_file (B := literal_builtins) example_csv
    = (example_log, inr (Some example_dataset)) /\
  forall n,
    (exists m, In m example_log /\ skip_diagnostic n m) <->
    (exists row, nth_error (tl example_csv) n = Some row /\
                 row_record (B := literal_builtins) example_headers row = None).
Proof.
  split; [reflexivity|]. split; [reflexivity|].
  apply (read_file_diagnostics (B := literal_builtins) example_headers
           (tl example_csv) example_log example_dataset); reflexivity.
Defined.

Lemma read_file_silent_witness :
  has_required_headers example_headers = true /\
  read_file (B := literal_builtins) clean_csv
    = ([], inr (Some [("boston", example_boston)])) /\
  ([] = @nil message <->
   (forall row, In row (tl clean_csv) ->
                row_record (B := literal_builtins) example_headers row <> None)).
Proof.
  split; [reflexivity|]. split; [reflexivity|].
  apply (read_file_silent (B := literal_builtins) example_headers
           (tl clean_csv) [] [("boston", example_boston)]); reflexivity.
Defined.

Lemma read_file_prefix_witness :
  has_required_headers example_headers = true /\
  read_file (B := literal_builtins)
    (example_headers :: firstn 2 (tl example_csv) ++ skipn 2 (tl example_csv))
    = (example_log, inr (Some example_dataset)) /\
  exists log1 data1 log2,
    read_file (B := literal_builtins)
      (example_headers :: firstn 2 (tl example_csv))
      = (log1, inr (Some data1)) /\
    example_log = log1 ++ log2 /\
    forall city, records_of example_dataset city
                 = records_of data1 city
                   ++ records_in (B := literal_builtins) example_headers
                        (skipn 2 (tl example_csv)) city.
Proof.
  split; [reflexivity|]. split; [reflexivity|].
  apply (read_file_prefix (B := literal_builtins) example_headers
           (firstn 2 (tl example_csv)) (skipn 2 (tl example_csv))
           example_log example_dataset); reflexivity.
Defined.

Lemma read_file_same_cells_witness :
  has_required_headers example_headers = true /\
  Forall2 (same_cells example_headers) (tl example_csv) example_rows_relabelled /\
  read_file (B := literal_builtins) example_csv
  = read_file (B := literal_builtins)
      (example_headers :: example_rows_relabelled).
Proof.
  assert (Hsame : Forall2 (same_cells example_headers) (tl example_csv)
                    example_rows_relabelled).
  { repeat constructor; intros h Hin;
      repeat (destruct Hin as [<-|Hin]; [reflexivity|]); destruct Hin. }
  split; [reflexivity|]. split; [exact Hsame|].
  exact (read_file_same_cells (B := literal_builtins) example_headers
           (tl example_csv) example_rows_relabelled eq_refl Hsame).
Defined.

Lemma commands_missing_city_witness :
  has_required_headers (hd [] bad_date_csv) = true /\
  read_file (B := literal_builtins) bad_date_csv
    = ([CouldNotParseDate 0 (inr [2015; 13; 40])], inr (Some [("boston", [])])) /\
  city_name "mia" = Some "miami" /\
  names_city (hd [] bad_date_csv) (tl bad_date_csv) "miami" = false /\
  days_of_precip (B := literal_builtins) "mia" bad_date_csv
    = ([CouldNotParseDate 0 (inr [2015; 13; 40])], inl KeyError) /\
  (args_ok (Some 2015) None "mia" = true ->
   max_temp_delta (B := literal_builtins) (Some 2015) None "mia" bad_date_csv
   = ([CouldNotParseDate 0 (inr [2015; 13; 40])], inl KeyError)).
Proof.
  do 4 (split; [reflexivity|]).
  apply (commands_missing_city (B := literal_builtins) (Some 2015) None
           "mia" "miami" (hd [] bad_date_csv) (tl bad_date_csv)
           [CouldNotParseDate 0 (inr [2015; 13; 40])] [("boston", [])]);
    reflexivity.
Defined.

Lemma max_temp_delta_rejects_witness :
  args_ok (Some 2020) (Some 13) "bos" = false /\
  exists m, forall csv,
    max_temp_delta (B := literal_builtins) (Some 2020) (Some 13) "bos" csv
    = ([m], inr None).
Proof.
  split; [reflexivity|].
  apply (max_temp_delta_rejects (B := literal_builtins)
           (Some 2020) (Some 13) "bos").
  reflexivity.
Defined.

Lemma commands_end_to_end_witness :
  has_required_headers example_headers = true /\
  forallb (readable (B := literal_builtins) example_headers) (tl example_csv)
    = true /\
  forallb (date_fits (B := literal_builtins) example_headers) (tl example_csv)
    = true /\
  city_name "bos" = Some "boston" /\
  names_city example_headers (tl example_csv) "boston" = true /\
  exists log,
    days_of_precip (B := literal_builtins) "bos" example_csv
      = (log, inr (Some (DaysOfPrecip "bos" 1%float))) /\
    (args_ok (Some 2016) None "bos" = true ->
     max_temp_delta (B := literal_builtins) (Some 2016) None "bos" example_csv
     = (log, inr (Some (MaxTempDelta "bos" (Datetime.mkdate 2016 2 29)
                          19.5%float)))).
Proof.
  do 5 (split; [reflexivity|]).
  apply (commands_end_to_end (B := literal_builtins) (Some 2016) None
           "bos" "boston" example_headers (tl example_csv)); reflexivity.
Defined.

Lemma avg_precip_days_permutation_witness :
  Permutation precip_example (rev precip_example) /\
  avg_precip_days precip_example = avg_precip_days (rev precip_example).
Proof.
  split; [apply Permutation_rev|].
  exact (avg_precip_days_permutation precip_example (rev precip_example)
           (Permutation_rev precip_example)).
Defined.

Lemma max_temp_delta_query_in_filter_witness :
  max_temp_delta_query (B := literal_builtins) (Some 2015) None delta_example
    = inr (Datetime.mkdate 2015 1 2, 12.5%float) /\
  exists r,
    In r delta_example /\ Datetime.mkdate 2015 1 2 = date r /\
    12.5%float = py_round (PyBuiltins := literal_builtins) (temp_delta r) 14 /\
    (forall y, Some 2015 = Some y -> Datetime.year (Datetime.mkdate 2015 1 2) = y) /\
    (forall m, @None Z = Some m ->
               Datetime.month (Datetime.mkdate 2015 1 2) = m).
Proof.
  split; [reflexivity|].
  apply (max_temp_delta_query_in_filter (B := literal_builtins)
           (Some 2015) None delta_example).
  reflexivity.
Defined.

Lemma max_temp_delta_nan_first_witness :
  considered None None nan_example = nan_example /\
  is_nan (temp_delta (mkDate (Datetime.mkdate 2015 1 1) 0 0 infinity infinity))
    = true /\
  max_temp_delta_query (B := literal_builtins) None None nan_example
  = inr (Datetime.mkdate 2015 1 1, nan).
Proof.
  split; [reflexivity|]. split; [reflexivity|].
  apply (max_temp_delta_nan_first (B := literal_builtins) None None nan_example
           (mkDate (Datetime.mkdate 2015 1 1) 0 0 infinity infinity)
           [mkDate (Datetime.mkdate 2015 1 2) 0 0 50 30]);
    reflexivity.
Defined.
